(** * Basil disease detection: the two-stage predictor

    A shallow embedding of [backend/app/prediction.py] and
    [backend/app/disease_info.py], and the properties of the feature
    extractors, the model registry and [BasilDiseasePredictor.predict].

    Conventions of the embedding.
    - Python floats are modelled as exact rationals ([Q]); rounding of the
      IEEE arithmetic is outside the model.
    - 8-bit image samples are integers ([Z]) with the wrap-around of
      [uint8] arithmetic written out where the code computes on them.
    - A Python [dict] is an insertion-ordered association list ([PyDict]).
    - Calls into OpenCV, scikit-image and the pickled scikit-learn
      artifacts are not code of this repository: they are fields of the
      records [VisionLib], [Classifier] and [LabelEncoder].
    - Exceptions are the subclasses of [Exception]; [print] is dropped. *)

From Stdlib Require Import String Ascii DecimalString.
From Stdlib Require Import ZArith QArith Qabs Lia Bool List.
Import ListNotations.

Open Scope string_scope.
Open Scope Z_scope.

(** ** Python dictionaries *)

Module PyDict.

Definition t (V : Type) : Type := list (string * V).

Definition empty {V} : t V := [].

(** [d.get(k)] : [None] when the key is absent. *)
Fixpoint get {V} (d : t V) (k : string) : option V :=
  match d with
  | [] => None
  | (k', v) :: d' => if String.eqb k k' then Some v else get d' k
  end.

(** [k in d] *)
Definition mem {V} (k : string) (d : t V) : bool :=
  match get d k with Some _ => true | None => false end.

(** [d[k] = v] : an existing key keeps its position, a new key goes last. *)
Fixpoint set {V} (d : t V) (k : string) (v : V) : t V :=
  match d with
  | [] => [(k, v)]
  | (k', v') :: d' =>
      if String.eqb k k' then (k', v) :: d' else (k', v') :: set d' k v
  end.

(** [list(d.keys())] *)
Definition keys {V} (d : t V) : list string := map fst d.

Definition values {V} (d : t V) : list V := map snd d.

(** [d.get(k, default)] *)
Definition get_default {V} (d : t V) (k : string) (default : V) : V :=
  match get d k with Some v => v | None => default end.

End PyDict.

(** ** Exceptions *)

Inductive Exn : Type :=
| AttributeError (msg : string)
| IndexError (msg : string)
| KeyError (msg : string)
| TypeError (msg : string)
| OtherError (msg : string).

(** [str(e)] *)
Definition str_exn (e : Exn) : string :=
  match e with
  | AttributeError m | IndexError m | TypeError m | OtherError m => m
  | KeyError m => "'" ++ m ++ "'"
  end.

(** The error of an attribute access on [None]. *)
Definition none_has_no_attribute (attr : string) : Exn :=
  AttributeError ("'NoneType' object has no attribute '" ++ attr ++ "'").

(** ** disease_info.py *)

Inductive Severity : Type := severity_none | severity_moderate | severity_severe.

Record DiseaseInfo : Type := mkDiseaseInfo {
  name : string;
  description : string;
  compounds_affected : string;
  properties_lost : string;
  properties_retained : string;
  usability : string;
  medicinal_uses : list string;
  color : string;
  severity : Severity
}.

Definition DISEASE_INFO : PyDict.t DiseaseInfo :=
  [ ("healthy_basil",
     mkDiseaseInfo "Healthy Basil"
       "No symptoms of infection or damage. All key bioactives are retained in full capacity."
       "None" "None" "All retained"
       "Yes – Fully usable for all purposes"
       [ "Herbal teas"; "Ayurveda and Unani medicine"; "Culinary use";
         "Cosmetic and essential oil extraction" ]
       "#4CAF50" severity_none);
    ("downy_mildew",
     mkDiseaseInfo "Downy Mildew"
       "Causes interveinal chlorosis, leading to yellowing of tissue and fungal spore development."
       "Flavonoids, carotenoids" "Antioxidant, anti-inflammatory"
       "Aroma compounds (mild stages)"
       "Yes, for topical use / aroma (early only)"
       [ "Mild aroma-based preparations"; "Herbal infusions (non-ingestible)";
         "Air purifiers" ]
       "#FF9800" severity_moderate);
    ("fusarium_wilt",
     mkDiseaseInfo "Fusarium Wilt"
       "Fungal invasion through roots blocks xylem vessels, disrupting nutrient flow."
       "Eugenol, linalool, methyl chavicol" "Antibacterial, antifungal, digestive"
       "Almost none"
       "No – Unfit for any medicinal use"
       [ "Compost or biowaste (if completely dried and sterilized)" ]
       "#F44336" severity_severe);
    ("gray_mold",
     mkDiseaseInfo "Gray Mold"
       "Leads to soft rot and fuzzy gray fungal growth on the surface."
       "Polyphenols, phenolic acids, tannins"
       "Antioxidant, anti-aging, hepatoprotective"
       "Faint smell (early stage only)"
       "Slight topical use only (early); discard later"
       [ "Topical balms (very early stage)"; "Incense (non-ingestion)" ]
       "#9C27B0" severity_severe);
    ("septoria_leaf_spot",
     mkDiseaseInfo "Septoria Leaf Spot"
       "Develops brown to black necrotic spots surrounded by yellow halos."
       "Chlorophyll, vitamin C, polyphenols"
       "Immunity, rejuvenation, detoxification"
       "Minor essential oils in unaffected areas"
       "Limited non-oral use (early stage only)"
       [ "Aromatherapy (localized spots only)"; "Topical use (if <20% affected)" ]
       "#795548" severity_moderate) ].

(** [c.lower()] on the ASCII range. *)
Definition lower_ascii (c : ascii) : ascii :=
  let n := nat_of_ascii c in
  if (Nat.leb 65 n && Nat.leb n 90)%bool then ascii_of_nat (n + 32) else c.

(** [s.lower()] *)
Fixpoint lower (s : string) : string :=
  match s with
  | EmptyString => EmptyString
  | String c s' => String (lower_ascii c) (lower s')
  end.

(** [get_disease_info(disease_name)]: the table entry of the lower-cased
    name, and the entry of ["healthy_basil"] for a name the table lacks.
    [None] is Python's [None]. *)
Definition get_disease_info (disease_name : string) : option DiseaseInfo :=
  match PyDict.get DISEASE_INFO (lower disease_name) with
  | Some d => Some d
  | None => PyDict.get DISEASE_INFO "healthy_basil"
  end.

(** [get_all_diseases()] *)
Definition get_all_diseases : PyDict.t DiseaseInfo := DISEASE_INFO.

(** ** Outcomes of Python calls *)

(** A call returns a value or raises. *)
Inductive Outcome (A : Type) : Type :=
| Ok (a : A)
| Raise (e : Exn).
Arguments Ok {A} a.
Arguments Raise {A} e.

(** ** Images and arrays *)

(** One pixel of a 3-channel 8-bit raster, channels in memory order.
    [cv2.imread] delivers blue, green, red; [COLOR_BGR2HSV] delivers
    hue, saturation, value. *)
Record Pixel : Type := mkPixel { ch0 : Z; ch1 : Z; ch2 : Z }.

Definition blue (p : Pixel) : Z := ch0 p.
Definition green (p : Pixel) : Z := ch1 p.
Definition red (p : Pixel) : Z := ch2 p.

(** A height x width x 3 array, as rows of pixels. *)
Definition Image : Type := list (list Pixel).

(** A height x width array of samples. *)
Definition Gray : Type := list (list Z).

Definition Contour : Type := list (Z * Z).

(** [a[:, :, c]] *)
Definition channel (c : Pixel -> Z) (a : Image) : Gray := map (map c) a.

(** [a.ravel()] *)
Definition ravel {A} (a : list (list A)) : list A := concat a.

(** [a.shape[1]] *)
Definition shape1 {A} (a : list (list A)) : nat :=
  match a with [] => 0%nat | row :: _ => length row end.

Definition sumZ (l : list Z) : Z := fold_right Z.add 0 l.

Definition sumQ (l : list Q) : Q := fold_right Qplus 0%Q l.

(** [np.mean(a)] of an integer array; the mean of no sample reads 0 here,
    where numpy answers nan. *)
Definition np_mean (a : Gray) : Q :=
  (inject_Z (sumZ (ravel a)) / inject_Z (Z.of_nat (length (ravel a))))%Q.

(** [np.sum(a > 0)] *)
Definition count_positive (a : Gray) : Z :=
  Z.of_nat (length (filter (fun v => 0 <? v) (ravel a))).

(** [np.arange(lo, hi)] *)
Definition np_arange (lo hi : nat) : list Z := map Z.of_nat (seq lo (hi - lo)).

(** The counts of [np.histogram(a, bins=edges)]: bin [i] holds the
    samples of [edges[i] <= v < edges[i+1]], and the last bin holds its
    right edge too. *)
Fixpoint np_histogram (a : list Z) (edges : list Z) : list Z :=
  match edges with
  | lo :: ((hi :: rest) as tl) =>
      let in_bin v :=
        (lo <=? v) && (match rest with [] => v <=? hi | _ => v <? hi end) in
      Z.of_nat (length (filter in_bin a)) :: np_histogram a tl
  | _ => []
  end.

Inductive ThresholdType : Type := THRESH_BINARY | THRESH_BINARY_INV.

(** The image of [cv2.threshold(src, thresh, maxval, type)]. *)
Definition cv2_threshold (src : Gray) (thresh maxval : Z) (ty : ThresholdType) : Gray :=
  map (map (fun v =>
    match ty with
    | THRESH_BINARY => if thresh <? v then maxval else 0
    | THRESH_BINARY_INV => if thresh <? v then 0 else maxval
    end)) src.

(** [cv2.inRange(src, lower, upper)] *)
Definition cv2_inRange (src : Image) (lower upper : Z * Z * Z) : Gray :=
  let '(l0, l1, l2) := lower in
  let '(u0, u1, u2) := upper in
  map (map (fun p =>
    if (l0 <=? ch0 p) && (ch0 p <=? u0) && (l1 <=? ch1 p) && (ch1 p <=? u1)
       && (l2 <=? ch2 p) && (ch2 p <=? u2)
    then 255 else 0)) src.

(** [cv2.flip(a, 1)] : mirror around the vertical axis. *)
Definition cv2_flip_1 {A} (a : list (list A)) : list (list A) := map (@rev A) a.

(** Elementwise operation on two arrays of one shape. *)
Definition zip_with {A B C} (f : A -> B -> C) (xs : list A) (ys : list B) : list C :=
  map (fun xy => f (fst xy) (snd xy)) (combine xs ys).

(** [a - b] on [uint8] samples wraps modulo 256. *)
Definition uint8_sub (a b : Z) : Z := (a - b) mod 256.

(** [max(x :: l)]: the first of the largest elements. *)
Definition max_list (x : Q) (l : list Q) : Q :=
  fold_left (fun m y => if Qle_bool y m then m else y) l x.

(** ** The image libraries *)

(** The calls into OpenCV and scikit-image whose results the model does not
    compute. [health_fault] and [disease_fault] say whether some step of the
    respective extractor raises on the image. The pattern codes of
    [local_binary_pattern] are integral floats, kept as integers. *)
Record VisionLib : Type := mkVisionLib {
  cv2_resize : Image -> nat * nat -> Image;
  cvtColor_BGR2GRAY : Image -> Gray;
  cvtColor_BGR2HSV : Image -> Image;
  graycomatrix : Gray -> list Z -> list Z -> bool -> bool -> list (list Q);
  graycoprops : list (list Q) -> string -> Q;
  findContours : Gray -> list Contour;
  contourArea : Contour -> Q;
  shannon_entropy : Gray -> Q;
  local_binary_pattern : Gray -> Z -> Z -> string -> Gray;
  threshold_otsu : Gray -> Z;
  Canny : Gray -> Z -> Z -> Gray;
  health_fault : Image -> option Exn;
  disease_fault : Image -> option Exn
}.

(** ** Feature extraction *)

Definition LBP_RADIUS : Z := 3.
Definition LBP_POINTS : Z := 8 * LBP_RADIUS.

(** Lines 174-176: the symmetry score of the grayscale image. [gray] is a
    [uint8] array, so is [left - right], and [np.abs] leaves it as it is.
    At the width 640 of the extractor both halves have one shape. *)
Definition symmetry_score (gray : Gray) : Q :=
  let half := (shape1 gray / 2)%nat in
  let left := map (firstn half) gray in
  let right := cv2_flip_1 (map (skipn half) gray) in
  let diff := zip_with (zip_with (fun l r => Z.abs (uint8_sub l r))) left right in
  (1 - np_mean diff / 255)%Q.

(** The constant [1e-6]. *)
Definition epsilon : Q := (1 # 1000000)%Q.

(** Lines 155-160: the normalised histogram of the pattern codes. *)
Definition lbp_histogram (lbp : Gray) : list Q :=
  let hist := np_histogram (ravel lbp)
                (np_arange 0 (Z.to_nat (LBP_POINTS + 3))) in
  let total := (inject_Z (sumZ hist) + epsilon)%Q in
  map (fun c => (inject_Z c / total)%Q) hist.

(** The loop of lines 159-160. *)
Definition store_lbp (hist : list Q) (features : PyDict.t Q) : PyDict.t Q :=
  fold_left
    (fun features i =>
       PyDict.set features ("lbp_" ++ NilZero.string_of_uint (Nat.to_uint i))
         (nth i hist 0%Q))
    (seq 0 (length hist)) features.

Section Extractors.

Variable lib : VisionLib.

(** [extract_health_features(image)] *)
Definition extract_health_features (image : Image) : Outcome (list Q) :=
  match health_fault lib image with
  | Some e => Raise e
  | None =>
      let image := cv2_resize lib image (256, 256)%nat in
      let gray := cvtColor_BGR2GRAY lib image in
      let glcm := graycomatrix lib gray [1] [0] true true in
      let contrast := graycoprops lib glcm "contrast" in
      let dissimilarity := graycoprops lib glcm "dissimilarity" in
      let homogeneity := graycoprops lib glcm "homogeneity" in
      let energy := graycoprops lib glcm "energy" in
      let correlation := graycoprops lib glcm "correlation" in
      let r_mean := np_mean (channel ch0 image) in
      let g_mean := np_mean (channel ch1 image) in
      let b_mean := np_mean (channel ch2 image) in
      let thresh := cv2_threshold gray 1 255 THRESH_BINARY in
      let contours := findContours lib thresh in
      let area :=
        match map (contourArea lib) contours with
        | [] => 0%Q
        | a :: rest => max_list a rest
        end in
      Ok [contrast; dissimilarity; homogeneity; energy; correlation;
          r_mean; g_mean; b_mean; area]
  end.

(** [extract_disease_features(image)] *)
Definition extract_disease_features (image : Image) : Outcome (PyDict.t Q) :=
  match disease_fault lib image with
  | Some e => Raise e
  | None =>
      let features := PyDict.empty in
      let img_resized := cv2_resize lib image (640, 640)%nat in
      let hsv := cvtColor_BGR2HSV lib img_resized in
      let gray := cvtColor_BGR2GRAY lib img_resized in
      let features := PyDict.set features "mean_r" (np_mean (channel ch2 img_resized)) in
      let features := PyDict.set features "mean_g" (np_mean (channel ch1 img_resized)) in
      let features := PyDict.set features "mean_b" (np_mean (channel ch0 img_resized)) in
      let features := PyDict.set features "mean_h" (np_mean (channel ch0 hsv)) in
      let features := PyDict.set features "mean_s" (np_mean (channel ch1 hsv)) in
      let features := PyDict.set features "mean_v" (np_mean (channel ch2 hsv)) in
      let yellow_mask := cv2_inRange hsv (20, 100, 100) (35, 255, 255) in
      let yellow_area := count_positive yellow_mask in
      let features :=
        PyDict.set features "yellow_area_percent"
          (inject_Z yellow_area / inject_Z (640 * 640))%Q in
      let features := PyDict.set features "entropy" (shannon_entropy lib gray) in
      let lbp := local_binary_pattern lib gray LBP_POINTS LBP_RADIUS "uniform" in
      let hist := lbp_histogram lbp in
      let features := store_lbp hist features in
      let binary := cv2_threshold gray (threshold_otsu lib gray) 255 THRESH_BINARY_INV in
      let contours := findContours lib binary in
      let spot_count :=
        length (filter (fun cnt => negb (Qle_bool (contourArea lib cnt) 50)) contours) in
      let features := PyDict.set features "spot_count" (inject_Z (Z.of_nat spot_count)) in
      let edges := Canny lib gray 50 150 in
      let edge_density := (inject_Z (count_positive edges) / inject_Z (640 * 640))%Q in
      let features := PyDict.set features "edge_density" edge_density in
      let features := PyDict.set features "symmetry_score" (symmetry_score gray) in
      Ok features
  end.

End Extractors.

(** ** Model artifacts *)

(** What a classifier is handed: [[features]], [features_df.values] or
    the one-row frame [features_df] with its column names. *)
Inductive ModelInput : Type :=
| PyList (row : list Q)
| NdArray (row : list Q)
| DataFrame (columns : list string) (row : list Q).

Module sklearn.

(** A pickled classifier: [predict(X)[0]], [predict_proba(X)[0]] when the
    object has the attribute, and [feature_names_in_] when it has it. *)
Record Classifier : Type := mkClassifier {
  predict : ModelInput -> Outcome Z;
  predict_proba : option (ModelInput -> Outcome (list Q));
  feature_names_in_ : option (list string)
}.

(** A pickled label encoder: [inverse_transform([label])[0]]. *)
Record LabelEncoder : Type := mkLabelEncoder {
  inverse_transform : Z -> Outcome string
}.

End sklearn.

(** A file of the model directory. *)
Inductive File (A : Type) : Type :=
| Absent
| Pickled (a : A)
| Corrupt (e : Exn).
Arguments Absent {A}.
Arguments Pickled {A} a.
Arguments Corrupt {A} e.

(** [os.path.exists(path)] *)
Definition os_path_exists {A} (f : File A) : bool :=
  match f with Absent => false | _ => true end.

(** [joblib.load(path)] *)
Definition joblib_load {A} (f : File A) : Outcome A :=
  match f with
  | Pickled a => Ok a
  | Corrupt e => Raise e
  | Absent => Raise (OtherError "No such file or directory")
  end.

(** The directory [model_path], one field per file name that
    [load_models] looks for. *)
Record ModelDir : Type := mkModelDir {
  healthy_vs_diseased_model_pkl : File sklearn.Classifier;
  disease_classifier_model_pkl : File sklearn.Classifier;
  disease_label_encoder_pkl : File sklearn.LabelEncoder;
  healthy_vs_diseased_svm_model_pkl : File sklearn.Classifier;
  svm_disease_classifier_model_pkl : File sklearn.Classifier;
  healthy_vs_diseased_knn_model_pkl : File sklearn.Classifier;
  knn_disease_classifier_model_pkl : File sklearn.Classifier;
  knn_disease_label_encoder_pkl : File sklearn.LabelEncoder
}.

(** ** The predictor object *)

(** [self.models] and [self.label_encoders]; a key may hold [None]. *)
Record BasilDiseasePredictor : Type := mkPredictor {
  models : PyDict.t (option sklearn.Classifier);
  label_encoders : PyDict.t (option sklearn.LabelEncoder)
}.

Definition set_model (self : BasilDiseasePredictor) (k : string)
    (v : option sklearn.Classifier) : BasilDiseasePredictor :=
  mkPredictor (PyDict.set (models self) k v) (label_encoders self).

Definition set_encoder (self : BasilDiseasePredictor) (k : string)
    (v : option sklearn.LabelEncoder) : BasilDiseasePredictor :=
  mkPredictor (models self) (PyDict.set (label_encoders self) k v).

(** [d.get(k)] of a dictionary whose values may be [None]. *)
Definition get_or_None {V} (d : PyDict.t (option V)) (k : string) : option V :=
  match PyDict.get d k with Some v => v | None => None end.

(** One [if] statement of [load_models]: the predictor after it, or the
    exception it raises (before any assignment of the statement). *)
Definition LoadStep : Type := BasilDiseasePredictor -> Outcome BasilDiseasePredictor.

(** [if os.path.exists(path): self.models[key] = joblib.load(path)] *)
Definition load_model_if_exists (f : File sklearn.Classifier) (key : string) : LoadStep :=
  fun self =>
    if os_path_exists f then
      match joblib_load f with
      | Ok m => Ok (set_model self key (Some m))
      | Raise e => Raise e
      end
    else Ok self.

Section LoadModels.

Variable dir : ModelDir.

(** Lines 28-30, 32-34, 36-38 and 44-46. *)
Definition load_rf_health : LoadStep :=
  load_model_if_exists (healthy_vs_diseased_model_pkl dir) "random_forest_health".

Definition load_rf_disease : LoadStep :=
  load_model_if_exists (disease_classifier_model_pkl dir) "random_forest_disease".

Definition load_rf_encoder : LoadStep :=
  fun self =>
    if os_path_exists (disease_label_encoder_pkl dir) then
      match joblib_load (disease_label_encoder_pkl dir) with
      | Ok enc => Ok (set_encoder self "random_forest" (Some enc))
      | Raise e => Raise e
      end
    else Ok self.

Definition load_svm_health : LoadStep :=
  load_model_if_exists (healthy_vs_diseased_svm_model_pkl dir) "svm_health".

(** Lines 48-51. *)
Definition load_svm_disease : LoadStep :=
  fun self =>
    if os_path_exists (svm_disease_classifier_model_pkl dir) then
      match joblib_load (svm_disease_classifier_model_pkl dir) with
      | Ok m =>
          let self := set_model self "svm_disease" (Some m) in
          Ok (set_encoder self "svm"
                (get_or_None (label_encoders self) "random_forest"))
      | Raise e => Raise e
      end
    else Ok self.

(** Lines 58-60. *)
Definition load_knn_health : LoadStep :=
  load_model_if_exists (healthy_vs_diseased_knn_model_pkl dir) "knn_health".

(** Lines 62-68. *)
Definition load_knn_disease : LoadStep :=
  fun self =>
    if os_path_exists (knn_disease_classifier_model_pkl dir) then
      match joblib_load (knn_disease_classifier_model_pkl dir) with
      | Ok m => Ok (set_model self "knn_disease" (Some m))
      | Raise e => Raise e
      end
    else if os_path_exists (healthy_vs_diseased_knn_model_pkl dir) then
      Ok (set_model self "knn_disease"
            (get_or_None (models self) "random_forest_disease"))
    else Ok self.

(** Lines 70-76. *)
Definition load_knn_encoder : LoadStep :=
  fun self =>
    if os_path_exists (knn_disease_label_encoder_pkl dir) then
      match joblib_load (knn_disease_label_encoder_pkl dir) with
      | Ok enc => Ok (set_encoder self "knn" (Some enc))
      | Raise e => Raise e
      end
    else if PyDict.mem "knn_health" (models self) then
      Ok (set_encoder self "knn"
            (get_or_None (label_encoders self) "random_forest"))
    else Ok self.

(** The body of the [try]: the statements run in order, and the first
    exception ends the loading with what was bound so far. *)
Fixpoint run_load_steps (steps : list LoadStep) (self : BasilDiseasePredictor)
    : BasilDiseasePredictor :=
  match steps with
  | [] => self
  | step :: rest =>
      match step self with
      | Ok self' => run_load_steps rest self'
      | Raise _ => self
      end
  end.

(** [load_models(self)] *)
Definition load_models (self : BasilDiseasePredictor) : BasilDiseasePredictor :=
  run_load_steps
    [ load_rf_health; load_rf_disease; load_rf_encoder;
      load_svm_health; load_svm_disease;
      load_knn_health; load_knn_disease; load_knn_encoder ] self.

(** [BasilDiseasePredictor(model_path)] *)
Definition new_predictor : BasilDiseasePredictor :=
  load_models (mkPredictor PyDict.empty PyDict.empty).

End LoadModels.

(** ** Effects of a request *)

(** The calls a request makes to its collaborators, in order. *)
Inductive Event : Type :=
| Ev_imread (path : string)
| Ev_extract_health_features
| Ev_extract_disease_features
| Ev_predict (model_key : string) (x : ModelInput)
| Ev_predict_proba (model_key : string) (x : ModelInput)
| Ev_inverse_transform (encoder_key : string) (label : Z)
| Ev_get_disease_info (disease_name : string).

(** The state a request threads: how often the clock was read, and the
    calls made so far (oldest first). *)
Record World : Type := mkWorld {
  clock_reads : nat;
  calls : list Event
}.

(** What a request reads from outside: the clock (the value of its n-th
    reading), the decoder, and the image libraries. *)
Record Env : Type := mkEnv {
  time_time : nat -> Q;
  cv2_imread : string -> Outcome (option Image);
  vision : VisionLib
}.

(** State and exceptions. *)
Definition M (A : Type) : Type := World -> Outcome A * World.

Definition ret {A} (a : A) : M A := fun w => (Ok a, w).

Definition raise {A} (e : Exn) : M A := fun w => (Raise e, w).

Definition bind {A B} (m : M A) (k : A -> M B) : M B :=
  fun w =>
    match m w with
    | (Ok a, w') => k a w'
    | (Raise e, w') => (Raise e, w')
    end.

Notation "x <- m ;; k" := (bind m (fun x => k))
  (at level 61, m at next level, right associativity).
Notation "m ;;; k" := (bind m (fun _ => k))
  (at level 61, right associativity).

(** [try: m except Exception as e: h e] *)
Definition try_except {A} (m : M A) (h : Exn -> M A) : M A :=
  fun w =>
    match m w with
    | (Ok a, w') => (Ok a, w')
    | (Raise e, w') => h e w'
    end.

Definition lift {A} (o : Outcome A) : M A := fun w => (o, w).

Definition log (ev : Event) : M unit :=
  fun w => (Ok tt, mkWorld (clock_reads w) (calls w ++ [ev])).

(** [time.time()] *)
Definition now (env : Env) : M Q :=
  fun w => (Ok (time_time env (clock_reads w)), mkWorld (S (clock_reads w)) (calls w)).

(** ** The result of a request *)

(** The dictionary [predict] returns, with the fields of
    [models.PredictionResponse]; a key the dictionary lacks reads [None]. *)
Record PredictionResult : Type := mkResult {
  success : bool;
  prediction : option string;
  confidence : option Q;
  disease_info : option DiseaseInfo;
  processing_time : Q;
  message : option string
}.

(** [str(list_of_strings)] for keys that need no escaping. *)
Fixpoint join (sep : string) (l : list string) : string :=
  match l with
  | [] => ""
  | [s] => s
  | s :: rest => s ++ sep ++ join sep rest
  end.

Definition str_list (l : list string) : string :=
  "[" ++ join ", " (map (fun s => "'" ++ s ++ "'") l) ++ "]".

(** [a[i]] on a sequence: a negative index counts from the end. *)
Definition py_index (a : list Q) (i : Z) : Outcome Q :=
  let n := Z.of_nat (length a) in
  let j := if i <? 0 then i + n else i in
  if (0 <=? j) && (j <? n) then
    match nth_error a (Z.to_nat j) with
    | Some v => Ok v
    | None => Raise (IndexError "index out of bounds")
    end
  else Raise (IndexError "index out of bounds").

(** [d[k]] *)
Definition py_getitem {V} (d : PyDict.t V) (k : string) : Outcome V :=
  match PyDict.get d k with
  | Some v => Ok v
  | None => Raise (KeyError k)
  end.

(** Lines 281-284. *)
Definition expected_features : list string :=
  [ "mean_r"; "mean_g"; "mean_b"; "mean_h"; "mean_s"; "mean_v";
    "yellow_area_percent"; "entropy" ]
  ++ map (fun i => "lbp_" ++ NilZero.string_of_uint (Nat.to_uint i)) (seq 0 26)
  ++ [ "spot_count"; "edge_density"; "symmetry_score" ].

(** [{col: disease_features.get(col, 0) for col in df_columns}] *)
Definition features_dict_of (df_columns : list string) (disease_features : PyDict.t Q)
    : PyDict.t Q :=
  fold_left
    (fun d col => PyDict.set d col (PyDict.get_default disease_features col 0%Q))
    df_columns PyDict.empty.

(** Lines 286-287. *)
Definition features_list_of (disease_features : PyDict.t Q) : list Q :=
  map (fun feat_name => PyDict.get_default disease_features feat_name 0%Q)
    expected_features.

(** [hasattr(model, 'feature_names_in_')] with the attribute's value. *)
Definition get_feature_names (model : option sklearn.Classifier) : option (list string) :=
  match model with
  | Some c => sklearn.feature_names_in_ c
  | None => None
  end.

(** [hasattr(model, 'predict_proba')] with the attribute's value. *)
Definition get_predict_proba (model : option sklearn.Classifier)
    : option (ModelInput -> Outcome (list Q)) :=
  match model with
  | Some c => sklearn.predict_proba c
  | None => None
  end.

(** [model.predict(x)[0]] *)
Definition call_predict (key : string) (model : option sklearn.Classifier)
    (x : ModelInput) : M Z :=
  match model with
  | None => raise (none_has_no_attribute "predict")
  | Some c => log (Ev_predict key x) ;;; lift (sklearn.predict c x)
  end.

(** [proba(x)[0]] for the bound method [proba = model.predict_proba]. *)
Definition call_predict_proba (key : string)
    (proba : ModelInput -> Outcome (list Q)) (x : ModelInput) : M (list Q) :=
  log (Ev_predict_proba key x) ;;; lift (proba x).

(** [encoder.inverse_transform([label])[0]] *)
Definition call_inverse_transform (key : string) (encoder : option sklearn.LabelEncoder)
    (label : Z) : M string :=
  match encoder with
  | None => raise (none_has_no_attribute "inverse_transform")
  | Some enc => log (Ev_inverse_transform key label) ;;; lift (sklearn.inverse_transform enc label)
  end.

(** [get_disease_info(disease_name)] *)
Definition call_get_disease_info (disease_name : string) : M (option DiseaseInfo) :=
  log (Ev_get_disease_info disease_name) ;;; ret (get_disease_info disease_name).

(** ** predict *)

Section Predict.

Variable env : Env.
Variable self : BasilDiseasePredictor.

(** The four-key dictionary of every failing [return]. *)
Definition error_result (start_time : Q) (msg : string) : M PredictionResult :=
  t <- now env ;;
  ret (mkResult false (Some "Error") None None (t - start_time)%Q (Some msg)).

(** Line 214: the message of a backend without health model. *)
Definition model_not_available (model_type : string) : string :=
  "Model " ++ model_type ++ " not available. Available models: "
  ++ str_list (PyDict.keys (models self)).

(** [self.extract_health_features(image)] *)
Definition call_extract_health_features (image : Image) : M (list Q) :=
  log Ev_extract_health_features ;;;
  lift (extract_health_features (vision env) image).

(** [self.extract_disease_features(image)] *)
Definition call_extract_disease_features (image : Image) : M (PyDict.t Q) :=
  log Ev_extract_disease_features ;;;
  lift (extract_disease_features (vision env) image).

(** Lines 222-230: the confidence of the health prediction. *)
Definition health_confidence_of (key : string) (health_model : option sklearn.Classifier)
    (health_features : list Q) (health_prediction : Z) : M Q :=
  let health_confidence := 0.95%Q in
  match get_predict_proba health_model with
  | Some proba =>
      try_except
        (health_probs <- call_predict_proba key proba (PyList health_features) ;;
         lift (py_index health_probs health_prediction))
        (fun _ => ret health_confidence)
  | None => ret health_confidence
  end.

(** Lines 267-303: the body of the [try] of the KNN branch; it yields
    [disease_prediction] and [confidence]. *)
Definition knn_disease_block (key : string) (disease_model : option sklearn.Classifier)
    (disease_features : PyDict.t Q) : M (Z * Q) :=
  let x :=
    match get_feature_names disease_model with
    | Some df_columns =>
        let features_dict := features_dict_of df_columns disease_features in
        NdArray (PyDict.values features_dict)
    | None => PyList (features_list_of disease_features)
    end in
  disease_prediction <- call_predict key disease_model x ;;
  let confidence := 0.75%Q in
  match get_predict_proba disease_model with
  | Some proba =>
      confidence <-
        try_except
          (disease_probs <- call_predict_proba key proba x ;;
           lift (py_index disease_probs disease_prediction))
          (fun _ => ret confidence) ;;
      ret (disease_prediction, confidence)
  | None => ret (disease_prediction, confidence)
  end.

(** Lines 264-336: the disease prediction; [inl r] is an early
    [return r], [inr] carries [disease_prediction] and [confidence] on. *)
Definition disease_infer (start_time : Q) (model_type disease_model_key : string)
    (disease_model : option sklearn.Classifier) (disease_features : PyDict.t Q)
    : M (PredictionResult + Z * Q) :=
  if String.eqb model_type "knn" && PyDict.mem "knn_disease" (models self) then
    try_except
      (pc <- knn_disease_block disease_model_key disease_model disease_features ;;
       ret (inr pc))
      (fun e =>
         r <- error_result start_time ("KNN disease prediction error: " ++ str_exn e) ;;
         ret (inl r))
  else
    match get_feature_names disease_model with
    | Some df_columns =>
        let features_dict := features_dict_of df_columns disease_features in
        let features_df := DataFrame (PyDict.keys features_dict) (PyDict.values features_dict) in
        disease_prediction <- call_predict disease_model_key disease_model features_df ;;
        match get_predict_proba disease_model with
        | Some proba =>
            disease_probs <- call_predict_proba disease_model_key proba features_df ;;
            confidence <- lift (py_index disease_probs disease_prediction) ;;
            ret (inr (disease_prediction, confidence))
        | None => ret (inr (disease_prediction, 0.75%Q))
        end
    | None =>
        r <- error_result start_time "Model feature names not available" ;;
        ret (inl r)
    end.

(** Lines 338-361: the label, the disease record and the result. *)
Definition label_resolve (start_time : Q) (model_type : string)
    (disease_prediction : Z) (confidence : Q) : M PredictionResult :=
  let encoder_key :=
    if PyDict.mem model_type (label_encoders self) then model_type
    else "random_forest" in
  if negb (PyDict.mem encoder_key (label_encoders self)) then
    error_result start_time "Label encoder not available"
  else
    encoder <- lift (py_getitem (label_encoders self) encoder_key) ;;
    disease_name <- call_inverse_transform encoder_key encoder disease_prediction ;;
    disease_info <- call_get_disease_info disease_name ;;
    match disease_info with
    | None => raise (TypeError "'NoneType' object is not subscriptable")
    | Some info =>
        t <- now env ;;
        ret (mkResult true (Some ("Diseased Plant - " ++ name info))
               (Some confidence) disease_info (t - start_time)%Q None)
    end.

(** Lines 243-361: the diseased branch. *)
Definition diseased_branch (start_time : Q) (model_type : string) (image : Image)
    : M PredictionResult :=
  disease_features <- call_extract_disease_features image ;;
  let disease_model_key := model_type ++ "_disease" in
  let continue disease_model_key :=
    disease_model <- lift (py_getitem (models self) disease_model_key) ;;
    pc <- disease_infer start_time model_type disease_model_key disease_model
            disease_features ;;
    match pc with
    | inl r => ret r
    | inr (disease_prediction, confidence) =>
        label_resolve start_time model_type disease_prediction confidence
    end in
  if negb (PyDict.mem disease_model_key (models self)) then
    let disease_model_key := "random_forest_disease" in
    if negb (PyDict.mem disease_model_key (models self)) then
      error_result start_time "No disease classification model available"
    else continue disease_model_key
  else continue disease_model_key.

(** Lines 189-361: the body of the [try]. *)
Definition predict_body (start_time : Q) (image_path model_type : string)
    : M PredictionResult :=
  log (Ev_imread image_path) ;;;
  image <- lift (cv2_imread env image_path) ;;
  match image with
  | None => error_result start_time "Could not load image"
  | Some image =>
      health_features <- call_extract_health_features image ;;
      let health_model_key := model_type ++ "_health" in
      if negb (PyDict.mem health_model_key (models self)) then
        error_result start_time (model_not_available model_type)
      else
        health_model <- lift (py_getitem (models self) health_model_key) ;;
        health_prediction <-
          call_predict health_model_key health_model (PyList health_features) ;;
        health_confidence <-
          health_confidence_of health_model_key health_model health_features
            health_prediction ;;
        if health_prediction =? 0 then
          disease_info <- call_get_disease_info "healthy_basil" ;;
          t <- now env ;;
          ret (mkResult true (Some "Healthy Plant") (Some health_confidence)
                 disease_info (t - start_time)%Q None)
        else diseased_branch start_time model_type image
  end.

(** [predict(self, image_path, model_type)] *)
Definition predict (image_path model_type : string) : M PredictionResult :=
  start_time <- now env ;;
  try_except
    (predict_body start_time image_path model_type)
    (fun e => error_result start_time ("Prediction error: " ++ str_exn e)).

End Predict.

(** A request starts with a clock not yet read and no call made. *)
Definition fresh : World := mkWorld 0 [].

(** ** main.py: the service around the predictor *)

(** [s.startswith(p)] is [String.prefix p s]. *)

(** [s.replace(old, new)] for a non-empty [old]: the occurrences of [old]
    are replaced from the left, without overlap. [skip] counts the
    characters of a replaced occurrence still to pass. *)
Fixpoint replace_from (old new : string) (skip : nat) (s : string) : string :=
  match s with
  | EmptyString => EmptyString
  | String c s' =>
      match skip with
      | S k => replace_from old new k s'
      | O =>
          if String.prefix old s
          then new ++ replace_from old new (String.length old - 1) s'
          else String c (replace_from old new 0 s')
      end
  end.

Definition str_replace (old new s : string) : string := replace_from old new 0 s.

(** The text after the last [sep] of [s], when [s] has one. *)
Fixpoint after_last (sep : ascii) (s : string) : option string :=
  match s with
  | EmptyString => None
  | String c s' =>
      match after_last sep s' with
      | Some r => Some r
      | None => if Ascii.eqb c sep then Some s' else None
      end
  end.

(** [s.split(sep)[-1]] *)
Definition last_segment (sep : ascii) (s : string) : string :=
  match after_last sep s with
  | Some r => r
  | None => s
  end.

(** [s.endswith("/")] *)
Fixpoint ends_with_slash (s : string) : bool :=
  match s with
  | EmptyString => false
  | String c EmptyString => Ascii.eqb c "/"
  | String _ s' => ends_with_slash s'
  end.

(** [os.path.join(a, b)] on POSIX paths. *)
Definition os_path_join (a b : string) : string :=
  if String.prefix "/" b then b
  else if String.eqb a "" || ends_with_slash a then a ++ b
  else a ++ "/" ++ b.

(** [x in l] for strings. *)
Definition str_in (x : string) (l : list string) : bool := existsb (String.eqb x) l.

Module main.

(** The configuration read from the environment at import. *)
Record Config : Type := mkConfig {
  MODEL_PATH : string;
  SAMPLE_IMAGES_PATH : string;
  UPLOAD_PATH : string;
  MAX_FILE_SIZE : Z;
  ALLOWED_EXTENSIONS : list string
}.

(** The defaults of lines 35-39. *)
Definition default_config : Config :=
  mkConfig "./models" "./sample_images" "./uploads" 10485760
    ["jpg"; "jpeg"; "png"; "bmp"].

(** [models.ModelInfo] *)
Record ModelInfo : Type := mkModelInfo {
  name : string;
  description : string;
  accuracy : option Q
}.

(** [get_available_models()]; [listed] is the list the function calls
    [models]. *)
Definition get_available_models (predictor : BasilDiseasePredictor) : list ModelInfo :=
  let listed := [] in
  let listed :=
    if PyDict.mem "random_forest_health" (models predictor)
    then (listed ++ [mkModelInfo "random_forest"
                       "Random Forest Classifier - Good balance of accuracy and speed"
                       (Some 0.92%Q)])%list
    else listed in
  let listed :=
    if PyDict.mem "svm_health" (models predictor)
    then (listed ++ [mkModelInfo "svm"
                       "Support Vector Machine - High accuracy for complex patterns"
                       (Some 0.89%Q)])%list
    else listed in
  let listed :=
    if PyDict.mem "knn_health" (models predictor)
    then (listed ++ [mkModelInfo "knn"
                       "K-Nearest Neighbors - Simple and interpretable"
                       (Some 0.87%Q)])%list
    else listed in
  listed.

(** What a route answers: a response, or an [HTTPException]. *)
Inductive HTTPResult (A : Type) : Type :=
| Respond (a : A)
| HTTPException (status_code : Z) (detail : string).
Arguments Respond {A} a.
Arguments HTTPException {A} status_code detail.

(** An [UploadFile]: its name and the bytes [file.read()] delivers. *)
Record UploadFile : Type := mkUploadFile {
  filename : string;
  contents : list Byte.byte
}.

(** [upload_file(file)]. [file_id] is [str(uuid.uuid4())]; the response
    comes with the file written: its path and its bytes. *)
Definition upload_file (cfg : Config) (file_id : string) (file : UploadFile)
    : HTTPResult (PredictionResult * (string * list Byte.byte)) :=
  if String.eqb (filename file) "" then HTTPException 400 "No file provided"
  else
    let file_extension := lower (last_segment "." (filename file)) in
    if negb (str_in file_extension (ALLOWED_EXTENSIONS cfg)) then
      HTTPException 400
        ("File type not allowed. Supported: " ++ join ", " (ALLOWED_EXTENSIONS cfg))
    else
      let contents := contents file in
      if MAX_FILE_SIZE cfg <? Z.of_nat (length contents) then
        HTTPException 400 "File too large"
      else
        let file_id := file_id in
        let filename := file_id ++ "." ++ file_extension in
        let file_path := os_path_join (UPLOAD_PATH cfg) filename in
        Respond
          (mkResult true (Some "File uploaded successfully") None None 0%Q
             (Some ("/uploads/" ++ filename)),
           (file_path, contents)).

(** The response of a request that [predict_disease] turns down. *)
Definition rejected (msg : string) : PredictionResult :=
  mkResult false (Some "Error") None None 0%Q (Some msg).

(** [predict_disease(model_type, image_path)]. [path_exists] is
    [os.path.exists]; the response model built from the result dictionary
    has the fields of the result. *)
Definition predict_disease (cfg : Config) (path_exists : string -> bool)
    (env : Env) (predictor : BasilDiseasePredictor)
    (model_type image_path : string) : M PredictionResult :=
  let available_models := ["random_forest"; "svm"; "knn"] in
  if negb (str_in model_type available_models) then
    ret (rejected "Invalid model type")
  else
    let continue full_path :=
      if negb (path_exists full_path) then ret (rejected "Image not found")
      else
        result <- predict env predictor full_path model_type ;;
        ret result in
    if String.prefix "/samples/" image_path then
      continue (str_replace "/samples/" (SAMPLE_IMAGES_PATH cfg ++ "/") image_path)
    else if String.prefix "/uploads/" image_path then
      continue (str_replace "/uploads/" (UPLOAD_PATH cfg ++ "/") image_path)
    else ret (rejected "Invalid image path").

End main.

(** ** Specification vocabulary *)

(** [post m w Qok Qex]: run from [w], [m] returns a value and a world in
    [Qok], or raises an exception and leaves a world in [Qex]. *)
Definition post {A} (m : M A) (w : World)
    (Qok : A -> World -> Prop) (Qex : Exn -> World -> Prop) : Prop :=
  match m w with
  | (Ok a, w') => Qok a w'
  | (Raise e, w') => Qex e w'
  end.

(** A result that reports the time since [start_time] at the clock's
    [n]-th reading and, when it is a failure, says so in the shape of
    every failing [return]. *)
Definition reports (env : Env) (start_time : Q) (n : nat) (r : PredictionResult) : Prop :=
  processing_time r = (time_time env n - start_time)%Q
  /\ (success r = false ->
      prediction r = Some "Error" /\ exists msg, message r = Some msg).

(** A probability. *)
Definition in_unit_interval (p : Q) : Prop := (0 <= p /\ p <= 1)%Q.

(** Every probability vector a classifier of the registry returns holds
    probabilities. *)
Definition probabilities_in_range (self : BasilDiseasePredictor) : Prop :=
  forall key m proba x probs,
    PyDict.get (models self) key = Some m ->
    get_predict_proba m = Some proba ->
    proba x = Ok probs ->
    Forall in_unit_interval probs.

(** [c] is an entry of a probability vector returned by the classifier
    bound to [key]. *)
Definition supplied_by (self : BasilDiseasePredictor) (key : string) (c : Q) : Prop :=
  exists m proba x probs,
    PyDict.get (models self) key = Some m /\
    get_predict_proba m = Some proba /\
    proba x = Ok probs /\
    In c probs.

(** Where the confidence [c] of a successful result of backend
    [model_type] comes from: the stage's classifier, or the default of
    the stage. *)
Definition confidence_source (self : BasilDiseasePredictor) (model_type : string)
    (r : PredictionResult) (c : Q) : Prop :=
  (prediction r = Some "Healthy Plant"
   /\ (c = 0.95%Q \/ supplied_by self (model_type ++ "_health") c))
  \/ (prediction r <> Some "Healthy Plant"
      /\ (c = 0.75%Q
          \/ supplied_by self (model_type ++ "_disease") c
          \/ supplied_by self "random_forest_disease" c)).

(** The names of a list in the order of their first occurrences: the keys
    of a dictionary comprehension over the list. *)
Definition first_occurrences (names : list string) : list string :=
  fold_left
    (fun ks x => if existsb (String.eqb x) ks then ks else (ks ++ [x])%list)
    names [].

(** The values of the named features, 0 for a name the map lacks. *)
Definition select_features (disease_features : PyDict.t Q) (names : list string) : list Q :=
  map (fun n => PyDict.get_default disease_features n 0%Q) names.

(** The canonical order of the data model. *)
Definition canonical_order : list string :=
  [ "mean_r"; "mean_g"; "mean_b"; "mean_h"; "mean_s"; "mean_v";
    "yellow_area_percent"; "entropy";
    "lbp_0"; "lbp_1"; "lbp_2"; "lbp_3"; "lbp_4"; "lbp_5"; "lbp_6"; "lbp_7";
    "lbp_8"; "lbp_9"; "lbp_10"; "lbp_11"; "lbp_12"; "lbp_13"; "lbp_14";
    "lbp_15"; "lbp_16"; "lbp_17"; "lbp_18"; "lbp_19"; "lbp_20"; "lbp_21";
    "lbp_22"; "lbp_23"; "lbp_24"; "lbp_25";
    "spot_count"; "edge_density"; "symmetry_score" ].

(** What the KNN branch hands its classifier. *)
Definition knn_input (disease_model : sklearn.Classifier) (disease_features : PyDict.t Q)
    : ModelInput :=
  match sklearn.feature_names_in_ disease_model with
  | Some names =>
      NdArray (select_features disease_features (first_occurrences names))
  | None => PyList (select_features disease_features canonical_order)
  end.

(** The key of the disease classifier of a backend: its own, and the
    random forest's when it has none. *)
Definition disease_key_resolves (self : BasilDiseasePredictor) (model_type key : string)
    : Prop :=
  PyDict.mem key (models self) = true
  /\ (key = model_type ++ "_disease"
      \/ (PyDict.mem (model_type ++ "_disease") (models self) = false
          /\ key = "random_forest_disease")).

(** What the requests handed to [predict] of the classifier bound to
    [key], oldest first. *)
Definition classifier_inputs (key : string) (evs : list Event) : list ModelInput :=
  flat_map
    (fun ev =>
       match ev with
       | Ev_predict k x => if String.eqb k key then [x] else []
       | _ => []
       end)
    evs.

(** The request reaches the disease stage with the feature map
    [disease_features]: the image loads, its health features are
    extracted, the backend's health classifier answers a class other than
    0 on them, and the disease features are extracted. *)
Definition reaches_disease_stage (env : Env) (self : BasilDiseasePredictor)
    (image_path model_type : string) (disease_features : PyDict.t Q) : Prop :=
  exists image health_features health_model label,
    cv2_imread env image_path = Ok (Some image)
    /\ extract_health_features (vision env) image = Ok health_features
    /\ PyDict.get (models self) (model_type ++ "_health") = Some (Some health_model)
    /\ sklearn.predict health_model (PyList health_features) = Ok label
    /\ label <> 0
    /\ extract_disease_features (vision env) image = Ok disease_features.

(** The one-row frame of the RF/SVM branch. *)
Definition frame_input (names : list string) (disease_features : PyDict.t Q) : ModelInput :=
  DataFrame (first_occurrences names)
    (select_features disease_features (first_occurrences names)).

(** The classifier can give the confidence of [label] on [x]: it has no
    [predict_proba], or the vector it returns has an entry at [label]. *)
Definition confidence_available (m : sklearn.Classifier) (x : ModelInput) (label : Z) : Prop :=
  match sklearn.predict_proba m with
  | None => True
  | Some proba => exists probs c, proba x = Ok probs /\ py_index probs label = Ok c
  end.

(** A failing result with the message [msg]. *)
Definition fails_with (o : Outcome PredictionResult) (msg : string) : Prop :=
  exists r, o = Ok r /\ success r = false /\ message r = Some msg.

(** The symmetry score in the words of the specification: 1 minus the mean
    absolute difference of the left half and the mirrored right half,
    over 255. *)
Definition mean_absolute_difference_score (gray : Gray) : Q :=
  let half := (shape1 gray / 2)%nat in
  let left := map (firstn half) gray in
  let right := cv2_flip_1 (map (skipn half) gray) in
  let diff := zip_with (zip_with (fun l r => Z.abs (l - r))) left right in
  (1 - np_mean diff / 255)%Q.

(** The names of the histogram bins. *)
Definition lbp_names : list string :=
  map (fun i => "lbp_" ++ NilZero.string_of_uint (Nat.to_uint i)) (seq 0 26).

(** The pattern codes of a valid image: one at least, each a uniform
    pattern code of 24 points, 0 to 25. *)
Definition lbp_codes_valid (codes : list Z) : bool :=
  match codes with
  | [] => false
  | _ => forallb (fun c => (0 <=? c) && (c <=? 25)) codes
  end.

(** The grayscale image of the disease extractor. *)
Definition disease_gray (lib : VisionLib) (image : Image) : Gray :=
  cvtColor_BGR2GRAY lib (cv2_resize lib image (640, 640)%nat).

(** Some bin of the edges holds the sample [v]. *)
Fixpoint covered (edges : list Z) (v : Z) : bool :=
  match edges with
  | lo :: ((hi :: rest) as tl) =>
      ((lo <=? v) && (match rest with [] => v <=? hi | _ => v <? hi end))
      || covered tl v
  | _ => false
  end.

(** [m] leaves the inputs of the classifier bound to [key] as they are. *)
Definition quiet {A} (key : string) (m : M A) : Prop :=
  forall w,
    post m w
      (fun _ w' => classifier_inputs key (calls w') = classifier_inputs key (calls w))
      (fun _ w' => classifier_inputs key (calls w') = classifier_inputs key (calls w)).

(** The entry of the name [n] in a dictionary comprehension over the
    feature map. *)
Definition feature_entry (features : PyDict.t Q) (n : string) : string * Q :=
  (n, PyDict.get_default features n 0%Q).

(** ** Vocabulary of the further properties *)

(** The record of the healthy identifier. *)
Definition healthy_record : option DiseaseInfo := PyDict.get DISEASE_INFO "healthy_basil".

(** A file that is absent or loads. *)
Definition file_loads {A} (f : File A) : bool :=
  match f with Corrupt _ => false | _ => true end.

(** No file of the directory fails to load. *)
Definition no_corrupt_file (dir : ModelDir) : bool :=
  file_loads (healthy_vs_diseased_model_pkl dir)
  && file_loads (disease_classifier_model_pkl dir)
  && file_loads (disease_label_encoder_pkl dir)
  && file_loads (healthy_vs_diseased_svm_model_pkl dir)
  && file_loads (svm_disease_classifier_model_pkl dir)
  && file_loads (healthy_vs_diseased_knn_model_pkl dir)
  && file_loads (knn_disease_classifier_model_pkl dir)
  && file_loads (knn_disease_label_encoder_pkl dir).

(** A file that exists and fails to load. *)
Definition file_corrupt {A} (f : File A) : bool :=
  match f with Corrupt _ => true | _ => false end.

(** Only the keys of the fallbacks hold [None]. *)
Definition None_only_at_fallbacks (self : BasilDiseasePredictor) : Prop :=
  (forall key, PyDict.get (models self) key = Some None -> key = "knn_disease")
  /\ (forall key,
        PyDict.get (label_encoders self) key = Some None ->
        key = "svm" \/ key = "knn").


(** The confidence of the health stage and of the KNN branch: the entry of
    the classifier's probability vector at [label], and [default] when
    the classifier has no [predict_proba], when [predict_proba] raises and
    when the vector has no such entry. *)
Definition confidence_or (default : Q) (m : sklearn.Classifier) (x : ModelInput)
    (label : Z) : Q :=
  match sklearn.predict_proba m with
  | None => default
  | Some proba =>
      match proba x with
      | Ok probs =>
          match py_index probs label with
          | Ok c => c
          | Raise _ => default
          end
      | Raise _ => default
      end
  end.

(** The confidence of the RF/SVM branch, when there is one: 0.75 without
    [predict_proba], otherwise the entry of the vector at [label]. *)
Definition standard_confidence (m : sklearn.Classifier) (x : ModelInput) (label : Z)
    (c : Q) : Prop :=
  match sklearn.predict_proba m with
  | None => c = 0.75%Q
  | Some proba => exists probs, proba x = Ok probs /\ py_index probs label = Ok c
  end.

(** The key of the encoder of a backend: its own, and [random_forest]
    when it has none. *)
Definition encoder_key_of (self : BasilDiseasePredictor) (model_type : string) : string :=
  if PyDict.mem model_type (label_encoders self) then model_type else "random_forest".

(** The successful result of the diseased branch. *)
Definition diseased_result (r : PredictionResult) (info : DiseaseInfo) (c : Q) : Prop :=
  success r = true
  /\ prediction r = Some ("Diseased Plant - " ++ name info)
  /\ confidence r = Some c
  /\ disease_info r = Some info
  /\ message r = None.

(** The left half of the grayscale image is the mirror image of its right
    half. *)
Definition mirror_symmetric (gray : Gray) : Prop :=
  map (firstn (shape1 gray / 2)) gray
  = cv2_flip_1 (map (skipn (shape1 gray / 2)) gray).

(** Every sample of the image is an 8-bit value. *)
Definition image_8bit (img : Image) : bool :=
  forallb
    (forallb (fun p =>
       (0 <=? ch0 p) && (ch0 p <=? 255) && (0 <=? ch1 p) && (ch1 p <=? 255)
       && (0 <=? ch2 p) && (ch2 p <=? 255)))
    img.

(** The areas of the contours the health extractor finds. *)
Definition leaf_contour_areas (lib : VisionLib) (image : Image) : list Q :=
  let image := cv2_resize lib image (256, 256)%nat in
  let gray := cvtColor_BGR2GRAY lib image in
  let thresh := cv2_threshold gray 1 255 THRESH_BINARY in
  map (contourArea lib) (findContours lib thresh).

(** The HSV image and the edge image of the disease extractor. *)
Definition disease_hsv (lib : VisionLib) (image : Image) : Image :=
  cvtColor_BGR2HSV lib (cv2_resize lib image (640, 640)%nat).

Definition disease_edges (lib : VisionLib) (image : Image) : Gray :=
  Canny lib (disease_gray lib image) 50 150.

(** The paths handed to [cv2.imread], in the order of the calls. *)
Definition image_reads (evs : list Event) : list string :=
  flat_map (fun ev => match ev with Ev_imread p => [p] | _ => [] end) evs.

(** The character [c] does not occur in [s]. *)
Fixpoint lacks (c : ascii) (s : string) : bool :=
  match s with
  | EmptyString => true
  | String c' s' => negb (Ascii.eqb c' c) && lacks c s'
  end.

(** A computation that calls [cv2.imread] on no file. *)
Definition reads_nothing {A} (m : M A) : Prop :=
  forall w,
    post m w
      (fun _ w' => image_reads (calls w') = image_reads (calls w))
      (fun _ w' => image_reads (calls w') = image_reads (calls w)).

(** ** The outcome of a request *)

(** What the disease stage of backend [model_type] gets from the
    classifier [disease_model] on the feature map: the label it predicts
    and the confidence [c]. Under the condition of line 265 the input is
    the one of the KNN branch and the confidence falls back to 0.75;
    otherwise the classifier must carry feature names, the input is the
    one-row frame, and the confidence is the entry of its probability
    vector, 0.75 without [predict_proba]. *)
Definition disease_classified (self : BasilDiseasePredictor) (model_type : string)
    (disease_model : sklearn.Classifier) (disease_features : PyDict.t Q)
    (label : Z) (c : Q) : Prop :=
  if String.eqb model_type "knn" && PyDict.mem "knn_disease" (models self) then
    sklearn.predict disease_model (knn_input disease_model disease_features) = Ok label
    /\ c = confidence_or 0.75 disease_model
             (knn_input disease_model disease_features) label
  else
    exists names,
      sklearn.feature_names_in_ disease_model = Some names
      /\ sklearn.predict disease_model (frame_input names disease_features) = Ok label
      /\ standard_confidence disease_model (frame_input names disease_features) label c.

(** [r] is the result of a request that ran through the healthy branch:
    the image loads, its health features are extracted, the backend's
    health classifier answers class 0, and [r] carries the prediction, the
    confidence of the health stage and the healthy record. *)
Definition healthy_outcome (env : Env) (self : BasilDiseasePredictor)
    (image_path model_type : string) (r : PredictionResult) : Prop :=
  exists image health_features health_model,
    cv2_imread env image_path = Ok (Some image)
    /\ extract_health_features (vision env) image = Ok health_features
    /\ PyDict.get (models self) (model_type ++ "_health") = Some (Some health_model)
    /\ sklearn.predict health_model (PyList health_features) = Ok 0
    /\ success r = true
    /\ prediction r = Some "Healthy Plant"
    /\ confidence r
       = Some (confidence_or 0.95 health_model (PyList health_features) 0)
    /\ disease_info r = healthy_record
    /\ message r = None.

(** [r] is the result of a request that ran through the diseased branch:
    it reaches the disease stage, the disease classifier of the backend
    (or the random forest's) answers a label with a confidence, the encoder
    of the backend (or the random forest's) decodes the label, and [r]
    carries the record of the decoded identifier. *)
Definition diseased_outcome (env : Env) (self : BasilDiseasePredictor)
    (image_path model_type : string) (r : PredictionResult) : Prop :=
  exists disease_features key disease_model label c encoder disease_name info,
    reaches_disease_stage env self image_path model_type disease_features
    /\ disease_key_resolves self model_type key
    /\ PyDict.get (models self) key = Some (Some disease_model)
    /\ disease_classified self model_type disease_model disease_features label c
    /\ PyDict.get (label_encoders self) (encoder_key_of self model_type)
       = Some (Some encoder)
    /\ sklearn.inverse_transform encoder label = Ok disease_name
    /\ get_disease_info disease_name = Some info
    /\ diseased_result r info c.

(** Every stage of the request answered, and [r] is what they yield. *)
Definition runs_through (env : Env) (self : BasilDiseasePredictor)
    (image_path model_type : string) (r : PredictionResult) : Prop :=
  healthy_outcome env self image_path model_type r
  \/ diseased_outcome env self image_path model_type r.

(** The classifier [m] cannot supply a probability of [label] on [x]: it
    has no [predict_proba], [predict_proba] raises, or the vector has no
    entry at [label]. *)
Definition cannot_supply (m : sklearn.Classifier) (x : ModelInput) (label : Z) : Prop :=
  match sklearn.predict_proba m with
  | None => True
  | Some proba =>
      match proba x with
      | Ok probs =>
          match py_index probs label with Ok _ => False | Raise _ => True end
      | Raise _ => True
      end
  end.

(** [c] is the probability that [m] supplies of [label] on [x]. *)
Definition supplies (m : sklearn.Classifier) (x : ModelInput) (label : Z) (c : Q) : Prop :=
  exists proba probs,
    sklearn.predict_proba m = Some proba
    /\ proba x = Ok probs
    /\ py_index probs label = Ok c.

(** The confidence [c] of a stage with the default [default], whose
    classifier [m] answered [label] on [x]: the probability [m] supplies,
    and [default] when it cannot supply one. *)
Definition stage_confidence (default : Q) (m : sklearn.Classifier) (x : ModelInput)
    (label : Z) (c : Q) : Prop :=
  (cannot_supply m x label /\ c = default) \/ supplies m x label c.

(** Where the confidence [c] of the successful result [r] comes from: in a
    ["Healthy Plant"] result the health classifier of the backend, on the
    health features and for class 0, with the default 0.95; in a diseased
    result the disease classifier that the backend resolves to, on the
    input of its branch and for the label it predicted, with the default
    0.75. *)
Definition confidence_of_stage (env : Env) (self : BasilDiseasePredictor)
    (image_path model_type : string) (r : PredictionResult) (c : Q) : Prop :=
  (prediction r = Some "Healthy Plant"
   /\ exists image health_features health_model,
        cv2_imread env image_path = Ok (Some image)
        /\ extract_health_features (vision env) image = Ok health_features
        /\ PyDict.get (models self) (model_type ++ "_health") = Some (Some health_model)
        /\ sklearn.predict health_model (PyList health_features) = Ok 0
        /\ stage_confidence 0.95 health_model (PyList health_features) 0 c)
  \/ (prediction r <> Some "Healthy Plant"
      /\ exists disease_features key disease_model x label,
           reaches_disease_stage env self image_path model_type disease_features
           /\ disease_key_resolves self model_type key
           /\ PyDict.get (models self) key = Some (Some disease_model)
           /\ (if String.eqb model_type "knn"
                  && PyDict.mem "knn_disease" (models self)
               then x = knn_input disease_model disease_features
               else exists names,
                      sklearn.feature_names_in_ disease_model = Some names
                      /\ x = frame_input names disease_features)
           /\ sklearn.predict disease_model x = Ok label
           /\ stage_confidence 0.75 disease_model x label c).

(** ** Executable instances

    A small instance of every interface, on which the definitions above
    run: the texture, contour and edge operators answer constants, and
    [cv2.resize] is replaced by a constant fill. The gray conversion is OpenCV's 14-bit fixed-point formula. *)

Module Sample.

Definition uniform_image (h w : nat) (p : Pixel) : Image := repeat (repeat p w) h.

Definition get_pixel (img : Image) (i j : nat) : Pixel :=
  nth j (nth i img []) (mkPixel 0 0 0).

(** The image itself when it has the requested size, as OpenCV answers;
    otherwise the requested size filled with the top-left sample. *)
Definition resize_sample (img : Image) (size : nat * nat) : Image :=
  let '(w, h) := size in
  if Nat.eqb (length img) h && Nat.eqb (shape1 img) w then img
  else uniform_image h w (get_pixel img 0 0).

Definition bgr2gray (img : Image) : Gray :=
  map (map (fun p =>
    Z.shiftr (red p * 4899 + green p * 9617 + blue p * 1868 + 8192) 14)) img.

Definition bgr2hsv_value_only (img : Image) : Image :=
  map (map (fun p => mkPixel 0 0 (Z.max (blue p) (Z.max (green p) (red p))))) img.

Definition lib : VisionLib :=
  {| cv2_resize := resize_sample;
     cvtColor_BGR2GRAY := bgr2gray;
     cvtColor_BGR2HSV := bgr2hsv_value_only;
     graycomatrix := fun _ _ _ _ _ => [];
     graycoprops := fun _ _ => 0%Q;
     findContours := fun _ => [];
     contourArea := fun _ => 0%Q;
     shannon_entropy := fun _ => 0%Q;
     local_binary_pattern := fun gray _ _ _ => map (map (fun _ => 0)) gray;
     threshold_otsu := fun _ => 0;
     Canny := fun gray _ _ => map (map (fun _ => 0)) gray;
     health_fault := fun _ => None;
     disease_fault := fun _ => None |}.

(** A 2 x 2 green leaf patch, and a 256 x 256 image of pure red. *)
Definition green_patch : Image := uniform_image 2 2 (mkPixel 0 255 0).

Definition red256 : Image := uniform_image 256 256 (mkPixel 0 0 255).

(** A 640 x 640 grayscale image: the left half 0, the right half 1. *)
Definition gray_step : Gray := repeat (repeat 0 320 ++ repeat 1 320)%list 640.

(** The image whose gray conversion is [gray_step]. *)
Definition step_image : Image :=
  repeat (repeat (mkPixel 0 0 0) 320 ++ repeat (mkPixel 1 1 1) 320)%list 640.

(** The clock reads whole seconds, one more at every reading. *)
Definition clock (n : nat) : Q := inject_Z (Z.of_nat n).

(** The decoder knows one file. *)
Definition imread (path : string) : Outcome (option Image) :=
  if String.eqb path "leaf.jpg" then Ok (Some green_patch) else Ok None.

Definition env : Env :=
  {| time_time := clock; cv2_imread := imread; vision := lib |}.

(** A classifier that answers one class whatever it is handed. *)
Definition always (cls : Z) (probs : option (list Q)) (names : option (list string))
    : sklearn.Classifier :=
  {| sklearn.predict := fun _ => Ok cls;
     sklearn.predict_proba :=
       match probs with Some p => Some (fun _ => Ok p) | None => None end;
     sklearn.feature_names_in_ := names |}.

(** An encoder that decodes class 2 as fusarium wilt. *)
Definition encoder : sklearn.LabelEncoder :=
  {| sklearn.inverse_transform := fun label =>
       if label =? 2 then Ok "fusarium_wilt"
       else Raise (OtherError "y contains previously unseen labels") |}.

Definition healthy_model : sklearn.Classifier := always 0 (Some [0.99; 0.01]%Q) None.
Definition diseased_model : sklearn.Classifier := always 1 (Some [0.2; 0.8]%Q) None.
Definition named_disease_model : sklearn.Classifier :=
  always 2 (Some [0.1; 0.1; 0.8]%Q) (Some ["symmetry_score"; "mean_r"; "leaf_age"]).
Definition plain_disease_model : sklearn.Classifier := always 2 None None.

Definition no_files : ModelDir :=
  mkModelDir Absent Absent Absent Absent Absent Absent Absent Absent.

(** Only the random-forest health model, and it finds every leaf healthy. *)
Definition healthy_dir : ModelDir :=
  mkModelDir (Pickled healthy_model) Absent Absent Absent Absent Absent Absent Absent.

Definition healthy_predictor : BasilDiseasePredictor := new_predictor healthy_dir.

(** The disease features of the green patch. *)
Definition patch_features : PyDict.t Q :=
  Eval vm_compute in
    match extract_disease_features lib green_patch with
    | Ok features => features
    | Raise _ => []
    end.

(** A KNN backend whose disease classifier carries feature names. *)
Definition knn_named_dir : ModelDir :=
  mkModelDir Absent Absent Absent Absent Absent
    (Pickled diseased_model) (Pickled named_disease_model) (Pickled encoder).

Definition knn_named_predictor : BasilDiseasePredictor := new_predictor knn_named_dir.

(** A KNN backend whose disease classifier carries none. *)
Definition knn_plain_dir : ModelDir :=
  mkModelDir Absent Absent Absent Absent Absent
    (Pickled diseased_model) (Pickled plain_disease_model) (Pickled encoder).

Definition knn_plain_predictor : BasilDiseasePredictor := new_predictor knn_plain_dir.

(** An SVM backend beside the random-forest encoder, its disease
    classifier with and without feature names. *)
Definition svm_named_dir : ModelDir :=
  mkModelDir Absent Absent (Pickled encoder)
    (Pickled diseased_model) (Pickled named_disease_model) Absent Absent Absent.

Definition svm_named_predictor : BasilDiseasePredictor := new_predictor svm_named_dir.

Definition svm_plain_dir : ModelDir :=
  mkModelDir Absent Absent (Pickled encoder)
    (Pickled diseased_model) (Pickled plain_disease_model) Absent Absent Absent.

Definition svm_plain_predictor : BasilDiseasePredictor := new_predictor svm_plain_dir.

(** Only the KNN health model: the fallbacks of the KNN disease classifier
    and of the KNN encoder find nothing. *)
Definition knn_health_only_dir : ModelDir :=
  mkModelDir Absent Absent Absent Absent Absent (Pickled diseased_model) Absent Absent.

Definition knn_health_only_predictor : BasilDiseasePredictor :=
  new_predictor knn_health_only_dir.

(** The KNN models without any encoder. *)
Definition knn_no_encoder_dir : ModelDir :=
  mkModelDir Absent Absent Absent Absent Absent
    (Pickled diseased_model) (Pickled plain_disease_model) Absent.

Definition knn_no_encoder_predictor : BasilDiseasePredictor :=
  new_predictor knn_no_encoder_dir.

(** The SVM models without the random-forest encoder. *)
Definition svm_no_encoder_dir : ModelDir :=
  mkModelDir Absent Absent Absent
    (Pickled diseased_model) (Pickled named_disease_model) Absent Absent Absent.

Definition svm_no_encoder_predictor : BasilDiseasePredictor :=
  new_predictor svm_no_encoder_dir.

End Sample.

(** ** Further instances *)

Module Sample2.

(** All KNN artifacts are fine, and the random-forest health file is there
    but does not unpickle. *)
Definition corrupt_rf_dir : ModelDir :=
  mkModelDir (Corrupt (OtherError "invalid load key")) Absent Absent Absent Absent
    (Pickled Sample.diseased_model) (Pickled Sample.plain_disease_model)
    (Pickled Sample.encoder).

(** A library whose health extractor raises on every image. *)
Definition faulty_lib : VisionLib :=
  {| cv2_resize := cv2_resize Sample.lib;
     cvtColor_BGR2GRAY := cvtColor_BGR2GRAY Sample.lib;
     cvtColor_BGR2HSV := cvtColor_BGR2HSV Sample.lib;
     graycomatrix := graycomatrix Sample.lib;
     graycoprops := graycoprops Sample.lib;
     findContours := findContours Sample.lib;
     contourArea := contourArea Sample.lib;
     shannon_entropy := shannon_entropy Sample.lib;
     local_binary_pattern := local_binary_pattern Sample.lib;
     threshold_otsu := threshold_otsu Sample.lib;
     Canny := Canny Sample.lib;
     health_fault := fun _ => Some (OtherError "OpenCV: (-215:Assertion failed)");
     disease_fault := fun _ => None |}.

Definition faulty_env : Env :=
  {| time_time := Sample.clock; cv2_imread := Sample.imread; vision := faulty_lib |}.

(** A classifier whose [predict_proba] raises. *)
Definition no_proba_model (cls : Z) (names : option (list string)) : sklearn.Classifier :=
  {| sklearn.predict := fun _ => Ok cls;
     sklearn.predict_proba :=
       Some (fun _ => Raise (AttributeError "predict_proba is not available when probability=False"));
     sklearn.feature_names_in_ := names |}.

(** The random-forest health model finds every leaf healthy, and its
    [predict_proba] raises. *)
Definition healthy_no_proba_dir : ModelDir :=
  mkModelDir (Pickled (no_proba_model 0 None))
    Absent Absent Absent Absent Absent Absent Absent.

(** An SVM backend whose disease classifier has feature names and a
    [predict_proba] that raises. *)
Definition svm_no_proba_dir : ModelDir :=
  mkModelDir Absent Absent (Pickled Sample.encoder)
    (Pickled Sample.diseased_model)
    (Pickled (no_proba_model 2 (Some ["symmetry_score"; "mean_r"])))
    Absent Absent Absent.

(** Only health models: no disease classifier at all for the SVM. *)
Definition svm_health_only_dir : ModelDir :=
  mkModelDir Absent Absent Absent (Pickled Sample.diseased_model)
    Absent Absent Absent Absent.

(** An encoder that decodes every class as an identifier the table of
    diseases lacks. *)
Definition stray_encoder : sklearn.LabelEncoder :=
  {| sklearn.inverse_transform := fun _ => Ok "powdery_mildew" |}.

Definition knn_stray_dir : ModelDir :=
  mkModelDir Absent Absent Absent Absent Absent
    (Pickled Sample.diseased_model) (Pickled Sample.plain_disease_model)
    (Pickled stray_encoder).

(** The SVM health model beside the random-forest disease classifier,
    and no encoder. *)
Definition svm_borrowing_dir : ModelDir :=
  mkModelDir Absent (Pickled Sample.named_disease_model) Absent
    (Pickled Sample.diseased_model) Absent Absent Absent Absent.

End Sample2.

Module Sample3.

(** A library that finds two contours in every image, of 3 and of 5
    points, and measures a contour by the number of its points. *)
Definition contour_lib : VisionLib :=
  {| cv2_resize := cv2_resize Sample.lib;
     cvtColor_BGR2GRAY := cvtColor_BGR2GRAY Sample.lib;
     cvtColor_BGR2HSV := cvtColor_BGR2HSV Sample.lib;
     graycomatrix := graycomatrix Sample.lib;
     graycoprops := graycoprops Sample.lib;
     findContours := fun _ => [[(0, 0); (0, 1); (1, 0)];
                               [(0, 0); (0, 2); (1, 3); (2, 2); (2, 0)]];
     contourArea := fun c => inject_Z (Z.of_nat (length c));
     shannon_entropy := shannon_entropy Sample.lib;
     local_binary_pattern := local_binary_pattern Sample.lib;
     threshold_otsu := threshold_otsu Sample.lib;
     Canny := Canny Sample.lib;
     health_fault := fun _ => None;
     disease_fault := fun _ => None |}.

(** An upload of four bytes under the name [Leaf.Scan.PNG], the identifier
    the service draws for it, and a disk that holds the saved file. *)
Definition upload : main.UploadFile :=
  main.mkUploadFile "Leaf.Scan.PNG" [Byte.x89; Byte.x50; Byte.x4e; Byte.x47].

Definition upload_id : string := "7f3c2a9e".

Definition saved_path : string := "./uploads/7f3c2a9e.png".

Definition disk (path : string) : bool := String.eqb path saved_path.

Definition served_env : Env :=
  {| time_time := Sample.clock;
     cv2_imread := fun path =>
       if String.eqb path saved_path then Ok (Some Sample.green_patch) else Ok None;
     vision := Sample.lib |}.

(** An SVM backend whose encoder, the random forest's, decodes every
    class as an identifier the table of diseases lacks. *)
Definition svm_stray_dir : ModelDir :=
  mkModelDir Absent Absent (Pickled Sample2.stray_encoder)
    (Pickled Sample.diseased_model) (Pickled Sample.named_disease_model)
    Absent Absent Absent.

End Sample3.

(** * Properties *)

(** ** Reasoning about requests *)

Lemma post_ret {A} (a : A) w (Qok : A -> World -> Prop) Qex :
  Qok a w -> post (ret a) w Qok Qex.
Proof. exact (fun H => H). Qed.

Lemma post_raise {A} e w (Qok : A -> World -> Prop) (Qex : Exn -> World -> Prop) :
  Qex e w -> post (@raise A e) w Qok Qex.
Proof. exact (fun H => H). Qed.

Lemma post_bind {A B} (m : M A) (k : A -> M B) w Qok Qex :
  post m w (fun a w1 => post (k a) w1 Qok Qex) Qex ->
  post (bind m k) w Qok Qex.
Proof.
  unfold post, bind. destruct (m w) as [[a | e] w1]; auto.
Qed.

Lemma post_try_except {A} (m : M A) (h : Exn -> M A) w Qok Qex :
  post m w Qok (fun e w1 => post (h e) w1 Qok Qex) ->
  post (try_except m h) w Qok Qex.
Proof.
  unfold post, try_except. destruct (m w) as [[a | e] w1]; auto.
Qed.

Lemma post_lift {A} (o : Outcome A) w (Qok : A -> World -> Prop) Qex :
  match o with Ok a => Qok a w | Raise e => Qex e w end ->
  post (lift o) w Qok Qex.
Proof. unfold post, lift. destruct o; auto. Qed.

Lemma post_log ev w (Qok : unit -> World -> Prop) Qex :
  Qok tt (mkWorld (clock_reads w) (calls w ++ [ev])) ->
  post (log ev) w Qok Qex.
Proof. exact (fun H => H). Qed.

Lemma post_now env w (Qok : Q -> World -> Prop) Qex :
  Qok (time_time env (clock_reads w)) (mkWorld (S (clock_reads w)) (calls w)) ->
  post (now env) w Qok Qex.
Proof. exact (fun H => H). Qed.

Lemma post_elim {A} (m : M A) w (Qok : A -> World -> Prop) :
  post m w Qok (fun _ _ => False) ->
  exists a w', m w = (Ok a, w') /\ Qok a w'.
Proof.
  unfold post. destruct (m w) as [[a | e] w1]; intro H; [eauto | contradiction].
Qed.

Lemma post_ok {A} (m : M A) w a w' (Qok : A -> World -> Prop) Qex :
  post m w Qok Qex -> m w = (Ok a, w') -> Qok a w'.
Proof. unfold post. intros H E. rewrite E in H. exact H. Qed.

Ltac head_of t := lazymatch t with ?f _ => head_of f | _ => t end.

(** Case analysis on a scrutinee, reusing what is already known of it. *)
Ltac case_on x :=
  first
    [ is_var x; destruct x
    | lazymatch goal with H : x = _ |- _ => rewrite H end
    | lazymatch type of x with
      | bool =>
          let v := eval cbv in x in
          lazymatch v with
          | true => change x with true
          | false => change x with false
          end
      end
    | destruct x eqn:? ].

(** One step of symbolic execution of a request. *)
Ltac wp_step :=
  cbv beta zeta; cbn [String.append];
  repeat match goal with
         | H : sklearn.feature_names_in_ ?c = _
           |- context [sklearn.feature_names_in_ ?c] => rewrite H
         | H : PyDict.mem ?k ?d = _ |- context [PyDict.mem ?k ?d] => rewrite H
         end;
  lazymatch goal with
  | |- post (bind _ _) _ _ _ => apply post_bind
  | |- post (try_except _ _) _ _ _ => apply post_try_except
  | |- post (ret _) _ _ _ => apply post_ret
  | |- post (raise _) _ _ _ => apply post_raise
  | |- post (log _) _ _ _ => apply post_log
  | |- post (now _) _ _ _ => apply post_now
  | |- context [get_predict_proba (Some ?c)] =>
      change (get_predict_proba (Some c)) with (sklearn.predict_proba c)
  | |- context [get_feature_names (Some ?c)] =>
      change (get_feature_names (Some c)) with (sklearn.feature_names_in_ c)
  | |- post (lift (py_getitem ?d ?k)) _ _ _ =>
      apply post_lift; unfold py_getitem; case_on (PyDict.get d k)
  | |- post (lift ?o) _ _ _ => apply post_lift; case_on o
  | |- post (if negb (PyDict.mem ?k ?d) then _ else _) _ _ _ =>
      unfold PyDict.mem at 1; case_on (PyDict.get d k); cbn [negb]; cbv iota
  | |- post (if ?b then _ else _) _ _ _ => case_on b
  | |- post (match ?x with _ => _ end) _ _ _ => case_on x
  | |- post ?m _ _ _ => let h := head_of m in unfold h
  end.

Ltac wp := repeat wp_step; cbv beta zeta.

Lemma post_run {A} (m : M A) w (P : Outcome A -> World -> Prop) :
  post m w (fun a w' => P (Ok a) w') (fun e w' => P (Raise e) w') ->
  P (fst (m w)) (snd (m w)).
Proof.
  unfold post. destruct (m w) as [[a | e] w1]; auto.
Qed.

Lemma post_weaken {A} (m : M A) w (Q Q' : A -> World -> Prop)
    (Qex Qex' : Exn -> World -> Prop) :
  post m w Q Qex ->
  (forall a w', Q a w' -> Q' a w') ->
  (forall e w', Qex e w' -> Qex' e w') ->
  post m w Q' Qex'.
Proof.
  unfold post. destruct (m w) as [[a | e] w1]; auto.
Qed.

(** ** Failures are reported, never raised *)

Section Reporting.

Variable env : Env.
Variable self : BasilDiseasePredictor.

Ltac close_report :=
  cbn; unfold reports; cbn;
  repeat split; try reflexivity; try discriminate; eauto.

Lemma disease_infer_reports start_time model_type key disease_model features w :
  post (disease_infer env self start_time model_type key disease_model features) w
    (fun pc w' =>
       match pc with
       | inl r => reports env start_time (clock_reads w) r /\ success r = false
       | inr _ => clock_reads w' = clock_reads w
       end)
    (fun _ w' => clock_reads w' = clock_reads w).
Proof. wp; close_report. Qed.

Lemma label_resolve_reports start_time model_type label confidence w :
  post (label_resolve env self start_time model_type label confidence) w
    (fun r _ => reports env start_time (clock_reads w) r)
    (fun _ w' => clock_reads w' = clock_reads w).
Proof. wp; close_report. Qed.

Lemma diseased_branch_reports start_time model_type image w :
  post (diseased_branch env self start_time model_type image) w
    (fun r _ => reports env start_time (clock_reads w) r)
    (fun _ w' => clock_reads w' = clock_reads w).
Proof.
  unfold diseased_branch.
  repeat (cbv beta zeta; first
    [ lazymatch goal with
      | |- post (disease_infer _ _ _ _ _ _ _) _ _ _ =>
          let Hpc := fresh "Hpc" in
          eapply post_weaken;
          [ apply disease_infer_reports
          | intros [? | [? ?]] ? Hpc; cbv beta iota
          | intros ? ? ?; assumption ]
      | Hpc : clock_reads _ = _ |- post (label_resolve _ _ _ _ _ _) _ _ _ =>
          let H2 := fresh "H" in
          eapply post_weaken;
          [ apply label_resolve_reports
          | intros ? ? H2; cbn in Hpc; rewrite Hpc in H2; exact H2
          | intros ? ? H2; cbn in Hpc; rewrite Hpc in H2; exact H2 ]
      end
    | wp_step ]).
  all: try solve [close_report].
  all: cbn in *; tauto.
Qed.

Lemma predict_body_reports start_time image_path model_type w :
  post (predict_body env self start_time image_path model_type) w
    (fun r _ => reports env start_time (clock_reads w) r)
    (fun _ w' => clock_reads w' = clock_reads w).
Proof.
  unfold predict_body.
  repeat (cbv beta zeta; first
    [ lazymatch goal with
      | |- post (diseased_branch _ _ _ _ _) _ _ _ =>
          eapply post_weaken;
          [ apply diseased_branch_reports
          | intros ? ? ?; assumption
          | intros ? ? ?; assumption ]
      end
    | wp_step ]).
  all: close_report.
Qed.

Lemma predict_reports image_path model_type w :
  post (predict env self image_path model_type) w
    (fun r _ => reports env (time_time env (clock_reads w)) (S (clock_reads w)) r)
    (fun _ _ => False).
Proof.
  unfold predict.
  apply post_bind, post_now, post_try_except.
  eapply post_weaken; [ apply predict_body_reports | | ].
  - intros r w1 H. exact H.
  - intros e w1 H. cbn in H. wp. rewrite H. close_report.
Qed.

End Reporting.

(** ** The healthy branch *)

(** C1. When the image loads, its health features are extracted and the
    backend's health classifier answers class 0 on them, [predict] returns
    a success with the prediction ["Healthy Plant"] and the record of the
    healthy identifier, and the request never calls the disease feature
    extractor. *)
Theorem healthy_skips_disease_extraction
    env self image_path model_type image health_features health_model :
  cv2_imread env image_path = Ok (Some image) ->
  extract_health_features (vision env) image = Ok health_features ->
  PyDict.get (models self) (model_type ++ "_health") = Some (Some health_model) ->
  sklearn.predict health_model (PyList health_features) = Ok 0 ->
  exists r w',
    predict env self image_path model_type fresh = (Ok r, w')
    /\ success r = true
    /\ prediction r = Some "Healthy Plant"
    /\ disease_info r = get_disease_info "healthy_basil"
    /\ option_map name (disease_info r) = Some "Healthy Basil"
    /\ ~ In Ev_extract_disease_features (calls w').
Proof.
  intros Himg Hfeat Hmodel Hpred.
  apply post_elim.
  wp.
  all: try discriminate.
  all: cbn; repeat split; try reflexivity.
  all: intros [H | [H | [H | [H | H]]]]; try discriminate H;
       try (destruct H as [H | H]; try discriminate H); try contradiction.
Qed.

(** The request of C1 on the sample environment. *)
Lemma healthy_skips_disease_extraction_witness :
  exists r w',
    predict Sample.env Sample.healthy_predictor "leaf.jpg" "random_forest" fresh
      = (Ok r, w')
    /\ success r = true
    /\ prediction r = Some "Healthy Plant"
    /\ disease_info r = get_disease_info "healthy_basil"
    /\ option_map name (disease_info r) = Some "Healthy Basil"
    /\ ~ In Ev_extract_disease_features (calls w').
Proof.
  eapply (healthy_skips_disease_extraction Sample.env Sample.healthy_predictor
            "leaf.jpg" "random_forest" Sample.green_patch _ Sample.healthy_model).
  - reflexivity.
  - vm_compute. reflexivity.
  - reflexivity.
  - reflexivity.
Defined.

(** ** A backend without health model *)

(** C6, as stated, fails: the backend [svm] has no health model in the
    sample registry, and for a file the decoder cannot read [predict]
    answers ["Could not load image"], not the message that lists the
    loaded keys. *)
Lemma missing_model_unreadable_image :
  PyDict.mem ("svm" ++ "_health") (models Sample.healthy_predictor) = false
  /\ exists r w',
       predict Sample.env Sample.healthy_predictor "notes.jpg" "svm" fresh = (Ok r, w')
       /\ success r = false
       /\ message r = Some "Could not load image"
       /\ message r <> Some (model_not_available Sample.healthy_predictor "svm").
Proof.
  split; [reflexivity |].
  eexists; eexists. split; [vm_compute; reflexivity |].
  cbn. repeat split. discriminate.
Qed.

(** C6, amended. For a backend whose key [{backend}_health] is absent from
    the registry, [predict] returns a failure; when the image loads and its
    health features are extracted, the message of that failure is
    ["Model {backend} not available. Available models: "] followed by the
    list of the keys of the registry. *)
Theorem missing_health_model_is_reported env self image_path model_type w :
  PyDict.mem (model_type ++ "_health") (models self) = false ->
  exists r w',
    predict env self image_path model_type w = (Ok r, w')
    /\ success r = false
    /\ (forall image health_features,
          cv2_imread env image_path = Ok (Some image) ->
          extract_health_features (vision env) image = Ok health_features ->
          message r = Some (model_not_available self model_type)).
Proof.
  intro Hmem. unfold PyDict.mem in Hmem.
  destruct (PyDict.get (models self) (model_type ++ "_health")) eqn:Hget;
    [discriminate |].
  apply post_elim.
  wp.
  all: cbn; split; [reflexivity |]; intros image hf Himg Hfeat; congruence.
Qed.

(** The request of C6 on the sample environment. *)
Lemma missing_health_model_is_reported_witness :
  exists r w',
    predict Sample.env Sample.healthy_predictor "leaf.jpg" "svm" fresh = (Ok r, w')
    /\ success r = false
    /\ message r
       = Some "Model svm not available. Available models: ['random_forest_health']".
Proof.
  destruct (missing_health_model_is_reported Sample.env Sample.healthy_predictor
              "leaf.jpg" "svm" fresh eq_refl) as (r & w' & E & Hs & Hm).
  exists r, w'. repeat split; [exact E | exact Hs |].
  rewrite (Hm Sample.green_patch _ eq_refl
             ltac:(vm_compute; reflexivity)).
  reflexivity.
Defined.

(** ** Confidence *)

Lemma py_index_In a i v : py_index a i = Ok v -> In v a.
Proof.
  unfold py_index.
  destruct ((0 <=? _) && _); [| discriminate].
  destruct (nth_error a _) eqn:E; [| discriminate].
  intro H. inversion H. subst. eapply nth_error_In. exact E.
Qed.

Lemma default_health_confidence_in_range : in_unit_interval 0.95%Q.
Proof. split; unfold Qle; cbn; lia. Qed.

Lemma default_disease_confidence_in_range : in_unit_interval 0.75%Q.
Proof. split; unfold Qle; cbn; lia. Qed.

Section Confidence.

Variable env : Env.
Variable self : BasilDiseasePredictor.
Hypothesis Hprobs : probabilities_in_range self.

Lemma supplied_in_range key m proba x probs i c :
  PyDict.get (models self) key = Some m ->
  get_predict_proba m = Some proba ->
  proba x = Ok probs ->
  py_index probs i = Ok c ->
  in_unit_interval c /\ supplied_by self key c.
Proof.
  intros Hget Hattr Hcall Hidx.
  pose proof (py_index_In _ _ _ Hidx) as Hin.
  split.
  - pose proof (Hprobs key m proba x probs Hget Hattr Hcall) as Hall.
    rewrite Forall_forall in Hall. apply Hall, Hin.
  - exists m, proba, x, probs. auto.
Qed.

Lemma disease_infer_confidence start_time model_type key disease_model features w :
  PyDict.get (models self) key = Some disease_model ->
  post (disease_infer env self start_time model_type key disease_model features) w
    (fun pc _ =>
       match pc with
       | inl r => success r = false
       | inr (_, c) => in_unit_interval c /\ (c = 0.75%Q \/ supplied_by self key c)
       end)
    (fun _ _ => True).
Proof.
  intro Hget. wp.
  all: try exact I; try reflexivity.
  all: try (split; [apply default_disease_confidence_in_range | left; reflexivity]).
  all: match goal with
       | H : py_index _ _ = Ok _ |- _ =>
           edestruct supplied_in_range as [Hr Hs]; [exact Hget | eassumption .. |];
           split; [exact Hr | right; exact Hs]
       end.
Qed.

Lemma label_resolve_confidence start_time model_type label c w :
  post (label_resolve env self start_time model_type label c) w
    (fun r _ =>
       success r = true ->
       confidence r = Some c /\ prediction r <> Some "Healthy Plant")
    (fun _ _ => True).
Proof.
  wp.
  all: try exact I; cbn; try discriminate.
  all: intros _; split; [reflexivity | discriminate].
Qed.

Lemma diseased_branch_confidence start_time model_type image w :
  post (diseased_branch env self start_time model_type image) w
    (fun r _ =>
       success r = true ->
       exists c,
         confidence r = Some c /\ in_unit_interval c
         /\ confidence_source self model_type r c)
    (fun _ _ => True).
Proof.
  unfold diseased_branch.
  repeat (cbv beta zeta; first
    [ lazymatch goal with
      | Hget : PyDict.get (models self) ?key = Some ?dm
        |- post (disease_infer _ _ _ _ ?key ?dm _) _ _ _ =>
          let Hpc := fresh "Hpc" in
          eapply post_weaken;
          [ apply (disease_infer_confidence _ _ _ _ _ _ Hget)
          | intros [? | [? ?]] ? Hpc; cbv beta iota
          | intros ? ? _; exact I ]
      | Hpc : in_unit_interval ?c /\ _ |- post (label_resolve _ _ _ _ _ ?c) _ _ _ =>
          let Hr := fresh "Hr" in
          let Hs := fresh "Hs" in
          let Hc := fresh "Hc" in
          let Hp := fresh "Hp" in
          let Hsrc := fresh "Hsrc" in
          eapply post_weaken;
          [ apply label_resolve_confidence
          | intros ? ? Hr Hs; destruct (Hr Hs) as [Hc Hp]; destruct Hpc as [Hr' Hsrc];
            exists c; split; [exact Hc | split; [exact Hr' |]];
            right; split; [exact Hp |]; tauto
          | intros ? ? _; exact I ]
      end
    | wp_step ]).
  all: try exact I.
  all: cbn; intros; congruence.
Qed.

Lemma predict_confidence image_path model_type w :
  post (predict env self image_path model_type) w
    (fun r _ =>
       success r = true ->
       exists c,
         confidence r = Some c /\ in_unit_interval c
         /\ confidence_source self model_type r c)
    (fun _ _ => True).
Proof.
  unfold predict, predict_body.
  repeat (cbv beta zeta; first
    [ lazymatch goal with
      | |- post (diseased_branch _ _ _ _ _) _ _ _ =>
          eapply post_weaken;
          [ apply diseased_branch_confidence
          | intros ? ? ?; assumption
          | intros ? ? _; wp; cbn; discriminate ]
      end
    | wp_step ]).
  all: try exact I; cbn; try discriminate.
  all: intros _; eexists; split; [reflexivity |].
  all: try (split; [apply default_health_confidence_in_range
                   | left; split; [reflexivity | left; reflexivity]]).
  all: match goal with
       | Hget : PyDict.get (models self) _ = Some _,
         H : py_index _ _ = Ok _ |- _ =>
           edestruct supplied_in_range as [Hr Hs]; [exact Hget | eassumption .. |];
           split; [exact Hr | left; split; [reflexivity | right; exact Hs]]
       end.
Qed.

End Confidence.

(** A classifier without [predict_proba] supplies nothing, so the
    confidence of its stage is the default. *)
Lemma no_predict_proba_supplies_nothing self key c :
  (forall m, PyDict.get (models self) key = Some m -> get_predict_proba m = None) ->
  ~ supplied_by self key c.
Proof.
  intros Hnone (m & proba & x & probs & Hget & Hattr & _).
  rewrite (Hnone m Hget) in Hattr. discriminate.
Qed.

(** ** Assembling the input of the disease classifier *)

Lemma expected_features_canonical : expected_features = canonical_order.
Proof. reflexivity. Qed.

Lemma features_list_of_canonical features :
  features_list_of features = select_features features canonical_order.
Proof. reflexivity. Qed.

Section FeaturesDict.

Variable features : PyDict.t Q.


Lemma set_known_names ks x :
  PyDict.set (map (feature_entry features) ks) x (PyDict.get_default features x 0%Q)
  = map (feature_entry features) (if existsb (String.eqb x) ks then ks else (ks ++ [x])%list).
Proof.
  induction ks as [| k ks IH]; [reflexivity |].
  unfold feature_entry in *. cbn. destruct (String.eqb x k) eqn:E.
  - apply String.eqb_eq in E. subst. reflexivity.
  - cbn. rewrite IH. destruct (existsb (String.eqb x) ks); reflexivity.
Qed.

Lemma features_dict_from ks names :
  fold_left
    (fun d col => PyDict.set d col (PyDict.get_default features col 0%Q))
    names (map (feature_entry features) ks)
  = map (feature_entry features)
      (fold_left
         (fun ks x => if existsb (String.eqb x) ks then ks else (ks ++ [x])%list)
         names ks).
Proof.
  revert ks. induction names as [| x names IH]; intro ks; [reflexivity |].
  cbn. rewrite set_known_names. apply IH.
Qed.

Lemma features_dict_of_entries names :
  features_dict_of names features = map (feature_entry features) (first_occurrences names).
Proof. exact (features_dict_from [] names). Qed.

Lemma features_dict_of_keys names :
  PyDict.keys (features_dict_of names features) = first_occurrences names.
Proof.
  rewrite features_dict_of_entries. unfold PyDict.keys, feature_entry.
  rewrite map_map. apply map_id.
Qed.

Lemma features_dict_of_values names :
  PyDict.values (features_dict_of names features)
  = select_features features (first_occurrences names).
Proof.
  rewrite features_dict_of_entries. unfold PyDict.values, feature_entry.
  rewrite map_map. reflexivity.
Qed.

End FeaturesDict.

Lemma first_occurrences_from ks names :
  NoDup (ks ++ names)%list ->
  fold_left
    (fun ks x => if existsb (String.eqb x) ks then ks else (ks ++ [x])%list)
    names ks
  = (ks ++ names)%list.
Proof.
  revert ks. induction names as [| x names IH]; intros ks Hnd.
  - cbn. now rewrite app_nil_r.
  - cbn.
    assert (Hx : existsb (String.eqb x) ks = false).
    { destruct (existsb (String.eqb x) ks) eqn:E; [| reflexivity].
      apply existsb_exists in E. destruct E as (y & Hin & Hxy).
      apply String.eqb_eq in Hxy. subst y.
      apply NoDup_remove_2 in Hnd. exfalso. apply Hnd.
      apply in_or_app. left. exact Hin. }
    rewrite Hx.
    replace (ks ++ x :: names)%list with ((ks ++ [x]) ++ names)%list in *
      by (rewrite <- app_assoc; reflexivity).
    apply IH. exact Hnd.
Qed.

(** A list of names without repetition is its own list of first
    occurrences. *)
Lemma first_occurrences_NoDup names :
  NoDup names -> first_occurrences names = names.
Proof. intro H. exact (first_occurrences_from [] names H). Qed.

(** The samples' disease features, computed once. *)
Lemma patch_features_extracted :
  extract_disease_features Sample.lib Sample.green_patch = Ok Sample.patch_features.
Proof. vm_compute. reflexivity. Qed.

Lemma patch_health_features_extracted :
  exists health_features,
    extract_health_features Sample.lib Sample.green_patch = Ok health_features.
Proof. eexists. vm_compute. reflexivity. Qed.

Lemma sample_reaches_disease_stage self model_type :
  PyDict.get (models self) (model_type ++ "_health") = Some (Some Sample.diseased_model) ->
  reaches_disease_stage Sample.env self "leaf.jpg" model_type Sample.patch_features.
Proof.
  intro Hget. destruct patch_health_features_extracted as [hf Hhf].
  exists Sample.green_patch, hf, Sample.diseased_model, 1.
  split; [reflexivity |].
  split; [exact Hhf |].
  split; [exact Hget |].
  split; [reflexivity |].
  split; [discriminate |].
  exact patch_features_extracted.
Qed.

(** C2, as stated, fails: the sample KNN disease classifier carries the
    feature names [symmetry_score], [mean_r] and [leaf_age], and the KNN
    backend hands it the three values of those names, not the 37 values
    of the canonical order. *)
Lemma knn_uses_embedded_feature_names :
  PyDict.get (models Sample.knn_named_predictor) "knn_disease"
    = Some (Some Sample.named_disease_model)
  /\ sklearn.feature_names_in_ Sample.named_disease_model
     = Some ["symmetry_score"; "mean_r"; "leaf_age"]
  /\ classifier_inputs "knn_disease"
       (calls (snd (predict Sample.env Sample.knn_named_predictor "leaf.jpg" "knn" fresh)))
     = [NdArray (select_features Sample.patch_features
                   ["symmetry_score"; "mean_r"; "leaf_age"])]
  /\ classifier_inputs "knn_disease"
       (calls (snd (predict Sample.env Sample.knn_named_predictor "leaf.jpg" "knn" fresh)))
     <> [PyList (select_features Sample.patch_features canonical_order)].
Proof.
  assert (E : classifier_inputs "knn_disease"
       (calls (snd (predict Sample.env Sample.knn_named_predictor "leaf.jpg" "knn" fresh)))
     = [NdArray (select_features Sample.patch_features
                   ["symmetry_score"; "mean_r"; "leaf_age"])])
    by (vm_compute; reflexivity).
  split; [reflexivity |].
  split; [reflexivity |].
  split; [exact E |].
  rewrite E. discriminate.
Qed.

(** *** Calls that hand nothing to a classifier's [predict] *)

Lemma classifier_inputs_app key evs evs' :
  classifier_inputs key (evs ++ evs')
  = (classifier_inputs key evs ++ classifier_inputs key evs')%list.
Proof. apply flat_map_app. Qed.

Ltac close_quiet :=
  cbn [calls]; rewrite ?classifier_inputs_app; cbn; rewrite ?app_nil_r; reflexivity.

(** The confidence of the health prediction is computed without raising. *)
Lemma health_confidence_quiet key hkey health_model health_features label w :
  post (health_confidence_of hkey health_model health_features label) w
    (fun _ w' => classifier_inputs key (calls w') = classifier_inputs key (calls w))
    (fun _ _ => False).
Proof. wp; close_quiet. Qed.

Lemma label_resolve_quiet key env self start_time model_type label confidence :
  quiet key (label_resolve env self start_time model_type label confidence).
Proof. intro w. wp; close_quiet. Qed.

(** Skip over the calls that hand nothing to the classifier. *)
Ltac wp_quiet key :=
  repeat (cbv beta zeta; first
    [ lazymatch goal with
      | |- post (health_confidence_of _ _ _ _) _ _ _ =>
          let Hq := fresh "Hquiet" in
          eapply post_weaken;
          [ apply (health_confidence_quiet key)
          | intros ? ? Hq; cbn [calls] in Hq
          | intros ? ? [] ]
      | |- post (label_resolve _ _ _ _ _ _) _ _ _ =>
          let Hq := fresh "Hquiet" in
          eapply post_weaken;
          [ apply (label_resolve_quiet key)
          | intros ? ? Hq; cbn [calls] in Hq
          | intros ? ? Hq; cbn [calls] in Hq ]
      end
    | wp_step ]).

Ltac close_inputs :=
  cbn [calls] in *;
  repeat match goal with
         | H : classifier_inputs _ _ = _ |- _ =>
             rewrite ?classifier_inputs_app in H; cbn in H; rewrite ?app_nil_r in H
         end;
  rewrite ?classifier_inputs_app;
  repeat match goal with
         | H : classifier_inputs _ _ = _ |- _ => rewrite H; clear H
         end;
  cbn.

(** C2, amended. In a request of backend [knn] that reaches the disease
    stage with a KNN disease classifier in the registry, the classifier is
    called once, and it is handed: when it carries feature names, the
    values of exactly those names (0 for a name the feature map lacks) in
    the artifact's own order; when it carries none, the values in the
    canonical order [mean_r, mean_g, mean_b, mean_h, mean_s, mean_v,
    yellow_area_percent, entropy, lbp_0..lbp_25, spot_count, edge_density,
    symmetry_score]. *)
Theorem knn_classifier_input env self image_path disease_features disease_model :
  reaches_disease_stage env self image_path "knn" disease_features ->
  PyDict.get (models self) "knn_disease" = Some (Some disease_model) ->
  classifier_inputs "knn_disease"
    (calls (snd (predict env self image_path "knn" fresh)))
  = [knn_input disease_model disease_features].
Proof.
  intros (image & hf & hm & label & Himg & Hhf & Hhm & Hlabel & Hnz & Hdf) Hdm.
  assert (Hbranch : String.eqb "knn" "knn" && PyDict.mem "knn_disease" (models self) = true)
    by (unfold PyDict.mem; rewrite Hdm; reflexivity).
  assert (Hlabel0 : (label =? 0) = false) by (apply Z.eqb_neq; exact Hnz).
  cbn [String.append] in Hhm.
  unfold knn_input.
  apply (post_run _ _ (fun _ w' => classifier_inputs "knn_disease" (calls w') = _)).
  destruct (sklearn.feature_names_in_ disease_model) as [names |] eqn:Hnames.
  all: wp_quiet "knn_disease".
  all: close_inputs; try rewrite features_dict_of_values; reflexivity.
Qed.

(** The request of C2 on the sample environment: the names of the
    artifact, in the artifact's order. *)
Lemma knn_classifier_input_witness :
  classifier_inputs "knn_disease"
    (calls (snd (predict Sample.env Sample.knn_named_predictor "leaf.jpg" "knn" fresh)))
  = [knn_input Sample.named_disease_model Sample.patch_features].
Proof.
  apply (knn_classifier_input Sample.env Sample.knn_named_predictor "leaf.jpg"
           Sample.patch_features Sample.named_disease_model).
  - apply sample_reaches_disease_stage. reflexivity.
  - reflexivity.
Defined.

(** C3, as stated, fails in its second half: the sample SVM disease
    classifier carries no feature names, and the request ends with the
    failure ["Model feature names not available"] without calling the
    classifier, where the claim has it called on the canonical vector. *)
Lemma svm_without_feature_names_fails :
  PyDict.get (models Sample.svm_plain_predictor) "svm_disease"
    = Some (Some Sample.plain_disease_model)
  /\ sklearn.feature_names_in_ Sample.plain_disease_model = None
  /\ fails_with
       (fst (predict Sample.env Sample.svm_plain_predictor "leaf.jpg" "svm" fresh))
       "Model feature names not available"
  /\ classifier_inputs "svm_disease"
       (calls (snd (predict Sample.env Sample.svm_plain_predictor "leaf.jpg" "svm" fresh)))
     = [].
Proof.
  split; [reflexivity |].
  split; [reflexivity |].
  split.
  - eexists. split; [vm_compute; reflexivity |]. split; reflexivity.
  - vm_compute. reflexivity.
Qed.

(** C3, amended. In a request of backend [random_forest] or [svm] that
    reaches the disease stage, with [key] the key of the backend's disease
    classifier (its own, or the random forest's when it has none): when the
    classifier carries feature names, it is called once, on the one-row
    frame of exactly those names, in the artifact's own order, with 0 for a
    name the feature map lacks; when it carries none, it is not called, and
    the request fails with ["Model feature names not available"]. *)
Theorem standard_classifier_input
    env self image_path model_type disease_features key disease_model :
  model_type = "random_forest" \/ model_type = "svm" ->
  reaches_disease_stage env self image_path model_type disease_features ->
  disease_key_resolves self model_type key ->
  PyDict.get (models self) key = Some (Some disease_model) ->
  match sklearn.feature_names_in_ disease_model with
  | Some names =>
      classifier_inputs key
        (calls (snd (predict env self image_path model_type fresh)))
      = [frame_input names disease_features]
  | None =>
      classifier_inputs key
        (calls (snd (predict env self image_path model_type fresh)))
      = []
      /\ fails_with (fst (predict env self image_path model_type fresh))
           "Model feature names not available"
  end.
Proof.
  intros Hbackend (image & hf & hm & label & Himg & Hhf & Hhm & Hlabel & Hnz & Hdf)
    (Hmem & Hkey) Hdm.
  assert (Hlabel0 : (label =? 0) = false) by (apply Z.eqb_neq; exact Hnz).
  unfold PyDict.mem in Hmem, Hkey.
  unfold frame_input.
  destruct (sklearn.feature_names_in_ disease_model) as [names |] eqn:Hnames.
  - apply (post_run _ _ (fun _ w' => classifier_inputs key (calls w') = _)).
    destruct Hbackend; subst model_type; cbn [String.append] in *;
      (destruct Hkey as [Hkey | [Hnone Hkey]]; subst key;
       [| destruct (PyDict.get (models self) _) eqn:Hown in Hnone; [discriminate |]]).
    all: lazymatch goal with |- context [classifier_inputs ?k] => wp_quiet k end.
    all: try (close_inputs; rewrite ?features_dict_of_keys, ?features_dict_of_values;
              reflexivity).
    all: try congruence.
  - apply (post_run _ _
             (fun o w' =>
                classifier_inputs key (calls w') = []
                /\ fails_with o "Model feature names not available")).
    destruct Hbackend; subst model_type; cbn [String.append] in *;
      (destruct Hkey as [Hkey | [Hnone Hkey]]; subst key;
       [| destruct (PyDict.get (models self) _) eqn:Hown in Hnone; [discriminate |]]).
    all: lazymatch goal with |- context [classifier_inputs ?k] => wp_quiet k end.
    all: try congruence.
    all: split; [close_inputs; reflexivity
                | eexists; split; [reflexivity | split; reflexivity]].
Qed.

(** The request of C3 on the sample environment. *)
Lemma standard_classifier_input_witness :
  classifier_inputs "svm_disease"
    (calls (snd (predict Sample.env Sample.svm_named_predictor "leaf.jpg" "svm" fresh)))
  = [frame_input ["symmetry_score"; "mean_r"; "leaf_age"] Sample.patch_features].
Proof.
  exact (standard_classifier_input Sample.env Sample.svm_named_predictor
           "leaf.jpg" "svm" Sample.patch_features "svm_disease"
           Sample.named_disease_model
           (or_intror eq_refl)
           (sample_reaches_disease_stage Sample.svm_named_predictor "svm" eq_refl)
           (conj eq_refl (or_introl eq_refl))
           eq_refl).
Defined.

(** ** Registry keys bound to no artifact *)

Ltac all_files dir :=
  destruct dir as [f1 f2 f3 f4 f5 f6 f7 f8]; cbn in *; subst;
  repeat match goal with
         | f : File _ |- _ => destruct f
         end;
  cbn in *; congruence.

Lemma knn_disease_fallback_None dir :
  PyDict.mem "knn_health" (models (new_predictor dir)) = true ->
  knn_disease_classifier_model_pkl dir = Absent ->
  disease_classifier_model_pkl dir = Absent ->
  PyDict.get (models (new_predictor dir)) "knn_disease" = Some None.
Proof. intros H1 H2 H3. all_files dir. Qed.

Lemma svm_encoder_fallback_None dir :
  PyDict.mem "svm_disease" (models (new_predictor dir)) = true ->
  disease_label_encoder_pkl dir = Absent ->
  PyDict.get (label_encoders (new_predictor dir)) "svm" = Some None.
Proof. intros H1 H2. all_files dir. Qed.

Lemma knn_encoder_fallback_None dir :
  PyDict.mem "knn_health" (models (new_predictor dir)) = true ->
  (forall e, knn_disease_classifier_model_pkl dir <> Corrupt e) ->
  knn_disease_label_encoder_pkl dir = Absent ->
  disease_label_encoder_pkl dir = Absent ->
  PyDict.get (label_encoders (new_predictor dir)) "knn" = Some None.
Proof.
  intros H1 H2 H3 H4.
  destruct dir as [f1 f2 f3 f4 f5 f6 f7 f8]; cbn in *; subst.
  destruct f7 as [| m | e]; [| | exfalso; exact (H2 e eq_refl)]; clear H2.
  all: repeat match goal with
              | f : File _ |- _ => destruct f
              end;
       cbn in *; congruence.
Qed.

(** Up to the disease stage nothing is returned or raised. *)
Ltac wp_request :=
  repeat (cbv beta zeta; first
    [ lazymatch goal with
      | |- post (health_confidence_of _ _ _ _) _ _ _ =>
          eapply post_weaken;
          [ apply (health_confidence_quiet "")
          | intros ? ? _
          | intros ? ? [] ]
      end
    | wp_step ]).

Ltac close_failure :=
  try congruence;
  eexists; split; [reflexivity | split; reflexivity].

Lemma knn_disease_None_fails env self image_path disease_features w :
  reaches_disease_stage env self image_path "knn" disease_features ->
  PyDict.get (models self) "knn_disease" = Some None ->
  fails_with (fst (predict env self image_path "knn" w))
    "KNN disease prediction error: 'NoneType' object has no attribute 'predict'".
Proof.
  intros (image & hf & hm & label & Himg & Hhf & Hhm & Hlabel & Hnz & Hdf) Hdm.
  assert (Hmem : PyDict.mem "knn_disease" (models self) = true)
    by (unfold PyDict.mem; rewrite Hdm; reflexivity).
  assert (Hlabel0 : (label =? 0) = false) by (apply Z.eqb_neq; exact Hnz).
  cbn [String.append] in Hhm.
  apply (post_run _ _ (fun o _ => fails_with o _)).
  wp_request.
  all: close_failure.
Qed.

Lemma knn_encoder_None_fails env self image_path disease_features disease_model label w :
  reaches_disease_stage env self image_path "knn" disease_features ->
  PyDict.get (models self) "knn_disease" = Some (Some disease_model) ->
  sklearn.predict disease_model (knn_input disease_model disease_features) = Ok label ->
  PyDict.get (label_encoders self) "knn" = Some None ->
  fails_with (fst (predict env self image_path "knn" w))
    "Prediction error: 'NoneType' object has no attribute 'inverse_transform'".
Proof.
  intros (image & hf & hm & hlabel & Himg & Hhf & Hhm & Hlabel & Hnz & Hdf)
    Hdm Hpred Henc.
  assert (Hmem : PyDict.mem "knn_disease" (models self) = true)
    by (unfold PyDict.mem; rewrite Hdm; reflexivity).
  assert (Hemem : PyDict.mem "knn" (label_encoders self) = true)
    by (unfold PyDict.mem; rewrite Henc; reflexivity).
  assert (Hlabel0 : (hlabel =? 0) = false) by (apply Z.eqb_neq; exact Hnz).
  cbn [String.append] in Hhm.
  unfold knn_input in Hpred.
  destruct (sklearn.feature_names_in_ disease_model) as [names |] eqn:Hnames;
    [ rewrite <- features_dict_of_values in Hpred
    | change (select_features disease_features canonical_order)
        with (features_list_of disease_features) in Hpred ];
    apply (post_run _ _ (fun o _ => fails_with o _));
    wp_request.
  all: close_failure.
Qed.

Lemma svm_encoder_None_fails
    env self image_path disease_features key disease_model names label w :
  reaches_disease_stage env self image_path "svm" disease_features ->
  disease_key_resolves self "svm" key ->
  PyDict.get (models self) key = Some (Some disease_model) ->
  sklearn.feature_names_in_ disease_model = Some names ->
  sklearn.predict disease_model (frame_input names disease_features) = Ok label ->
  confidence_available disease_model (frame_input names disease_features) label ->
  PyDict.get (label_encoders self) "svm" = Some None ->
  fails_with (fst (predict env self image_path "svm" w))
    "Prediction error: 'NoneType' object has no attribute 'inverse_transform'".
Proof.
  intros (image & hf & hm & hlabel & Himg & Hhf & Hhm & Hlabel & Hnz & Hdf)
    (Hmem & Hkey) Hdm Hnames Hpred Hconf Henc.
  assert (Hemem : PyDict.mem "svm" (label_encoders self) = true)
    by (unfold PyDict.mem; rewrite Henc; reflexivity).
  assert (Hlabel0 : (hlabel =? 0) = false) by (apply Z.eqb_neq; exact Hnz).
  cbn [String.append] in *.
  unfold frame_input in Hpred, Hconf.
  rewrite <- (features_dict_of_values disease_features) in Hpred, Hconf.
  rewrite <- (features_dict_of_keys disease_features) in Hpred, Hconf.
  unfold confidence_available in Hconf.
  unfold PyDict.mem in Hmem, Hkey.
  destruct (sklearn.predict_proba disease_model) as [proba |] eqn:Hproba;
    [destruct Hconf as (probs & c & Hprobs & Hc) |];
    (destruct Hkey as [Hkey | [Hnone Hkey]]; subst key;
     [| destruct (PyDict.get (models self) "svm_disease") eqn:Hown in Hnone;
        [discriminate |]]);
    apply (post_run _ _ (fun o _ => fails_with o _));
    wp_request.
  all: close_failure.
Qed.

Lemma fails_with_one_message o msg msg' :
  fails_with o msg -> msg <> msg' -> ~ fails_with o msg'.
Proof.
  intros (r & Hr & _ & Hm) Hne (r' & Hr' & _ & Hm').
  rewrite Hr in Hr'. inversion Hr'. subst r'. congruence.
Qed.

(** C10. The fallbacks of [load_models] bind keys to [None]: with the KNN
    health model loaded, no KNN disease file and no random-forest disease
    file, [knn_disease] is bound to [None]; with the SVM disease model
    loaded and no random-forest encoder file, the encoder key [svm] is
    bound to [None]; with the KNN health model loaded, no KNN encoder file
    and no random-forest encoder file, the encoder key [knn] is bound to
    [None]. A request that reaches such a key finds it present, and fails
    in an [except Exception] handler on the attribute error of [None]:
    the handler of the KNN branch for [knn_disease], the handler around
    the whole request for the encoders. The message is neither
    ["No disease classification model available"] nor
    ["Label encoder not available"]. *)
Theorem fallback_keys_bound_to_None :
  (forall dir,
     PyDict.mem "knn_health" (models (new_predictor dir)) = true ->
     knn_disease_classifier_model_pkl dir = Absent ->
     disease_classifier_model_pkl dir = Absent ->
     PyDict.get (models (new_predictor dir)) "knn_disease" = Some None)
  /\ (forall dir,
        PyDict.mem "svm_disease" (models (new_predictor dir)) = true ->
        disease_label_encoder_pkl dir = Absent ->
        PyDict.get (label_encoders (new_predictor dir)) "svm" = Some None)
  /\ (forall dir,
        PyDict.mem "knn_health" (models (new_predictor dir)) = true ->
        (forall e, knn_disease_classifier_model_pkl dir <> Corrupt e) ->
        knn_disease_label_encoder_pkl dir = Absent ->
        disease_label_encoder_pkl dir = Absent ->
        PyDict.get (label_encoders (new_predictor dir)) "knn" = Some None)
  /\ (forall env self image_path disease_features w,
        reaches_disease_stage env self image_path "knn" disease_features ->
        PyDict.get (models self) "knn_disease" = Some None ->
        let o := fst (predict env self image_path "knn" w) in
        PyDict.mem "knn_disease" (models self) = true
        /\ fails_with o
             ("KNN disease prediction error: "
              ++ str_exn (none_has_no_attribute "predict"))
        /\ ~ fails_with o "No disease classification model available")
  /\ (forall env self image_path disease_features disease_model label w,
        reaches_disease_stage env self image_path "knn" disease_features ->
        PyDict.get (models self) "knn_disease" = Some (Some disease_model) ->
        sklearn.predict disease_model (knn_input disease_model disease_features)
          = Ok label ->
        PyDict.get (label_encoders self) "knn" = Some None ->
        let o := fst (predict env self image_path "knn" w) in
        PyDict.mem "knn" (label_encoders self) = true
        /\ fails_with o
             ("Prediction error: "
              ++ str_exn (none_has_no_attribute "inverse_transform"))
        /\ ~ fails_with o "Label encoder not available")
  /\ (forall env self image_path disease_features key disease_model names label w,
        reaches_disease_stage env self image_path "svm" disease_features ->
        disease_key_resolves self "svm" key ->
        PyDict.get (models self) key = Some (Some disease_model) ->
        sklearn.feature_names_in_ disease_model = Some names ->
        sklearn.predict disease_model (frame_input names disease_features)
          = Ok label ->
        confidence_available disease_model (frame_input names disease_features) label ->
        PyDict.get (label_encoders self) "svm" = Some None ->
        let o := fst (predict env self image_path "svm" w) in
        PyDict.mem "svm" (label_encoders self) = true
        /\ fails_with o
             ("Prediction error: "
              ++ str_exn (none_has_no_attribute "inverse_transform"))
        /\ ~ fails_with o "Label encoder not available").
Proof.
  split; [exact knn_disease_fallback_None |].
  split; [exact svm_encoder_fallback_None |].
  split; [exact knn_encoder_fallback_None |].
  split; [| split].
  - intros env self image_path disease_features w Hreach Hdm o.
    pose proof (knn_disease_None_fails _ _ _ _ w Hreach Hdm) as Hfail.
    split; [unfold PyDict.mem; rewrite Hdm; reflexivity |].
    split; [exact Hfail |].
    apply (fails_with_one_message _ _ _ Hfail). discriminate.
  - intros env self image_path disease_features disease_model label w
      Hreach Hdm Hpred Henc o.
    pose proof (knn_encoder_None_fails _ _ _ _ _ _ w Hreach Hdm Hpred Henc) as Hfail.
    split; [unfold PyDict.mem; rewrite Henc; reflexivity |].
    split; [exact Hfail |].
    apply (fails_with_one_message _ _ _ Hfail). discriminate.
  - intros env self image_path disease_features key disease_model names label w
      Hreach Hkey Hdm Hnames Hpred Hconf Henc o.
    pose proof (svm_encoder_None_fails _ _ _ _ _ _ _ _ w
                  Hreach Hkey Hdm Hnames Hpred Hconf Henc) as Hfail.
    split; [unfold PyDict.mem; rewrite Henc; reflexivity |].
    split; [exact Hfail |].
    apply (fails_with_one_message _ _ _ Hfail). discriminate.
Qed.

(** C10 on the sample directories: only the KNN health model, the KNN
    models without encoder, and the SVM models without encoder. *)
Lemma fallback_keys_bound_to_None_witness :
  PyDict.get (models Sample.knn_health_only_predictor) "knn_disease" = Some None
  /\ PyDict.get (label_encoders Sample.svm_no_encoder_predictor) "svm" = Some None
  /\ PyDict.get (label_encoders Sample.knn_health_only_predictor) "knn" = Some None
  /\ fails_with
       (fst (predict Sample.env Sample.knn_health_only_predictor "leaf.jpg" "knn" fresh))
       "KNN disease prediction error: 'NoneType' object has no attribute 'predict'"
  /\ fails_with
       (fst (predict Sample.env Sample.knn_no_encoder_predictor "leaf.jpg" "knn" fresh))
       "Prediction error: 'NoneType' object has no attribute 'inverse_transform'"
  /\ fails_with
       (fst (predict Sample.env Sample.svm_no_encoder_predictor "leaf.jpg" "svm" fresh))
       "Prediction error: 'NoneType' object has no attribute 'inverse_transform'".
Proof.
  destruct fallback_keys_bound_to_None as (Ha & Hb & Hc & Hd & He & Hf).
  split; [apply (Ha Sample.knn_health_only_dir); reflexivity |].
  split; [apply (Hb Sample.svm_no_encoder_dir); reflexivity |].
  split; [apply (Hc Sample.knn_health_only_dir); try reflexivity; discriminate |].
  split; [| split].
  - apply (Hd Sample.env Sample.knn_health_only_predictor "leaf.jpg"
             Sample.patch_features fresh).
    + apply sample_reaches_disease_stage. reflexivity.
    + reflexivity.
  - apply (He Sample.env Sample.knn_no_encoder_predictor "leaf.jpg"
             Sample.patch_features Sample.plain_disease_model 2 fresh).
    + apply sample_reaches_disease_stage. reflexivity.
    + reflexivity.
    + reflexivity.
    + reflexivity.
  - apply (Hf Sample.env Sample.svm_no_encoder_predictor "leaf.jpg"
             Sample.patch_features "svm_disease" Sample.named_disease_model
             ["symmetry_score"; "mean_r"; "leaf_age"] 2 fresh).
    + apply sample_reaches_disease_stage. reflexivity.
    + split; [reflexivity | left; reflexivity].
    + reflexivity.
    + reflexivity.
    + reflexivity.
    + exists [0.1; 0.1; 0.8]%Q, 0.8%Q. split; reflexivity.
    + reflexivity.
Defined.

(** The registry of the healthy sample holds one classifier, and its
    probabilities are in range. *)
Lemma healthy_predictor_probabilities :
  probabilities_in_range Sample.healthy_predictor.
Proof.
  intros key m proba x probs Hget Hattr Hcall.
  cbn in Hget. destruct (String.eqb key "random_forest_health"); [| discriminate].
  inversion Hget. subst m. cbn in Hattr. inversion Hattr. subst proba.
  inversion Hcall. subst probs.
  repeat constructor; unfold Qle; cbn; lia.
Qed.

(** ** The health features *)

(** The nine health features of a valid image, in their order: five
    texture descriptors, the means of the channels 0, 1 and 2 of the
    resized image, which [cv2.imread] fills with blue, green and red, and
    the leaf area. *)
Lemma extract_health_features_layout lib image :
  health_fault lib image = None ->
  exists contrast dissimilarity homogeneity energy correlation area,
    extract_health_features lib image
    = Ok [ contrast; dissimilarity; homogeneity; energy; correlation;
           np_mean (channel blue (cv2_resize lib image (256, 256)%nat));
           np_mean (channel green (cv2_resize lib image (256, 256)%nat));
           np_mean (channel red (cv2_resize lib image (256, 256)%nat));
           area ].
Proof.
  intro Hvalid. unfold extract_health_features. rewrite Hvalid.
  do 6 eexists. reflexivity.
Qed.

Lemma uniform_channel_mean (c : Pixel -> Z) (p : Pixel) h w :
  (0 < h)%nat -> (0 < w)%nat ->
  (np_mean (channel c (Sample.uniform_image h w p)) == inject_Z (c p))%Q.
Proof.
  intros Hh Hw.
  assert (Hrow : forall n, ravel (repeat (repeat (c p) w) n) = repeat (c p) (n * w)).
  { induction n as [| n IH]; [reflexivity |].
    unfold ravel in *. cbn. rewrite IH. symmetry. apply repeat_app. }
  assert (Hsum : forall n, sumZ (repeat (c p) n) = Z.of_nat n * c p).
  { induction n as [| n IH]; [reflexivity |].
    cbn [repeat sumZ fold_right]. fold (sumZ (repeat (c p) n)). rewrite IH. lia. }
  unfold np_mean, channel, Sample.uniform_image.
  rewrite map_repeat, map_repeat, Hrow, Hsum, repeat_length.
  rewrite inject_Z_mult.
  assert (Hn : ~ (inject_Z (Z.of_nat (h * w)) == 0)%Q).
  { unfold Qeq. cbn. nia. }
  field. exact Hn.
Qed.

Lemma red256_channel_means :
  (np_mean (channel blue Sample.red256) == 0)%Q
  /\ (np_mean (channel green Sample.red256) == 0)%Q
  /\ (np_mean (channel red Sample.red256) == 255)%Q.
Proof.
  split; [| split].
  - exact (uniform_channel_mean blue (mkPixel 0 0 255) 256 256 ltac:(lia) ltac:(lia)).
  - exact (uniform_channel_mean green (mkPixel 0 0 255) 256 256 ltac:(lia) ltac:(lia)).
  - exact (uniform_channel_mean red (mkPixel 0 0 255) 256 256 ltac:(lia) ltac:(lia)).
Qed.

(** C4 (evaluation). On the 256 x 256 image of pure red, whose resizing
    to 256 x 256 is the image itself, the health extractor returns nine
    features whose sixth and seventh are 0 and whose eighth is 255, while
    the mean of the red channel is 255 and the mean of the blue channel is
    0: the positions 6 to 8 hold the means of blue, green and red. *)
Theorem health_color_means_in_memory_order lib :
  health_fault lib Sample.red256 = None ->
  cv2_resize lib Sample.red256 (256, 256)%nat = Sample.red256 ->
  exists features,
    extract_health_features lib Sample.red256 = Ok features
    /\ length features = 9%nat
    /\ (nth 5 features 0 == 0)%Q
    /\ (nth 6 features 0 == 0)%Q
    /\ (nth 7 features 0 == 255)%Q
    /\ (np_mean (channel red Sample.red256) == 255)%Q
    /\ (np_mean (channel blue Sample.red256) == 0)%Q.
Proof.
  intros Hvalid Hresize.
  destruct (extract_health_features_layout lib _ Hvalid)
    as (c & d & h & e & k & area & Hfeatures).
  rewrite Hresize in Hfeatures.
  destruct red256_channel_means as (Hb & Hg & Hr).
  eexists; split; [exact Hfeatures |].
  split; [reflexivity |].
  split; [exact Hb |].
  split; [exact Hg |].
  split; [exact Hr |].
  split; [exact Hr | exact Hb].
Qed.

(** The evaluation of C4 on the sample library. *)
Lemma health_color_means_in_memory_order_witness :
  exists features,
    extract_health_features Sample.lib Sample.red256 = Ok features
    /\ length features = 9%nat
    /\ (nth 5 features 0 == 0)%Q
    /\ (nth 6 features 0 == 0)%Q
    /\ (nth 7 features 0 == 255)%Q
    /\ (np_mean (channel red Sample.red256) == 255)%Q
    /\ (np_mean (channel blue Sample.red256) == 0)%Q.
Proof.
  apply (health_color_means_in_memory_order Sample.lib).
  - reflexivity.
  - vm_compute. reflexivity.
Defined.

(** ** The disease features *)

(** A list of known length as its elements. *)
Ltac explode l Hlen :=
  repeat (destruct l as [| ? l]; [discriminate Hlen |]);
  try (destruct l; [| discriminate Hlen]).

Lemma lbp_histogram_length lbp : length (lbp_histogram lbp) = 26%nat.
Proof. reflexivity. Qed.

(** The feature map of a valid image, entry by entry. *)
Lemma extract_disease_features_entries lib image :
  disease_fault lib image = None ->
  let img_resized := cv2_resize lib image (640, 640)%nat in
  let hsv := cvtColor_BGR2HSV lib img_resized in
  let gray := disease_gray lib image in
  let hist := lbp_histogram (local_binary_pattern lib gray LBP_POINTS LBP_RADIUS "uniform") in
  exists yellow entropy spot_count edge_density,
    extract_disease_features lib image
    = Ok ([ ("mean_r", np_mean (channel red img_resized));
            ("mean_g", np_mean (channel green img_resized));
            ("mean_b", np_mean (channel blue img_resized));
            ("mean_h", np_mean (channel ch0 hsv));
            ("mean_s", np_mean (channel ch1 hsv));
            ("mean_v", np_mean (channel ch2 hsv));
            ("yellow_area_percent", yellow);
            ("entropy", entropy) ]
          ++ combine lbp_names hist
          ++ [ ("spot_count", spot_count);
               ("edge_density", edge_density);
               ("symmetry_score", symmetry_score gray) ])%list.
Proof.
  intros Hvalid img_resized hsv gray hist.
  unfold extract_disease_features. rewrite Hvalid.
  do 4 eexists. f_equal.
  fold img_resized. fold hsv. change (cvtColor_BGR2GRAY lib img_resized) with gray.
  fold hist.
  pose proof (lbp_histogram_length
                (local_binary_pattern lib gray LBP_POINTS LBP_RADIUS "uniform")) as Hlen.
  fold hist in Hlen. clearbody hist.
  explode hist Hlen.
  reflexivity.
Qed.

Lemma np_histogram_nonneg a edges : 0 <= sumZ (np_histogram a edges).
Proof.
  induction edges as [| lo [| hi rest] IH]; cbn; try lia.
  cbn in IH. lia.
Qed.

Lemma filter_hit {A} (f : A -> bool) v l :
  In v l -> f v = true -> 1 <= Z.of_nat (length (filter f l)).
Proof.
  intros Hin Hf.
  assert (H : In v (filter f l)) by (apply filter_In; auto).
  destruct (filter f l); [contradiction | cbn; lia].
Qed.

Lemma np_histogram_hit a edges v :
  In v a -> covered edges v = true -> 1 <= sumZ (np_histogram a edges).
Proof.
  intros Hin. induction edges as [| lo [| hi rest] IH]; cbn; try discriminate.
  intro Hcov. apply orb_true_iff in Hcov. destruct Hcov as [Hbin | Hrest].
  - pose proof (filter_hit
                  (fun v => (lo <=? v)
                            && match rest with [] => v <=? hi | _ => v <? hi end)
                  _ _ Hin Hbin) as Hone.
    pose proof (np_histogram_nonneg a (hi :: rest)) as Hpos.
    cbn in Hpos. cbn in Hone. lia.
  - specialize (IH Hrest). cbn in IH. lia.
Qed.

Lemma uniform_codes_covered v :
  0 <= v <= 25 -> covered (np_arange 0 (Z.to_nat (LBP_POINTS + 3))) v = true.
Proof.
  intro Hv.
  assert (Hall : forallb (covered (np_arange 0 (Z.to_nat (LBP_POINTS + 3))))
                   (np_arange 0 26) = true) by (vm_compute; reflexivity).
  rewrite forallb_forall in Hall. apply Hall.
  unfold np_arange. apply in_map_iff. exists (Z.to_nat v).
  split; [lia |]. apply in_seq. lia.
Qed.

Lemma valid_codes_counted codes :
  lbp_codes_valid codes = true ->
  1 <= sumZ (np_histogram codes (np_arange 0 (Z.to_nat (LBP_POINTS + 3)))).
Proof.
  intro Hvalid. destruct codes as [| v codes]; [discriminate |].
  unfold lbp_codes_valid in Hvalid. rewrite forallb_forall in Hvalid.
  assert (Hv : 0 <= v <= 25).
  { specialize (Hvalid v (or_introl eq_refl)).
    apply andb_true_iff in Hvalid. lia. }
  apply (np_histogram_hit _ _ v); [left; reflexivity |].
  apply uniform_codes_covered. exact Hv.
Qed.

Lemma sumQ_scaled (T : Q) l :
  ~ (T == 0)%Q ->
  (sumQ (map (fun c => inject_Z c / T) l) == inject_Z (sumZ l) / T)%Q.
Proof.
  intro HT. induction l as [| c l IH].
  - cbn. field. exact HT.
  - cbn [map sumQ fold_right sumZ]. fold (sumQ (map (fun c => (inject_Z c / T)%Q) l)).
    fold (sumZ l). rewrite IH, inject_Z_plus. field. exact HT.
Qed.

Lemma epsilon_nonneg : (0 <= epsilon)%Q.
Proof. unfold epsilon, Qle. cbn. lia. Qed.

Lemma normalised_total_near_one (s : Z) :
  1 <= s ->
  (Qabs (inject_Z s / (inject_Z s + epsilon) - 1) <= epsilon)%Q.
Proof.
  intro Hs.
  assert (Hs1 : (1 <= inject_Z s)%Q) by (unfold Qle; cbn; lia).
  assert (Hpos : (0 < inject_Z s + epsilon)%Q).
  { apply Qlt_le_trans with (y := 1%Q); [reflexivity |].
    apply Qle_trans with (y := inject_Z s); [exact Hs1 |].
    rewrite <- (Qplus_0_r (inject_Z s)) at 1.
    apply Qplus_le_r. exact epsilon_nonneg. }
  assert (Heps : ~ (epsilon == 0)%Q) by discriminate.
  assert (Hne : ~ (inject_Z s + epsilon == 0)%Q).
  { intro H. rewrite H in Hpos. discriminate. }
  assert (Hx : (inject_Z s / (inject_Z s + epsilon) - 1
                == - (epsilon / (inject_Z s + epsilon)))%Q) by (field; exact Hne).
  rewrite Hx, Qabs_opp, Qabs_pos.
  - apply Qle_shift_div_r; [exact Hpos |].
    rewrite <- (Qmult_1_r epsilon) at 1.
    apply Qmult_le_l; [reflexivity |].
    apply Qle_trans with (y := inject_Z s); [exact Hs1 |].
    rewrite <- (Qplus_0_r (inject_Z s)) at 1.
    apply Qplus_le_r. exact epsilon_nonneg.
  - apply Qle_shift_div_l; [exact Hpos |].
    rewrite Qmult_0_l. discriminate.
Qed.

Lemma lbp_histogram_sum lbp :
  lbp_codes_valid (ravel lbp) = true ->
  (Qabs (sumQ (lbp_histogram lbp) - 1) <= epsilon)%Q.
Proof.
  intro Hvalid. pose proof (valid_codes_counted _ Hvalid) as Hs.
  unfold lbp_histogram.
  set (hist := np_histogram (ravel lbp) (np_arange 0 (Z.to_nat (LBP_POINTS + 3)))) in *.
  clearbody hist. cbv zeta.
  assert (Hne : ~ (inject_Z (sumZ hist) + epsilon == 0)%Q).
  { intro H.
    assert (Hle : (1 <= inject_Z (sumZ hist) + epsilon)%Q).
    { apply Qle_trans with (y := inject_Z (sumZ hist)).
      - unfold Qle; cbn; lia.
      - rewrite <- (Qplus_0_r (inject_Z (sumZ hist))) at 1.
        apply Qplus_le_r. exact epsilon_nonneg. }
    rewrite H in Hle. unfold Qle in Hle. cbn in Hle. lia. }
  rewrite (sumQ_scaled _ hist Hne).
  apply normalised_total_near_one. exact Hs.
Qed.

(** C8. The disease extractor returns, for a valid image whose pattern
    codes are uniform-pattern codes of 24 points, a map of exactly 37
    named features: the 8 colour and texture scalars, the 26 bins [lbp_0]
    to [lbp_25], and [spot_count], [edge_density] and [symmetry_score], in
    this order; and the 26 bin values sum to 1 within 1e-6. *)
Theorem disease_features_names_and_histogram lib image :
  disease_fault lib image = None ->
  lbp_codes_valid
    (ravel (local_binary_pattern lib (disease_gray lib image)
              LBP_POINTS LBP_RADIUS "uniform")) = true ->
  exists features,
    extract_disease_features lib image = Ok features
    /\ length features = 37%nat
    /\ PyDict.keys features = canonical_order
    /\ length (select_features features lbp_names) = 26%nat
    /\ (Qabs (sumQ (select_features features lbp_names) - 1) <= epsilon)%Q.
Proof.
  intros Hvalid Hcodes.
  destruct (extract_disease_features_entries lib image Hvalid)
    as (yellow & entropy & spots & edges & Hfeatures).
  pose proof (lbp_histogram_sum _ Hcodes) as Hsum.
  pose proof (lbp_histogram_length
                (local_binary_pattern lib (disease_gray lib image)
                   LBP_POINTS LBP_RADIUS "uniform")) as Hlen.
  cbv zeta in Hfeatures.
  set (hist := lbp_histogram _) in *. clearbody hist.
  eexists. split; [exact Hfeatures |].
  explode hist Hlen.
  split; [reflexivity |].
  split; [reflexivity |].
  split; [reflexivity |].
  exact Hsum.
Qed.

(** The symmetry feature of a valid image is the score of lines 174-176
    on the grayscale image. *)
Lemma symmetry_feature lib image :
  disease_fault lib image = None ->
  exists features,
    extract_disease_features lib image = Ok features
    /\ PyDict.get features "symmetry_score"
       = Some (symmetry_score (disease_gray lib image)).
Proof.
  intros Hvalid.
  destruct (extract_disease_features_entries lib image Hvalid)
    as (yellow & entropy & spots & edges & Hfeatures).
  pose proof (lbp_histogram_length
                (local_binary_pattern lib (disease_gray lib image)
                   LBP_POINTS LBP_RADIUS "uniform")) as Hlen.
  cbv zeta in Hfeatures.
  set (hist := lbp_histogram _) in *. clearbody hist.
  eexists. split; [exact Hfeatures |].
  explode hist Hlen.
  reflexivity.
Qed.

(** The evaluation of C8 on the sample library. *)
Lemma disease_features_names_and_histogram_witness :
  exists features,
    extract_disease_features Sample.lib Sample.green_patch = Ok features
    /\ length features = 37%nat
    /\ PyDict.keys features = canonical_order
    /\ length (select_features features lbp_names) = 26%nat
    /\ (Qabs (sumQ (select_features features lbp_names) - 1) <= epsilon)%Q.
Proof.
  apply (disease_features_names_and_histogram Sample.lib Sample.green_patch).
  - reflexivity.
  - vm_compute. reflexivity.
Defined.

(** ** The symmetry score *)

Lemma gray_step_score : (symmetry_score Sample.gray_step == 0)%Q.
Proof. vm_compute. reflexivity. Qed.

Lemma gray_step_mean_absolute_difference :
  (mean_absolute_difference_score Sample.gray_step == 254 # 255)%Q.
Proof. vm_compute. reflexivity. Qed.

(** C9 (evaluation). On the 640 x 640 image whose left half is black and
    whose right half has the gray level 1, the feature [symmetry_score] is
    0, where 1 minus the mean absolute difference of the halves over 255
    is 254/255: the difference [left - right] of the [uint8] samples 0 and
    1 wraps around to 255. *)
Theorem symmetry_score_wraps_around lib :
  disease_fault lib Sample.step_image = None ->
  disease_gray lib Sample.step_image = Sample.gray_step ->
  exists features score,
    extract_disease_features lib Sample.step_image = Ok features
    /\ PyDict.get features "symmetry_score" = Some score
    /\ (score == 0)%Q
    /\ (mean_absolute_difference_score Sample.gray_step == 254 # 255)%Q
    /\ ~ (score == mean_absolute_difference_score Sample.gray_step)%Q.
Proof.
  intros Hvalid Hgray.
  destruct (symmetry_feature lib _ Hvalid) as (features & Hfeatures & Hscore).
  rewrite Hgray in Hscore.
  exists features, (symmetry_score Sample.gray_step).
  split; [exact Hfeatures |].
  split; [exact Hscore |].
  split; [exact gray_step_score |].
  split; [exact gray_step_mean_absolute_difference |].
  rewrite gray_step_score, gray_step_mean_absolute_difference. discriminate.
Qed.

(** The evaluation of C9 on the sample library. *)
Lemma symmetry_score_wraps_around_witness :
  exists features score,
    extract_disease_features Sample.lib Sample.step_image = Ok features
    /\ PyDict.get features "symmetry_score" = Some score
    /\ (score == 0)%Q
    /\ (mean_absolute_difference_score Sample.gray_step == 254 # 255)%Q
    /\ ~ (score == mean_absolute_difference_score Sample.gray_step)%Q.
Proof.
  apply (symmetry_score_wraps_around Sample.lib).
  - reflexivity.
  - vm_compute. reflexivity.
Defined.

(** *** The range of the score *)

Lemma sumZ_bounds l :
  Forall (fun v => 0 <= v <= 255) l ->
  0 <= sumZ l <= 255 * Z.of_nat (length l).
Proof.
  induction 1 as [| v l Hv _ IH]; cbn [sumZ fold_right length].
  - lia.
  - fold (sumZ l). lia.
Qed.

Lemma np_mean_bounds a :
  Forall (fun v => 0 <= v <= 255) (ravel a) ->
  (0 <= np_mean a /\ np_mean a <= 255)%Q.
Proof.
  intro Hall. pose proof (sumZ_bounds _ Hall) as Hsum.
  unfold np_mean.
  set (s := sumZ (ravel a)) in *. set (n := length (ravel a)) in *.
  clearbody s n.
  destruct n as [| n].
  - assert (s = 0) by (cbn in Hsum; lia). subst s.
    split; unfold Qle, Qdiv, Qmult, Qinv; cbn; lia.
  - assert (Hn : (0 < inject_Z (Z.of_nat (S n)))%Q) by (unfold Qlt; cbn; lia).
    split.
    + apply Qle_shift_div_l; [exact Hn |].
      rewrite Qmult_0_l. unfold Qle; cbn; lia.
    + apply Qle_shift_div_r; [exact Hn |].
      unfold Qle, Qmult. cbn [Qnum Qden inject_Z]. lia.
Qed.

Lemma zip_with_Forall {A B C} (f : A -> B -> C) (P : C -> Prop) xs ys :
  (forall x y, P (f x y)) -> Forall P (zip_with f xs ys).
Proof.
  intro Hf. unfold zip_with. apply Forall_forall. intros z Hz.
  apply in_map_iff in Hz. destruct Hz as ([x y] & <- & _). apply Hf.
Qed.

Lemma wrapped_difference_bounds gray half :
  Forall (fun v => 0 <= v <= 255)
    (ravel (zip_with (zip_with (fun l r => Z.abs (uint8_sub l r)))
              (map (firstn half) gray)
              (cv2_flip_1 (map (skipn half) gray)))).
Proof.
  unfold ravel. apply Forall_concat.
  apply zip_with_Forall. intros row row'.
  apply zip_with_Forall. intros l r.
  unfold uint8_sub. pose proof (Z.mod_pos_bound (l - r) 256). lia.
Qed.

(** The score of lines 174-176 lies in [0, 1] on every grayscale image. *)
Lemma symmetry_score_in_unit_interval gray :
  in_unit_interval (symmetry_score gray).
Proof.
  unfold symmetry_score. cbv zeta.
  destruct (np_mean_bounds _ (wrapped_difference_bounds gray (shape1 gray / 2)))
    as [Hlo Hhi].
  set (m := np_mean _) in *. clearbody m.
  assert (H0 : (0 <= m / 255)%Q).
  { apply Qle_shift_div_l; [reflexivity |]. rewrite Qmult_0_l. exact Hlo. }
  assert (H1 : (m / 255 <= 1)%Q).
  { apply Qle_shift_div_r; [reflexivity |]. rewrite Qmult_1_l. exact Hhi. }
  unfold in_unit_interval. split.
  - setoid_replace 0%Q with (1 - 1)%Q by reflexivity.
    apply Qplus_le_r. apply Qopp_le_compat. exact H1.
  - setoid_replace 1%Q with (1 - 0)%Q at 2 by reflexivity.
    apply Qplus_le_r. apply Qopp_le_compat. exact H0.
Qed.

(** ** The outcome of every request *)

Ltac by_confidence :=
  unfold confidence_or;
  repeat match goal with
         | H : ?x = _ |- context [match ?x with _ => _ end] => rewrite H
         end;
  reflexivity.

Section Outcome.

Variable env : Env.
Variable self : BasilDiseasePredictor.

(** The confidence of the health stage. *)
Lemma health_confidence_exact key health_model health_features label w :
  post (health_confidence_of key (Some health_model) health_features label) w
    (fun c _ => c = confidence_or 0.95 health_model (PyList health_features) label)
    (fun _ _ => False).
Proof. wp; by_confidence. Qed.

(** The disease stage yields a label and a confidence only as
    [disease_classified] says. *)
Lemma disease_infer_outcome start_time model_type key disease_model disease_features w :
  post (disease_infer env self start_time model_type key disease_model disease_features) w
    (fun pc _ =>
       match pc with
       | inl r => success r = false
       | inr (label, c) =>
           exists m,
             disease_model = Some m
             /\ disease_classified self model_type m disease_features label c
       end)
    (fun _ _ => True).
Proof.
  unfold disease_infer, disease_classified.
  destruct (String.eqb model_type "knn" && PyDict.mem "knn_disease" (models self))
    eqn:Hbranch.
  - destruct disease_model as [m |];
      [destruct (sklearn.feature_names_in_ m) as [names |] eqn:Hnames |];
      wp.
    all: try exact I; try reflexivity.
    all: change (features_list_of disease_features)
           with (select_features disease_features canonical_order) in *.
    all: eexists; split; [reflexivity |];
      unfold knn_input; rewrite Hnames;
      rewrite <- ?features_dict_of_values;
      (split; [assumption | by_confidence]).
  - destruct disease_model as [m |];
      [destruct (sklearn.feature_names_in_ m) as [names |] eqn:Hnames |];
      wp.
    all: try exact I; try reflexivity.
    all: eexists; split; [reflexivity |];
      exists names; split; [exact Hnames |];
      unfold frame_input, standard_confidence;
      rewrite <- (features_dict_of_values disease_features),
        <- (features_dict_of_keys disease_features);
      (split; [assumption |]);
      repeat match goal with
             | H : ?x = _ |- context [match ?x with _ => _ end] => rewrite H
             end;
      first [reflexivity | eexists; split; eassumption].
Qed.

(** The label is resolved only through the encoder of the backend. *)
Lemma label_resolve_outcome start_time model_type label c w :
  post (label_resolve env self start_time model_type label c) w
    (fun r _ =>
       success r = true ->
       exists encoder disease_name info,
         PyDict.get (label_encoders self) (encoder_key_of self model_type)
         = Some (Some encoder)
         /\ sklearn.inverse_transform encoder label = Ok disease_name
         /\ get_disease_info disease_name = Some info
         /\ diseased_result r info c)
    (fun _ _ => True).
Proof.
  unfold label_resolve, encoder_key_of.
  destruct (PyDict.mem model_type (label_encoders self)) eqn:Hown; wp.
  all: try exact I; try (cbn; discriminate).
  all: intros _; do 3 eexists;
    (split; [first [reflexivity | eassumption] |]);
    (split; [eassumption |]); (split; [eassumption |]);
    repeat split.
Qed.

(** The diseased branch succeeds only when each of its stages answers. *)
Lemma diseased_branch_outcome start_time model_type image w :
  post (diseased_branch env self start_time model_type image) w
    (fun r _ =>
       success r = true ->
       exists disease_features key disease_model label c encoder disease_name info,
         extract_disease_features (vision env) image = Ok disease_features
         /\ disease_key_resolves self model_type key
         /\ PyDict.get (models self) key = Some (Some disease_model)
         /\ disease_classified self model_type disease_model disease_features label c
         /\ PyDict.get (label_encoders self) (encoder_key_of self model_type)
            = Some (Some encoder)
         /\ sklearn.inverse_transform encoder label = Ok disease_name
         /\ get_disease_info disease_name = Some info
         /\ diseased_result r info c)
    (fun _ _ => True).
Proof.
  unfold diseased_branch.
  repeat (cbv beta zeta; first
    [ lazymatch goal with
      | |- post (disease_infer _ _ _ _ _ _ _) _ _ _ =>
          let Hpc := fresh "Hpc" in
          eapply post_weaken;
          [ apply disease_infer_outcome
          | intros [? | [? ?]] ? Hpc; cbv beta iota
          | intros ? ? _; exact I ]
      | Hpc : exists m, _ /\ disease_classified _ _ m _ ?label ?c
        |- post (label_resolve _ _ _ _ ?label ?c) _ _ _ =>
          let Hr := fresh "Hresolved" in
          eapply post_weaken;
          [ apply label_resolve_outcome
          | intros ? ? Hr
          | intros ? ? _; exact I ]
      end
    | wp_step ]).
  all: try exact I; try (cbn; congruence).
  all: intro Hsuccess; specialize (Hresolved Hsuccess);
    destruct Hresolved as (encoder & disease_name & info & Henc & Hname & Hinfo & Hr);
    destruct Hpc as (m & Hm & Hclassified); subst;
    do 8 eexists;
    (split; [reflexivity |]);
    refine (conj _ (conj _ _)); [ | eassumption | ];
    [ unfold disease_key_resolves, PyDict.mem;
      repeat match goal with
             | H : PyDict.get _ _ = _ |- _ => rewrite H
             end;
      split; [reflexivity | first [left; reflexivity | right; split; reflexivity]]
    | (split; [exact Hclassified |]);
      (split; [exact Henc |]);
      (split; [exact Hname |]);
      (split; [exact Hinfo | exact Hr]) ].
Qed.

(** A request succeeds only when it runs through. *)
Lemma predict_body_outcome start_time image_path model_type w :
  post (predict_body env self start_time image_path model_type) w
    (fun r _ => success r = true -> runs_through env self image_path model_type r)
    (fun _ _ => True).
Proof.
  unfold predict_body.
  repeat (cbv beta zeta; first
    [ lazymatch goal with
      | |- post (health_confidence_of _ (Some _) _ _) _ _ _ =>
          let Hc := fresh "Hconfidence" in
          eapply post_weaken;
          [ apply health_confidence_exact
          | intros ? ? Hc
          | intros ? ? [] ]
      | |- post (diseased_branch _ _ _ _ _) _ _ _ =>
          let Hd := fresh "Hdiseased" in
          eapply post_weaken;
          [ apply diseased_branch_outcome
          | intros ? ? Hd
          | intros ? ? _; exact I ]
      end
    | wp_step ]).
  all: try exact I; try (cbn; congruence).
  - intros _. left. unfold healthy_outcome.
    match goal with H : (_ =? 0) = true |- _ => apply Z.eqb_eq in H; subst end.
    do 3 eexists.
    split; [eassumption |]. split; [eassumption |]. split; [eassumption |].
    split; [eassumption |].
    cbn [success prediction confidence disease_info message].
    repeat split; congruence.
  - intro Hsuccess. right. specialize (Hdiseased Hsuccess).
    destruct Hdiseased
      as (df & dkey & dm & dlabel & conf & encoder & disease_name & info
          & Hdf & Hkey & Hdm & Hclassified & Henc & Hname & Hinfo & Hr).
    match goal with H : (_ =? 0) = false |- _ => apply Z.eqb_neq in H end.
    exists df, dkey, dm, dlabel, conf, encoder, disease_name, info.
    split; [| auto 10].
    unfold reaches_disease_stage. do 4 eexists.
    split; [eassumption |]. split; [eassumption |]. split; [eassumption |].
    split; [eassumption |]. split; assumption.
Qed.

Lemma predict_outcome image_path model_type w :
  post (predict env self image_path model_type) w
    (fun r _ => success r = true -> runs_through env self image_path model_type r)
    (fun _ _ => False).
Proof.
  unfold predict.
  apply post_bind, post_now, post_try_except.
  eapply post_weaken; [ apply predict_body_outcome | | ].
  - intros r w1 H. exact H.
  - intros e w1 _. wp. cbn. discriminate.
Qed.

End Outcome.


Lemma confidence_or_stage default m x label :
  stage_confidence default m x label (confidence_or default m x label).
Proof.
  unfold stage_confidence, confidence_or, cannot_supply, supplies.
  destruct (sklearn.predict_proba m) as [proba |] eqn:Hproba; [| left; auto].
  destruct (proba x) as [probs | e] eqn:Hprobs; [| left; auto].
  destruct (py_index probs label) as [c | e] eqn:Hc; [| left; auto].
  right. exists proba, probs. auto.
Qed.

Lemma standard_confidence_stage m x label c :
  standard_confidence m x label c -> stage_confidence 0.75 m x label c.
Proof.
  unfold standard_confidence, stage_confidence, cannot_supply, supplies.
  destruct (sklearn.predict_proba m) as [proba |] eqn:Hproba.
  - intros (probs & Hprobs & Hc). right. exists proba, probs. auto.
  - intros ->. left. auto.
Qed.

(** The confidence of a request that ran through is the one of its stage. *)
Lemma runs_through_confidence env self image_path model_type r :
  runs_through env self image_path model_type r ->
  exists c,
    confidence r = Some c
    /\ confidence_of_stage env self image_path model_type r c.
Proof.
  intros [(image & hf & hm & Himg & Hhf & Hhm & Hlabel & _ & Hp & Hc & _)
         | (df & key & dm & label & c & enc & disease_name & info
            & Hreach & Hkey & Hdm & Hclassified & _ & _ & _ & Hr)].
  - eexists. split; [exact Hc |]. left. split; [exact Hp |].
    exists image, hf, hm.
    split; [exact Himg |]. split; [exact Hhf |]. split; [exact Hhm |].
    split; [exact Hlabel |]. apply confidence_or_stage.
  - destruct Hr as (_ & Hp & Hc & _).
    exists c. split; [exact Hc |]. right.
    split; [rewrite Hp; discriminate |].
    unfold disease_classified in Hclassified.
    destruct (String.eqb model_type "knn" && PyDict.mem "knn_disease" (models self))
      eqn:Hbranch.
    + destruct Hclassified as [Hpred ->].
      exists df, key, dm, (knn_input dm df), label.
      split; [exact Hreach |]. split; [exact Hkey |]. split; [exact Hdm |].
      split; [reflexivity |]. split; [exact Hpred |]. apply confidence_or_stage.
    + destruct Hclassified as (names & Hnames & Hpred & Hconf).
      exists df, key, dm, (frame_input names df), label.
      split; [exact Hreach |]. split; [exact Hkey |]. split; [exact Hdm |].
      split; [exists names; auto |]. split; [exact Hpred |].
      apply standard_confidence_stage. exact Hconf.
Qed.

(** C7. In every successful result the confidence is present and lies in
    [0, 1], provided every probability vector that a classifier of the
    registry returns holds numbers of [0, 1]. It is the confidence of the
    stage that produced the result: the probability that the stage's
    classifier supplies for the class it predicted, and the default of the
    stage, 0.95 in a ["Healthy Plant"] result and 0.75 in a diseased one,
    exactly when the classifier cannot supply a probability. *)
Theorem confidence_in_unit_interval env self image_path model_type w r w' :
  probabilities_in_range self ->
  predict env self image_path model_type w = (Ok r, w') ->
  success r = true ->
  exists c,
    confidence r = Some c /\ in_unit_interval c
    /\ confidence_source self model_type r c
    /\ confidence_of_stage env self image_path model_type r c.
Proof.
  intros Hprobs Hrun Hsuccess.
  destruct (post_ok _ _ _ _ _ _
              (predict_confidence env self Hprobs image_path model_type w) Hrun Hsuccess)
    as (c & Hc & Hrange & Hsource).
  pose proof (post_ok _ _ _ _ _ _ (predict_outcome env self image_path model_type w)
                Hrun Hsuccess) as Hthrough.
  destruct (runs_through_confidence _ _ _ _ _ Hthrough) as (c' & Hc' & Hstage).
  assert (c' = c) by congruence. subst c'.
  exists c. auto.
Qed.

(** The request of C7 on the sample environment: the confidence 0.99 of
    the health classifier. *)
Lemma confidence_in_unit_interval_witness :
  exists r w' c,
    predict Sample.env Sample.healthy_predictor "leaf.jpg" "random_forest" fresh
      = (Ok r, w')
    /\ confidence r = Some c
    /\ in_unit_interval c
    /\ confidence_source Sample.healthy_predictor "random_forest" r c
    /\ confidence_of_stage Sample.env Sample.healthy_predictor "leaf.jpg"
         "random_forest" r c.
Proof.
  eassert (E : predict Sample.env Sample.healthy_predictor "leaf.jpg" "random_forest" fresh
               = (Ok _, _)) by (vm_compute; reflexivity).
  destruct (confidence_in_unit_interval _ _ _ _ _ _ _
              healthy_predictor_probabilities E eq_refl) as (c & Hc & Hr & Hs & Hst).
  eexists _, _, c. split; [exact E |]. split; [exact Hc |]. split; [exact Hr |].
  split; [exact Hs | exact Hst].
Defined.

(** * Further properties *)

(** ** disease_info.py *)

Lemma lower_ascii_idempotent c : lower_ascii (lower_ascii c) = lower_ascii c.
Proof.
  destruct c as [[] [] [] [] [] [] [] []]; reflexivity.
Qed.

Lemma lower_idempotent s : lower (lower s) = lower s.
Proof.
  induction s as [| c s IH]; [reflexivity |].
  cbn. rewrite lower_ascii_idempotent, IH. reflexivity.
Qed.

Lemma get_disease_info_never_None_helper disease_name :
  exists d, get_disease_info disease_name = Some d.
Proof.
  unfold get_disease_info.
  destruct (PyDict.get DISEASE_INFO (lower disease_name)); eexists; reflexivity.
Qed.

(** X1. [get_disease_info] never answers [None]: a name the table lacks,
    whatever its letter case, gets the record of [healthy_basil]. *)
Theorem get_disease_info_never_None disease_name :
  exists d,
    get_disease_info disease_name = Some d
    /\ (PyDict.get DISEASE_INFO (lower disease_name) = None ->
        Some d = healthy_record
        /\ name d = "Healthy Basil" /\ severity d = severity_none).
Proof.
  unfold get_disease_info.
  destruct (PyDict.get DISEASE_INFO (lower disease_name)) as [d |] eqn:E.
  - exists d. split; [reflexivity | discriminate].
  - eexists. split; [reflexivity |]. intros _. repeat split.
Qed.

(** X2. The lookup ignores the letter case of the name, and every key of
    the table retrieves its own record: a name whose lower-case form is a
    key of [DISEASE_INFO] gets the record stored under that key. *)
Theorem get_disease_info_by_key key d disease_name :
  In (key, d) DISEASE_INFO ->
  lower disease_name = key ->
  get_disease_info disease_name = Some d
  /\ get_disease_info (lower disease_name) = Some d.
Proof.
  intros Hin Hkey.
  assert (Hget : PyDict.get DISEASE_INFO key = Some d).
  { cbn in Hin.
    repeat (destruct Hin as [Hin | Hin];
            [inversion Hin; subst; reflexivity |]).
    contradiction. }
  unfold get_disease_info. rewrite lower_idempotent, Hkey, Hget. split; reflexivity.
Qed.

Lemma get_disease_info_by_key_witness :
  get_disease_info "Fusarium_WILT"
  = PyDict.get DISEASE_INFO "fusarium_wilt"
  /\ option_map name (get_disease_info "Fusarium_WILT") = Some "Fusarium Wilt".
Proof.
  destruct (PyDict.get DISEASE_INFO "fusarium_wilt") as [d |] eqn:E; [| discriminate].
  assert (Hin : In ("fusarium_wilt", d) DISEASE_INFO).
  { inversion E. subst d. cbn. right. right. left. reflexivity. }
  destruct (get_disease_info_by_key "fusarium_wilt" d "Fusarium_WILT" Hin eq_refl)
    as [H _].
  rewrite H. split; [reflexivity |]. inversion E. reflexivity.
Defined.

(** ** load_models *)

Lemma get_set {V} (d : PyDict.t V) k v key :
  PyDict.get (PyDict.set d k v) key
  = if String.eqb key k then Some v else PyDict.get d key.
Proof.
  induction d as [| [k' v'] d IH]; cbn.
  - reflexivity.
  - destruct (String.eqb k k') eqn:Ek; cbn.
    + apply String.eqb_eq in Ek. subst k'.
      destruct (String.eqb key k); reflexivity.
    + rewrite IH.
      destruct (String.eqb key k') eqn:Ek'; [| reflexivity].
      apply String.eqb_eq in Ek'. subst k'.
      destruct (String.eqb key k) eqn:Ekk; [| reflexivity].
      apply String.eqb_eq in Ekk. subst k.
      rewrite String.eqb_refl in Ek. discriminate.
Qed.

Lemma run_load_steps_invariant (Inv : BasilDiseasePredictor -> Prop) steps self :
  Forall (fun step => forall s s', Inv s -> step s = Ok s' -> Inv s') steps ->
  Inv self ->
  Inv (run_load_steps steps self).
Proof.
  intro Hsteps. revert self.
  induction Hsteps as [| step steps Hstep _ IH]; intros self Hinv; cbn.
  - exact Hinv.
  - destruct (step self) as [self' | e] eqn:E; [| exact Hinv].
    apply IH. exact (Hstep _ _ Hinv E).
Qed.

Ltac step_keeps_None :=
  let s := fresh "s" in
  let s' := fresh "s'" in
  let Hm := fresh "Hm" in
  let He := fresh "He" in
  let E := fresh "E" in
  intros s s' [Hm He] E;
  repeat match goal with
         | E : context [os_path_exists ?f] |- _ => destruct f; cbn in E
         | E : (if ?b then _ else _) = Ok _ |- _ => destruct b
         end;
  inversion E; subst s'; clear E;
  split; intro; cbn; rewrite ?get_set;
  repeat match goal with
         | |- context [String.eqb ?key ?k] =>
             let Ek := fresh "Ek" in
             destruct (String.eqb key k) eqn:Ek;
             [apply String.eqb_eq in Ek | ]
         end;
  try discriminate; auto.

Lemma load_models_None_only_at_fallbacks dir :
  None_only_at_fallbacks (new_predictor dir).
Proof.
  unfold new_predictor, load_models.
  apply run_load_steps_invariant.
  - repeat (apply Forall_cons;
            [ unfold load_rf_health, load_rf_disease, load_rf_encoder,
                load_svm_health, load_svm_disease, load_knn_health,
                load_knn_disease, load_knn_encoder, load_model_if_exists,
                set_model, set_encoder;
              step_keeps_None
            | ]).
    apply Forall_nil.
  - split; intro key; cbn; discriminate.
Qed.

(** X3. After [load_models], whatever the directory holds, no key other
    than [knn_disease] is bound to [None] among the classifiers, and no key
    other than [svm] and [knn] among the encoders: the health classifiers,
    [random_forest_disease], [svm_disease] and the [random_forest] encoder
    are either absent or loaded artifacts. *)
Theorem only_fallback_keys_hold_None dir key :
  (PyDict.get (models (new_predictor dir)) key = Some None -> key = "knn_disease")
  /\ (PyDict.get (label_encoders (new_predictor dir)) key = Some None ->
      key = "svm" \/ key = "knn").
Proof.
  destruct (load_models_None_only_at_fallbacks dir) as [Hm He].
  split; [apply Hm | apply He].
Qed.

Lemma only_fallback_keys_hold_None_witness :
  PyDict.get (models (new_predictor Sample.knn_health_only_dir)) "knn_disease"
    = Some None
  /\ "knn_disease" = "knn_disease".
Proof.
  split; [reflexivity |].
  apply (proj1 (only_fallback_keys_hold_None Sample.knn_health_only_dir "knn_disease")).
  reflexivity.
Defined.

Ltac each_file H :=
  repeat match goal with
         | f : File _ |- _ => destruct f; cbn in H; try discriminate H
         end.

(** X4. When no file of the directory fails to load, the registry holds
    exactly what the directory holds: a classifier key is present exactly
    when its file exists, [knn_disease] also when only the KNN health file
    exists; the encoder [random_forest] exactly when its file exists,
    [svm] exactly when the SVM disease file exists, and [knn] when the KNN
    encoder file or the KNN health file exists. *)
Theorem registry_reflects_directory dir :
  no_corrupt_file dir = true ->
  let self := new_predictor dir in
  PyDict.mem "random_forest_health" (models self)
    = os_path_exists (healthy_vs_diseased_model_pkl dir)
  /\ PyDict.mem "random_forest_disease" (models self)
     = os_path_exists (disease_classifier_model_pkl dir)
  /\ PyDict.mem "svm_health" (models self)
     = os_path_exists (healthy_vs_diseased_svm_model_pkl dir)
  /\ PyDict.mem "svm_disease" (models self)
     = os_path_exists (svm_disease_classifier_model_pkl dir)
  /\ PyDict.mem "knn_health" (models self)
     = os_path_exists (healthy_vs_diseased_knn_model_pkl dir)
  /\ PyDict.mem "knn_disease" (models self)
     = os_path_exists (knn_disease_classifier_model_pkl dir)
       || os_path_exists (healthy_vs_diseased_knn_model_pkl dir)
  /\ PyDict.mem "random_forest" (label_encoders self)
     = os_path_exists (disease_label_encoder_pkl dir)
  /\ PyDict.mem "svm" (label_encoders self)
     = os_path_exists (svm_disease_classifier_model_pkl dir)
  /\ PyDict.mem "knn" (label_encoders self)
     = os_path_exists (knn_disease_label_encoder_pkl dir)
       || os_path_exists (healthy_vs_diseased_knn_model_pkl dir).
Proof.
  intro H. destruct dir as [f1 f2 f3 f4 f5 f6 f7 f8].
  unfold no_corrupt_file in H. cbn in H.
  each_file H.
  all: cbn; repeat split.
Qed.

Lemma registry_reflects_directory_witness :
  PyDict.mem "knn_health" (models Sample.knn_named_predictor) = true
  /\ PyDict.mem "svm_health" (models Sample.knn_named_predictor) = false.
Proof.
  destruct (registry_reflects_directory Sample.knn_named_dir eq_refl)
    as (_ & _ & Hsvm & _ & Hknn & _).
  split; [exact Hknn | exact Hsvm].
Defined.

(** X5. One file that exists and fails to load ends the loading: when a
    random-forest or SVM artifact is corrupt, the KNN backend is not
    registered, however sound its own three files are. *)
Theorem corrupt_file_disables_knn dir :
  file_corrupt (healthy_vs_diseased_model_pkl dir)
  || file_corrupt (disease_classifier_model_pkl dir)
  || file_corrupt (disease_label_encoder_pkl dir)
  || file_corrupt (healthy_vs_diseased_svm_model_pkl dir)
  || file_corrupt (svm_disease_classifier_model_pkl dir) = true ->
  let self := new_predictor dir in
  PyDict.mem "knn_health" (models self) = false
  /\ PyDict.mem "knn_disease" (models self) = false
  /\ PyDict.mem "knn" (label_encoders self) = false
  /\ main.get_available_models self
     = filter (fun m => negb (String.eqb (main.name m) "knn"))
         (main.get_available_models self).
Proof.
  intro H. destruct dir as [f1 f2 f3 f4 f5 f6 f7 f8]. cbn in H.
  destruct f1; cbn in H; [ | | cbn; repeat split].
  all: destruct f2; cbn in H; [ | | cbn; repeat split].
  all: destruct f3; cbn in H; [ | | cbn; repeat split].
  all: destruct f4; cbn in H; [ | | cbn; repeat split].
  all: destruct f5; cbn in H; try discriminate H; cbn; repeat split.
Qed.

Lemma corrupt_file_disables_knn_witness :
  PyDict.mem "knn_health" (models (new_predictor Sample2.corrupt_rf_dir)) = false
  /\ main.get_available_models (new_predictor Sample2.corrupt_rf_dir) = [].
Proof.
  destruct (corrupt_file_disables_knn Sample2.corrupt_rf_dir eq_refl)
    as (H & _ & _ & _).
  split; [exact H | reflexivity].
Defined.

(** ** predict: the stages before the disease classifier *)

(** X6. A file that does not decode ends the request at once: the answer
    is ["Could not load image"], and the decoder is the only collaborator
    called; no feature is extracted and no classifier consulted, whatever
    the backend and the registry. *)
Theorem unreadable_image_calls_nothing env self image_path model_type :
  cv2_imread env image_path = Ok None ->
  fails_with (fst (predict env self image_path model_type fresh)) "Could not load image"
  /\ calls (snd (predict env self image_path model_type fresh)) = [Ev_imread image_path].
Proof.
  intro Himg.
  apply (post_run _ _ (fun o w' => fails_with o _ /\ calls w' = _)).
  wp. split; [close_failure | reflexivity].
Qed.

Lemma unreadable_image_calls_nothing_witness :
  fails_with (fst (predict Sample.env Sample.healthy_predictor "notes.jpg"
                     "random_forest" fresh))
    "Could not load image"
  /\ calls (snd (predict Sample.env Sample.healthy_predictor "notes.jpg"
                   "random_forest" fresh))
     = [Ev_imread "notes.jpg"].
Proof.
  apply (unreadable_image_calls_nothing Sample.env Sample.healthy_predictor
           "notes.jpg" "random_forest").
  reflexivity.
Defined.

(** X7. An exception of the health feature extractor ends the request
    with ["Prediction error: "] followed by the text of the exception; the
    registry is not consulted and no classifier is called, so the answer is
    the same for a backend that is not loaded. *)
Theorem health_extraction_error_is_reported env self image_path model_type image e :
  cv2_imread env image_path = Ok (Some image) ->
  extract_health_features (vision env) image = Raise e ->
  fails_with (fst (predict env self image_path model_type fresh))
    ("Prediction error: " ++ str_exn e)
  /\ calls (snd (predict env self image_path model_type fresh))
     = [Ev_imread image_path; Ev_extract_health_features].
Proof.
  intros Himg Hfeat.
  apply (post_run _ _ (fun o w' => fails_with o _ /\ calls w' = _)).
  wp. split; [close_failure | reflexivity].
Qed.

Lemma health_extraction_error_is_reported_witness :
  fails_with (fst (predict Sample2.faulty_env Sample.healthy_predictor "leaf.jpg"
                     "svm" fresh))
    "Prediction error: OpenCV: (-215:Assertion failed)"
  /\ calls (snd (predict Sample2.faulty_env Sample.healthy_predictor "leaf.jpg"
                   "svm" fresh))
     = [Ev_imread "leaf.jpg"; Ev_extract_health_features].
Proof.
  exact (health_extraction_error_is_reported Sample2.faulty_env Sample.healthy_predictor
           "leaf.jpg" "svm" Sample.green_patch
           (OtherError "OpenCV: (-215:Assertion failed)") eq_refl eq_refl).
Defined.

Ltac use_confidence :=
  unfold confidence_or;
  repeat match goal with
         | H : ?x = _ |- context [match ?x with _ => _ end] => rewrite H
         end.

(** X8. The confidence of a healthy result is the entry of the health
    classifier's probability vector at class 0; an exception of
    [predict_proba], like its absence or an empty vector, is swallowed and
    leaves the default 0.95, and the result is still a success. *)
Theorem healthy_confidence
    env self image_path model_type image health_features health_model w :
  cv2_imread env image_path = Ok (Some image) ->
  extract_health_features (vision env) image = Ok health_features ->
  PyDict.get (models self) (model_type ++ "_health") = Some (Some health_model) ->
  sklearn.predict health_model (PyList health_features) = Ok 0 ->
  exists r,
    fst (predict env self image_path model_type w) = Ok r
    /\ success r = true
    /\ confidence r
       = Some (confidence_or 0.95 health_model (PyList health_features) 0)
    /\ (forall proba e,
          sklearn.predict_proba health_model = Some proba ->
          proba (PyList health_features) = Raise e ->
          confidence r = Some 0.95%Q).
Proof.
  intros Himg Hfeat Hmodel Hpred.
  apply (post_run _ _
           (fun o _ =>
              exists r, o = Ok r /\ success r = true
                /\ confidence r = Some (confidence_or 0.95 health_model _ 0)
                /\ (forall proba e,
                      sklearn.predict_proba health_model = Some proba ->
                      proba (PyList health_features) = Raise e ->
                      confidence r = Some 0.95%Q))).
  wp.
  all: try discriminate.
  all: eexists; split; [reflexivity |]; split; [reflexivity |].
  all: split; [use_confidence; reflexivity |].
  all: intros ? ? Hattr Hraise; cbn; congruence.
Qed.

Lemma healthy_confidence_witness :
  exists r,
    fst (predict Sample.env (new_predictor Sample2.healthy_no_proba_dir) "leaf.jpg"
           "random_forest" fresh) = Ok r
    /\ success r = true
    /\ confidence r = Some 0.95%Q.
Proof.
  destruct patch_health_features_extracted as [hf Hhf].
  destruct (healthy_confidence Sample.env (new_predictor Sample2.healthy_no_proba_dir)
              "leaf.jpg" "random_forest" Sample.green_patch hf
              (Sample2.no_proba_model 0 None) fresh
              eq_refl Hhf eq_refl eq_refl) as (r & Hr & Hs & _ & Hc).
  exists r. split; [exact Hr |]. split; [exact Hs |].
  exact (Hc _ _ eq_refl eq_refl).
Defined.

(** ** predict: the diseased branch *)

Ltac close_diseased :=
  try congruence;
  eexists; eexists; split; [first [reflexivity | eassumption] |]; split; [reflexivity |];
  unfold diseased_result;
  cbn [success prediction confidence disease_info message];
  split; [reflexivity |]; split; [reflexivity |];
  split; [first [use_confidence; reflexivity | reflexivity] |];
  split; reflexivity.

(** A KNN request whose classifier and encoder answer. *)
Lemma knn_diseased_run
    env self image_path disease_features disease_model label encoder disease_name w :
  reaches_disease_stage env self image_path "knn" disease_features ->
  PyDict.get (models self) "knn_disease" = Some (Some disease_model) ->
  sklearn.predict disease_model (knn_input disease_model disease_features) = Ok label ->
  PyDict.get (label_encoders self) (encoder_key_of self "knn") = Some (Some encoder) ->
  sklearn.inverse_transform encoder label = Ok disease_name ->
  exists info r,
    get_disease_info disease_name = Some info
    /\ fst (predict env self image_path "knn" w) = Ok r
    /\ diseased_result r info
         (confidence_or 0.75 disease_model
            (knn_input disease_model disease_features) label).
Proof.
  intros (image & hf & hm & hlabel & Himg & Hhf & Hhm & Hlabel & Hnz & Hdf)
    Hdm Hpred Henc Hname.
  assert (Hmem : PyDict.mem "knn_disease" (models self) = true)
    by (unfold PyDict.mem; rewrite Hdm; reflexivity).
  assert (Hlabel0 : (hlabel =? 0) = false) by (apply Z.eqb_neq; exact Hnz).
  cbn [String.append] in Hhm.
  unfold encoder_key_of in Henc.
  destruct (get_disease_info_never_None_helper disease_name) as [info Hinfo].
  unfold knn_input in *.
  destruct (sklearn.feature_names_in_ disease_model) as [names |] eqn:Hnames;
    [ rewrite <- features_dict_of_values in *
    | change (select_features disease_features canonical_order)
        with (features_list_of disease_features) in * ];
    apply (post_run _ _
             (fun o _ => exists info r, get_disease_info disease_name = Some info
                                        /\ o = Ok r /\ diseased_result r info _));
    wp_request.
  all: close_diseased.
Qed.

(** X9. A KNN request whose disease classifier answers [label] and whose
    encoder decodes it succeeds with the prediction
    ["Diseased Plant - "] followed by the name of the record of the
    decoded identifier, that record, and the entry at [label] of the
    classifier's probability vector; when [predict_proba] is absent,
    raises, or has no such entry, the confidence is 0.75 and the request
    succeeds all the same. The encoder is the one bound to [knn], and the
    one bound to [random_forest] when [knn] is not a key. *)
Theorem knn_diseased_result
    env self image_path disease_features disease_model label encoder disease_name w :
  reaches_disease_stage env self image_path "knn" disease_features ->
  PyDict.get (models self) "knn_disease" = Some (Some disease_model) ->
  sklearn.predict disease_model (knn_input disease_model disease_features) = Ok label ->
  PyDict.get (label_encoders self) (encoder_key_of self "knn") = Some (Some encoder) ->
  sklearn.inverse_transform encoder label = Ok disease_name ->
  exists info r,
    get_disease_info disease_name = Some info
    /\ fst (predict env self image_path "knn" w) = Ok r
    /\ diseased_result r info
         (confidence_or 0.75 disease_model
            (knn_input disease_model disease_features) label).
Proof. exact (knn_diseased_run env self image_path disease_features disease_model
                label encoder disease_name w). Qed.

Lemma knn_diseased_result_witness :
  exists r,
    fst (predict Sample.env Sample.knn_named_predictor "leaf.jpg" "knn" fresh) = Ok r
    /\ prediction r = Some "Diseased Plant - Fusarium Wilt"
    /\ confidence r = Some 0.8%Q
    /\ option_map usability (disease_info r) = Some "No – Unfit for any medicinal use".
Proof.
  destruct (knn_diseased_result Sample.env Sample.knn_named_predictor "leaf.jpg"
              Sample.patch_features Sample.named_disease_model 2 Sample.encoder
              "fusarium_wilt" fresh
              (sample_reaches_disease_stage Sample.knn_named_predictor "knn" eq_refl)
              eq_refl eq_refl eq_refl eq_refl)
    as (info & r & Hinfo & Hr & _ & Hp & Hc & Hd & _).
  exists r. inversion Hinfo. subst info.
  split; [exact Hr |]. split; [exact Hp |]. split; [exact Hc |].
  rewrite Hd. reflexivity.
Defined.

(** X11. A backend without a disease classifier of its own or of the
    random forest fails with ["No disease classification model available"],
    after the disease features were extracted: the extraction precedes the
    lookup, and no disease classifier is called. *)
Theorem no_disease_model_available env self image_path model_type disease_features :
  reaches_disease_stage env self image_path model_type disease_features ->
  PyDict.mem (model_type ++ "_disease") (models self) = false ->
  PyDict.mem "random_forest_disease" (models self) = false ->
  fails_with (fst (predict env self image_path model_type fresh))
    "No disease classification model available"
  /\ In Ev_extract_disease_features
       (calls (snd (predict env self image_path model_type fresh)))
  /\ classifier_inputs (model_type ++ "_disease")
       (calls (snd (predict env self image_path model_type fresh))) = []
  /\ classifier_inputs "random_forest_disease"
       (calls (snd (predict env self image_path model_type fresh))) = [].
Proof.
  intros (image & hf & hm & hlabel & Himg & Hhf & Hhm & Hlabel & Hnz & Hdf) Hown Hrf.
  assert (Hlabel0 : (hlabel =? 0) = false) by (apply Z.eqb_neq; exact Hnz).
  assert (Hown' : PyDict.get (models self) (model_type ++ "_disease") = None).
  { unfold PyDict.mem in Hown.
    destruct (PyDict.get (models self) (model_type ++ "_disease")); congruence. }
  assert (Hrf' : PyDict.get (models self) "random_forest_disease" = None).
  { unfold PyDict.mem in Hrf.
    destruct (PyDict.get (models self) "random_forest_disease"); congruence. }
  clear Hown Hrf.
  assert (Hne1 : String.eqb (model_type ++ "_health") (model_type ++ "_disease") = false).
  { apply String.eqb_neq. intro H. rewrite H in Hhm. congruence. }
  assert (Hne2 : String.eqb (model_type ++ "_health") "random_forest_disease" = false).
  { apply String.eqb_neq. intro H. rewrite H in Hhm. congruence. }
  apply (post_run _ _
           (fun o w' =>
              fails_with o _
              /\ In Ev_extract_disease_features (calls w')
              /\ classifier_inputs (model_type ++ "_disease") (calls w') = []
              /\ classifier_inputs "random_forest_disease" (calls w') = [])).
  wp.
  all: try congruence.
  all: split; [close_failure |].
  all: cbn [calls fresh app]; unfold classifier_inputs; cbn [flat_map app];
       rewrite ?Hne1, ?Hne2; cbn [app];
       split; [cbn; tauto | split; reflexivity].
Qed.

Lemma no_disease_model_available_witness :
  fails_with
    (fst (predict Sample.env (new_predictor Sample2.svm_health_only_dir) "leaf.jpg"
            "svm" fresh))
    "No disease classification model available".
Proof.
  apply (no_disease_model_available Sample.env
           (new_predictor Sample2.svm_health_only_dir) "leaf.jpg" "svm"
           Sample.patch_features).
  - apply sample_reaches_disease_stage. reflexivity.
  - reflexivity.
  - reflexivity.
Defined.

(** X12. In the RF/SVM branch an exception of [predict_proba] is not
    swallowed as it is for the health stage and for KNN: the request fails
    with ["Prediction error: "] followed by the text of the exception,
    although the disease classifier has answered. *)
Theorem standard_predict_proba_error_fails
    env self image_path model_type disease_features key disease_model names label
    proba e w :
  model_type = "random_forest" \/ model_type = "svm" ->
  reaches_disease_stage env self image_path model_type disease_features ->
  disease_key_resolves self model_type key ->
  PyDict.get (models self) key = Some (Some disease_model) ->
  sklearn.feature_names_in_ disease_model = Some names ->
  sklearn.predict disease_model (frame_input names disease_features) = Ok label ->
  sklearn.predict_proba disease_model = Some proba ->
  proba (frame_input names disease_features) = Raise e ->
  fails_with (fst (predict env self image_path model_type w))
    ("Prediction error: " ++ str_exn e).
Proof.
  intros Hbackend (image & hf & hm & hlabel & Himg & Hhf & Hhm & Hlabel & Hnz & Hdf)
    (Hmem & Hkey) Hdm Hnames Hpred Hproba Hraise.
  assert (Hlabel0 : (hlabel =? 0) = false) by (apply Z.eqb_neq; exact Hnz).
  unfold frame_input in *.
  rewrite <- (features_dict_of_values disease_features) in Hpred, Hraise.
  rewrite <- (features_dict_of_keys disease_features) in Hpred, Hraise.
  unfold PyDict.mem in Hmem, Hkey.
  destruct Hbackend; subst model_type; cbn [String.append] in *;
    (destruct Hkey as [Hkey | [Hnone Hkey]]; subst key;
     [| destruct (PyDict.get (models self) _) eqn:Hown in Hnone; [discriminate |]]);
    apply (post_run _ _ (fun o _ => fails_with o _));
    wp_request.
  all: try congruence.
  all: close_failure.
Qed.

Lemma standard_predict_proba_error_fails_witness :
  fails_with
    (fst (predict Sample.env (new_predictor Sample2.svm_no_proba_dir) "leaf.jpg"
            "svm" fresh))
    "Prediction error: predict_proba is not available when probability=False".
Proof.
  exact (standard_predict_proba_error_fails Sample.env
           (new_predictor Sample2.svm_no_proba_dir) "leaf.jpg" "svm"
           Sample.patch_features "svm_disease"
           (Sample2.no_proba_model 2 (Some ["symmetry_score"; "mean_r"]))
           ["symmetry_score"; "mean_r"] 2 _
           (AttributeError "predict_proba is not available when probability=False")
           fresh
           (or_intror eq_refl)
           (sample_reaches_disease_stage (new_predictor Sample2.svm_no_proba_dir)
              "svm" eq_refl)
           (conj eq_refl (or_introl eq_refl))
           eq_refl eq_refl eq_refl eq_refl eq_refl).
Defined.

(** A RF/SVM request whose classifier has a confidence, up to the
    resolution of the label. *)
Lemma standard_diseased_run
    env self image_path model_type disease_features key disease_model names label c w :
  model_type = "random_forest" \/ model_type = "svm" ->
  reaches_disease_stage env self image_path model_type disease_features ->
  disease_key_resolves self model_type key ->
  PyDict.get (models self) key = Some (Some disease_model) ->
  sklearn.feature_names_in_ disease_model = Some names ->
  sklearn.predict disease_model (frame_input names disease_features) = Ok label ->
  standard_confidence disease_model (frame_input names disease_features) label c ->
  match PyDict.get (label_encoders self) (encoder_key_of self model_type) with
  | None =>
      fails_with (fst (predict env self image_path model_type w))
        "Label encoder not available"
  | Some None => True
  | Some (Some encoder) =>
      forall disease_name,
        sklearn.inverse_transform encoder label = Ok disease_name ->
        exists info r,
          get_disease_info disease_name = Some info
          /\ fst (predict env self image_path model_type w) = Ok r
          /\ diseased_result r info c
  end.
Proof.
  intros Hbackend (image & hf & hm & hlabel & Himg & Hhf & Hhm & Hlabel & Hnz & Hdf)
    (Hmem & Hkey) Hdm Hnames Hpred Hconf.
  assert (Hlabel0 : (hlabel =? 0) = false) by (apply Z.eqb_neq; exact Hnz).
  unfold frame_input in *.
  rewrite <- (features_dict_of_values disease_features) in Hpred, Hconf.
  rewrite <- (features_dict_of_keys disease_features) in Hpred, Hconf.
  unfold PyDict.mem in Hmem, Hkey.
  unfold standard_confidence in Hconf.
  unfold encoder_key_of.
  destruct (PyDict.get (label_encoders self) _) as [[encoder |] |] eqn:Henc;
    [ intros disease_name Hname;
      destruct (get_disease_info_never_None_helper disease_name) as [info Hinfo]
    | exact I
    | ].
  all: destruct (sklearn.predict_proba disease_model) as [proba |] eqn:Hproba;
    [destruct Hconf as (probs & Hprobs & Hc) | subst c].
  all: destruct Hbackend; subst model_type; cbn [String.append] in *;
    (destruct Hkey as [Hkey | [Hnone Hkey]]; subst key;
     [| destruct (PyDict.get (models self) _) eqn:Hown in Hnone; [discriminate |]]).
  all: first
    [ apply (post_run _ _
               (fun o _ => exists info r, get_disease_info disease_name = Some info
                                          /\ o = Ok r /\ diseased_result r info _))
    | apply (post_run _ _ (fun o _ => fails_with o _)) ];
    wp_request.
  all: try congruence.
  all: first
    [ close_failure
    | eexists; eexists; split; [first [reflexivity | eassumption] |];
      split; [reflexivity |];
      unfold diseased_result;
      cbn [success prediction confidence disease_info message];
      repeat split; congruence ].
Qed.

(** X13. A random-forest or SVM request whose disease classifier carries
    feature names, answers [label] and has a confidence [c] for it (0.75
    without [predict_proba]) succeeds, once the encoder decodes the label,
    with ["Diseased Plant - "] followed by the name of the record of the
    decoded identifier, that record and the confidence [c]. The classifier
    is the backend's own or the random forest's, and so is the encoder. *)
Theorem standard_diseased_result
    env self image_path model_type disease_features key disease_model names label c
    encoder disease_name w :
  model_type = "random_forest" \/ model_type = "svm" ->
  reaches_disease_stage env self image_path model_type disease_features ->
  disease_key_resolves self model_type key ->
  PyDict.get (models self) key = Some (Some disease_model) ->
  sklearn.feature_names_in_ disease_model = Some names ->
  sklearn.predict disease_model (frame_input names disease_features) = Ok label ->
  standard_confidence disease_model (frame_input names disease_features) label c ->
  PyDict.get (label_encoders self) (encoder_key_of self model_type)
    = Some (Some encoder) ->
  sklearn.inverse_transform encoder label = Ok disease_name ->
  exists info r,
    get_disease_info disease_name = Some info
    /\ fst (predict env self image_path model_type w) = Ok r
    /\ diseased_result r info c.
Proof.
  intros Hbackend Hreach Hkey Hdm Hnames Hpred Hconf Henc Hname.
  pose proof (standard_diseased_run env self image_path model_type disease_features
                key disease_model names label c w
                Hbackend Hreach Hkey Hdm Hnames Hpred Hconf) as H.
  rewrite Henc in H. exact (H disease_name Hname).
Qed.

Lemma standard_diseased_result_witness :
  exists r,
    fst (predict Sample.env Sample.svm_named_predictor "leaf.jpg" "svm" fresh) = Ok r
    /\ prediction r = Some "Diseased Plant - Fusarium Wilt"
    /\ confidence r = Some 0.8%Q
    /\ option_map usability (disease_info r) = Some "No – Unfit for any medicinal use".
Proof.
  destruct (standard_diseased_result Sample.env Sample.svm_named_predictor "leaf.jpg"
              "svm" Sample.patch_features "svm_disease" Sample.named_disease_model
              ["symmetry_score"; "mean_r"; "leaf_age"] 2 0.8%Q Sample.encoder
              "fusarium_wilt" fresh
              (or_intror eq_refl)
              (sample_reaches_disease_stage Sample.svm_named_predictor "svm" eq_refl)
              (conj eq_refl (or_introl eq_refl))
              eq_refl eq_refl eq_refl
              (ex_intro _ [0.1; 0.1; 0.8]%Q (conj eq_refl eq_refl))
              eq_refl eq_refl)
    as (info & r & Hinfo & Hr & _ & Hp & Hc & Hd & _).
  exists r. inversion Hinfo. subst info.
  split; [exact Hr |]. split; [exact Hp |]. split; [exact Hc |].
  rewrite Hd. reflexivity.
Defined.

(** X14. When neither the backend nor the random forest has an encoder
    key, a random-forest or SVM request fails with
    ["Label encoder not available"], and it does so only after the disease
    classifier has answered. *)
Theorem label_encoder_not_available
    env self image_path model_type disease_features key disease_model names label c w :
  model_type = "random_forest" \/ model_type = "svm" ->
  reaches_disease_stage env self image_path model_type disease_features ->
  disease_key_resolves self model_type key ->
  PyDict.get (models self) key = Some (Some disease_model) ->
  sklearn.feature_names_in_ disease_model = Some names ->
  sklearn.predict disease_model (frame_input names disease_features) = Ok label ->
  standard_confidence disease_model (frame_input names disease_features) label c ->
  PyDict.mem model_type (label_encoders self) = false ->
  PyDict.mem "random_forest" (label_encoders self) = false ->
  fails_with (fst (predict env self image_path model_type w))
    "Label encoder not available".
Proof.
  intros Hbackend Hreach Hkey Hdm Hnames Hpred Hconf Hown Hrf.
  pose proof (standard_diseased_run env self image_path model_type disease_features
                key disease_model names label c w
                Hbackend Hreach Hkey Hdm Hnames Hpred Hconf) as H.
  unfold encoder_key_of in H. rewrite Hown in H.
  unfold PyDict.mem in Hrf.
  destruct (PyDict.get (label_encoders self) "random_forest"); [discriminate |].
  exact H.
Qed.

Lemma label_encoder_not_available_witness :
  fails_with
    (fst (predict Sample.env (new_predictor Sample2.svm_borrowing_dir) "leaf.jpg"
            "svm" fresh))
    "Label encoder not available".
Proof.
  exact (label_encoder_not_available Sample.env
           (new_predictor Sample2.svm_borrowing_dir) "leaf.jpg" "svm"
           Sample.patch_features "random_forest_disease" Sample.named_disease_model
           ["symmetry_score"; "mean_r"; "leaf_age"] 2 0.8%Q fresh
           (or_intror eq_refl)
           (sample_reaches_disease_stage (new_predictor Sample2.svm_borrowing_dir)
              "svm" eq_refl)
           (conj eq_refl (or_intror (conj eq_refl eq_refl)))
           eq_refl eq_refl eq_refl
           (ex_intro _ [0.1; 0.1; 0.8]%Q (conj eq_refl eq_refl))
           eq_refl eq_refl).
Defined.

(** ** The feature extractors *)

(** X15. Whatever the image, the feature [symmetry_score] of a valid
    image lies in [0, 1]: the wrapped differences of the [uint8] samples
    never leave 0..255. *)
Theorem symmetry_feature_in_unit_interval lib image :
  disease_fault lib image = None ->
  exists features score,
    extract_disease_features lib image = Ok features
    /\ PyDict.get features "symmetry_score" = Some score
    /\ in_unit_interval score.
Proof.
  intro Hvalid.
  destruct (symmetry_feature lib image Hvalid) as (features & Hfeatures & Hscore).
  exists features, (symmetry_score (disease_gray lib image)).
  split; [exact Hfeatures |]. split; [exact Hscore |].
  apply symmetry_score_in_unit_interval.
Qed.

Lemma symmetry_feature_in_unit_interval_witness :
  exists features score,
    extract_disease_features Sample.lib Sample.green_patch = Ok features
    /\ PyDict.get features "symmetry_score" = Some score
    /\ in_unit_interval score.
Proof.
  apply (symmetry_feature_in_unit_interval Sample.lib Sample.green_patch).
  reflexivity.
Defined.

Lemma zip_with_diagonal {A C} (f : A -> A -> C) l :
  zip_with f l l = map (fun x => f x x) l.
Proof.
  unfold zip_with. induction l as [| x l IH]; [reflexivity |].
  cbn. f_equal. exact IH.
Qed.

Lemma sumZ_zeros l : Forall (fun v => v = 0) l -> sumZ l = 0.
Proof.
  induction 1 as [| v l Hv _ IH]; [reflexivity |].
  cbn [sumZ fold_right]. fold (sumZ l). lia.
Qed.

Lemma mirror_symmetric_score gray :
  mirror_symmetric gray -> (symmetry_score gray == 1)%Q.
Proof.
  unfold mirror_symmetric, symmetry_score. intro Hsym. cbv zeta.
  rewrite Hsym, zip_with_diagonal.
  set (rows := cv2_flip_1 _). clearbody rows.
  assert (Hzero : sumZ (ravel (map (fun row => zip_with
                    (fun l r => Z.abs (uint8_sub l r)) row row) rows)) = 0).
  { apply sumZ_zeros. unfold ravel. apply Forall_concat.
    apply Forall_forall. intros row' Hrow'.
    apply in_map_iff in Hrow'. destruct Hrow' as (row & <- & _).
    rewrite zip_with_diagonal. apply Forall_forall. intros v Hv.
    apply in_map_iff in Hv. destruct Hv as (x & <- & _).
    unfold uint8_sub. rewrite Z.sub_diag. reflexivity. }
  unfold np_mean. rewrite Hzero.
  unfold Qdiv. rewrite !Qmult_0_l. reflexivity.
Qed.

(** X16. An image whose grayscale left half is the exact mirror image of
    its right half has the symmetry score 1. *)
Theorem mirror_symmetric_image_scores_one lib image :
  disease_fault lib image = None ->
  mirror_symmetric (disease_gray lib image) ->
  exists features score,
    extract_disease_features lib image = Ok features
    /\ PyDict.get features "symmetry_score" = Some score
    /\ (score == 1)%Q.
Proof.
  intros Hvalid Hsym.
  destruct (symmetry_feature lib image Hvalid) as (features & Hfeatures & Hscore).
  exists features, (symmetry_score (disease_gray lib image)).
  split; [exact Hfeatures |]. split; [exact Hscore |].
  apply mirror_symmetric_score. exact Hsym.
Qed.

Lemma mirror_symmetric_image_scores_one_witness :
  exists features score,
    extract_disease_features Sample.lib Sample.green_patch = Ok features
    /\ PyDict.get features "symmetry_score" = Some score
    /\ (score == 1)%Q.
Proof.
  apply (mirror_symmetric_image_scores_one Sample.lib Sample.green_patch).
  - reflexivity.
  - unfold mirror_symmetric. vm_compute. reflexivity.
Defined.

(** The area features of a valid image, as the extractor computes them. *)
Lemma disease_area_features lib image :
  disease_fault lib image = None ->
  exists features,
    extract_disease_features lib image = Ok features
    /\ PyDict.get features "yellow_area_percent"
       = Some (Qdiv (inject_Z (count_positive
                       (cv2_inRange (disease_hsv lib image)
                          (20, 100, 100) (35, 255, 255))))
                 (inject_Z (640 * 640)))
    /\ PyDict.get features "edge_density"
       = Some (Qdiv (inject_Z (count_positive (disease_edges lib image)))
                 (inject_Z (640 * 640))).
Proof.
  intro Hvalid. unfold extract_disease_features. rewrite Hvalid. cbv zeta.
  unfold disease_hsv, disease_edges, disease_gray.
  pose proof (lbp_histogram_length
                (local_binary_pattern lib
                   (cvtColor_BGR2GRAY lib (cv2_resize lib image (640, 640)%nat))
                   LBP_POINTS LBP_RADIUS "uniform")) as Hlen.
  set (hist := lbp_histogram _) in *. clearbody hist.
  set (yellow := Qdiv (inject_Z (count_positive (cv2_inRange _ _ _))) _).
  set (density := Qdiv (inject_Z (count_positive (Canny _ _ _ _))) _).
  clearbody yellow density.
  eexists. split; [reflexivity |].
  explode hist Hlen.
  split; reflexivity.
Qed.

Lemma count_positive_bounds a :
  0 <= count_positive a <= Z.of_nat (length (ravel a)).
Proof.
  unfold count_positive.
  pose proof (filter_length_le (fun v => 0 <? v) (ravel a)). lia.
Qed.

Lemma ravel_map_length {A B} (f : A -> B) (a : list (list A)) :
  length (ravel (map (map f) a)) = length (ravel a).
Proof.
  unfold ravel. induction a as [| row a IH]; [reflexivity |].
  cbn [map concat]. rewrite !length_app, length_map, IH. reflexivity.
Qed.

Lemma cv2_inRange_length src lower upper :
  length (ravel (cv2_inRange src lower upper)) = length (ravel src).
Proof.
  destruct lower as [[l0 l1] l2], upper as [[u0 u1] u2].
  apply ravel_map_length.
Qed.

Lemma fraction_in_unit_interval c n :
  0 <= c <= n -> 0 < n -> in_unit_interval (inject_Z c / inject_Z n).
Proof.
  intros Hc Hn. unfold in_unit_interval.
  assert (Hpos : (0 < inject_Z n)%Q) by (unfold Qlt; cbn; lia).
  split.
  - apply Qle_shift_div_l; [exact Hpos |].
    rewrite Qmult_0_l. unfold Qle; cbn; lia.
  - apply Qle_shift_div_r; [exact Hpos |].
    rewrite Qmult_1_l. unfold Qle; cbn; lia.
Qed.

(** X17. When the HSV image and the edge image have no more than
    640 x 640 samples, as the resized image has, the features
    [yellow_area_percent] and [edge_density] are fractions in [0, 1]
    (a fraction, not a percentage). *)
Theorem area_fractions_in_unit_interval lib image :
  disease_fault lib image = None ->
  Z.of_nat (length (ravel (disease_hsv lib image))) <= 640 * 640 ->
  Z.of_nat (length (ravel (disease_edges lib image))) <= 640 * 640 ->
  exists features yellow density,
    extract_disease_features lib image = Ok features
    /\ PyDict.get features "yellow_area_percent" = Some yellow
    /\ PyDict.get features "edge_density" = Some density
    /\ in_unit_interval yellow
    /\ in_unit_interval density.
Proof.
  intros Hvalid Hhsv Hedges.
  destruct (disease_area_features lib image Hvalid)
    as (features & Hfeatures & Hyellow & Hdensity).
  do 3 eexists.
  split; [exact Hfeatures |]. split; [exact Hyellow |]. split; [exact Hdensity |].
  split; apply fraction_in_unit_interval; try lia.
  - pose proof (count_positive_bounds
                  (cv2_inRange (disease_hsv lib image) (20, 100, 100) (35, 255, 255)))
      as Hcount.
    rewrite cv2_inRange_length in Hcount. lia.
  - pose proof (count_positive_bounds (disease_edges lib image)). lia.
Qed.

Lemma area_fractions_in_unit_interval_witness :
  exists features yellow density,
    extract_disease_features Sample.lib Sample.green_patch = Ok features
    /\ PyDict.get features "yellow_area_percent" = Some yellow
    /\ PyDict.get features "edge_density" = Some density
    /\ in_unit_interval yellow
    /\ in_unit_interval density.
Proof.
  apply (area_fractions_in_unit_interval Sample.lib Sample.green_patch).
  - reflexivity.
  - apply Z.leb_le. vm_compute. reflexivity.
  - apply Z.leb_le. vm_compute. reflexivity.
Defined.







(** *** The leaf area *)

Lemma max_list_step x y l :
  max_list x (y :: l) = max_list (if Qle_bool y x then x else y) l.
Proof. reflexivity. Qed.

Lemma max_list_member l : forall x, In (max_list x l) (x :: l).
Proof.
  induction l as [| y l IH]; intro x; [left; reflexivity |].
  rewrite max_list_step.
  destruct (IH (if Qle_bool y x then x else y)) as [Hm | Hm].
  - rewrite <- Hm. destruct (Qle_bool y x); [left | right; left]; reflexivity.
  - right. right. exact Hm.
Qed.

Lemma max_list_above_first l : forall x, (x <= max_list x l)%Q.
Proof.
  induction l as [| y l IH]; intro x; [apply Qle_refl |].
  rewrite max_list_step.
  apply Qle_trans with (y := if Qle_bool y x then x else y); [| apply IH].
  destruct (Qle_bool y x) eqn:Hyx; [apply Qle_refl |].
  destruct (Qlt_le_dec x y) as [Hlt | Hle].
  - apply Qlt_le_weak. exact Hlt.
  - apply Qle_bool_iff in Hle. congruence.
Qed.

Lemma max_list_above l : forall x, Forall (fun a => (a <= max_list x l)%Q) (x :: l).
Proof.
  induction l as [| y l IH]; intro x.
  - apply Forall_cons; [apply Qle_refl | apply Forall_nil].
  - apply Forall_cons; [apply max_list_above_first |].
    rewrite max_list_step.
    specialize (IH (if Qle_bool y x then x else y)).
    apply Forall_cons.
    + apply Forall_inv in IH.
      apply Qle_trans with (y := if Qle_bool y x then x else y); [| exact IH].
      destruct (Qle_bool y x) eqn:Hyx; [| apply Qle_refl].
      apply Qle_bool_iff. exact Hyx.
    + apply Forall_inv_tail in IH. exact IH.
Qed.

(** X19. The last health feature of a valid image is the area of the
    largest contour found in the thresholded image: it is one of the
    contour areas and none is larger; without a contour it is 0. *)
Theorem leaf_area_is_largest_contour lib image :
  health_fault lib image = None ->
  exists features area,
    extract_health_features lib image = Ok features
    /\ nth_error features 8 = Some area
    /\ Forall (fun a => (a <= area)%Q) (leaf_contour_areas lib image)
    /\ (leaf_contour_areas lib image = [] -> area = 0%Q)
    /\ (leaf_contour_areas lib image <> [] -> In area (leaf_contour_areas lib image)).
Proof.
  intro Hvalid. unfold extract_health_features. rewrite Hvalid. cbv zeta.
  unfold leaf_contour_areas. cbv zeta.
  set (areas := map (contourArea lib) _). clearbody areas.
  do 2 eexists. split; [reflexivity |]. split; [reflexivity |].
  destruct areas as [| a rest].
  - split; [apply Forall_nil |]. split; [reflexivity | congruence].
  - split; [apply max_list_above |].
    split; [discriminate |]. intros _. apply max_list_member.
Qed.

Lemma leaf_area_is_largest_contour_witness :
  exists features area,
    extract_health_features Sample3.contour_lib Sample.green_patch = Ok features
    /\ nth_error features 8 = Some area
    /\ Forall (fun a => (a <= area)%Q)
         (leaf_contour_areas Sample3.contour_lib Sample.green_patch)
    /\ (leaf_contour_areas Sample3.contour_lib Sample.green_patch = [] -> area = 0%Q)
    /\ (leaf_contour_areas Sample3.contour_lib Sample.green_patch <> [] ->
        In area (leaf_contour_areas Sample3.contour_lib Sample.green_patch)).
Proof.
  apply (leaf_area_is_largest_contour Sample3.contour_lib Sample.green_patch).
  reflexivity.
Defined.

(** *** The colour means *)

Lemma channel_8bit (c : Pixel -> Z) img :
  (c = ch0 \/ c = ch1 \/ c = ch2) ->
  image_8bit img = true ->
  Forall (fun v => 0 <= v <= 255) (ravel (channel c img)).
Proof.
  intros Hc Himg. unfold image_8bit in Himg. rewrite forallb_forall in Himg.
  unfold ravel, channel. apply Forall_concat. apply Forall_forall.
  intros row' Hrow'. apply in_map_iff in Hrow'. destruct Hrow' as (row & <- & Hrow).
  specialize (Himg row Hrow). rewrite forallb_forall in Himg.
  apply Forall_forall. intros v Hv.
  apply in_map_iff in Hv. destruct Hv as (p & <- & Hp).
  specialize (Himg p Hp).
  repeat (apply andb_true_iff in Himg; destruct Himg as [Himg ?]).
  destruct Hc as [-> | [-> | ->]]; lia.
Qed.

(** X20. When the resized image holds 8-bit samples, the three colour
    means of the health features (positions 5, 6 and 7) lie in
    [0, 255]. *)
Theorem health_color_means_in_range lib image :
  health_fault lib image = None ->
  image_8bit (cv2_resize lib image (256, 256)%nat) = true ->
  exists features,
    extract_health_features lib image = Ok features
    /\ length features = 9%nat
    /\ forall i, (5 <= i <= 7)%nat ->
         exists m, nth_error features i = Some m /\ (0 <= m /\ m <= 255)%Q.
Proof.
  intros Hvalid H8.
  destruct (extract_health_features_layout lib image Hvalid)
    as (contrast & dissimilarity & homogeneity & energy & correlation & area & Hf).
  eexists. split; [exact Hf |]. split; [reflexivity |].
  intros i Hi.
  assert (Hcases : i = 5%nat \/ i = 6%nat \/ i = 7%nat) by lia.
  destruct Hcases as [-> | [-> | ->]]; eexists; (split; [reflexivity |]);
    apply np_mean_bounds; apply channel_8bit; auto.
Qed.

Lemma health_color_means_in_range_witness :
  exists features,
    extract_health_features Sample.lib Sample.red256 = Ok features
    /\ length features = 9%nat
    /\ forall i, (5 <= i <= 7)%nat ->
         exists m, nth_error features i = Some m /\ (0 <= m /\ m <= 255)%Q.
Proof.
  apply (health_color_means_in_range Sample.lib Sample.red256).
  - reflexivity.
  - vm_compute. reflexivity.
Defined.

(** X21. When the resized image and its HSV conversion hold 8-bit
    samples, the six colour means [mean_r], [mean_g], [mean_b], [mean_h],
    [mean_s] and [mean_v] of the disease features lie in [0, 255]. *)
Theorem disease_color_means_in_range lib image :
  disease_fault lib image = None ->
  image_8bit (cv2_resize lib image (640, 640)%nat) = true ->
  image_8bit (disease_hsv lib image) = true ->
  exists features,
    extract_disease_features lib image = Ok features
    /\ forall key,
         In key ["mean_r"; "mean_g"; "mean_b"; "mean_h"; "mean_s"; "mean_v"] ->
         exists m, PyDict.get features key = Some m /\ (0 <= m /\ m <= 255)%Q.
Proof.
  intros Hvalid H8 Hhsv.
  destruct (extract_disease_features_entries lib image Hvalid)
    as (yellow & entropy & spots & edges & Hfeatures).
  cbv zeta in Hfeatures. fold (disease_hsv lib image) in Hfeatures.
  eexists. split; [exact Hfeatures |].
  intros key Hkey. cbn [In] in Hkey.
  destruct Hkey as [<- | [<- | [<- | [<- | [<- | [<- | []]]]]]];
    eexists; (split; [reflexivity |]);
    apply np_mean_bounds; apply channel_8bit; auto.
Qed.

Lemma disease_color_means_in_range_witness :
  exists features,
    extract_disease_features Sample.lib Sample.step_image = Ok features
    /\ forall key,
         In key ["mean_r"; "mean_g"; "mean_b"; "mean_h"; "mean_s"; "mean_v"] ->
         exists m, PyDict.get features key = Some m /\ (0 <= m /\ m <= 255)%Q.
Proof.
  apply (disease_color_means_in_range Sample.lib Sample.step_image).
  - reflexivity.
  - vm_compute. reflexivity.
  - vm_compute. reflexivity.
Defined.

(** ** predict: what every request does *)

Lemma image_reads_app evs evs' :
  image_reads (evs ++ evs') = (image_reads evs ++ image_reads evs')%list.
Proof. unfold image_reads. apply flat_map_app. Qed.

Ltac close_reads :=
  cbn [calls] in *; rewrite ?image_reads_app;
  repeat match goal with
         | H : image_reads _ = _ |- _ =>
             rewrite ?image_reads_app in H; cbn in H; rewrite ?app_nil_r in H;
             rewrite H; clear H
         end;
  cbn; rewrite ?app_nil_r; reflexivity.

(** A sub-computation known to read nothing is passed over. *)
Ltac pass_over lem :=
  let H := fresh "Hreads" in
  eapply post_weaken;
  [ apply lem | intros ? ? H; cbn [calls] in H | intros ? ? H; cbn [calls] in H ].

Lemma health_confidence_reads_nothing hkey health_model health_features label :
  reads_nothing (health_confidence_of hkey health_model health_features label).
Proof. intro w. wp; close_reads. Qed.

Lemma disease_infer_reads_nothing env self start_time model_type key disease_model features :
  reads_nothing (disease_infer env self start_time model_type key disease_model features).
Proof. intro w. wp; close_reads. Qed.

Lemma label_resolve_reads_nothing env self start_time model_type label confidence :
  reads_nothing (label_resolve env self start_time model_type label confidence).
Proof. intro w. wp; close_reads. Qed.

Lemma diseased_branch_reads_nothing env self start_time model_type image :
  reads_nothing (diseased_branch env self start_time model_type image).
Proof.
  intro w. unfold diseased_branch.
  repeat (cbv beta zeta; first
    [ lazymatch goal with
      | |- post (disease_infer _ _ _ _ _ _ _) _ _ _ =>
          pass_over disease_infer_reads_nothing
      | |- post (label_resolve _ _ _ _ _ _) _ _ _ =>
          pass_over label_resolve_reads_nothing
      end
    | wp_step ]).
  all: close_reads.
Qed.

(** A request reads the file it is given, and no other. *)
Lemma predict_reads_one_file env self image_path model_type w :
  post (predict env self image_path model_type) w
    (fun _ w' => image_reads (calls w') = (image_reads (calls w) ++ [image_path])%list)
    (fun _ _ => False).
Proof.
  unfold predict, predict_body.
  repeat (cbv beta zeta; first
    [ lazymatch goal with
      | |- post (health_confidence_of _ _ _ _) _ _ _ =>
          pass_over health_confidence_reads_nothing
      | |- post (diseased_branch _ _ _ _ _) _ _ _ =>
          pass_over diseased_branch_reads_nothing
      end
    | wp_step ]).
  all: close_reads.
Qed.

(** X22. Whatever the registry and the collaborators do, a request
    calls the decoder exactly once, on the path it was given. *)
Theorem predict_reads_its_image_once env self image_path model_type w :
  image_reads (calls (snd (predict env self image_path model_type w)))
  = (image_reads (calls w) ++ [image_path])%list.
Proof.
  pose proof (predict_reads_one_file env self image_path model_type w) as H.
  unfold post in H.
  destruct (predict env self image_path model_type w) as [[r | e] w'];
    [exact H | contradiction].
Qed.

(** X23. Under a clock that never runs backwards between two readings,
    the processing time of every result is not negative. *)
Theorem processing_time_nonnegative env self image_path model_type w r w' :
  (forall n, (time_time env n <= time_time env (S n))%Q) ->
  predict env self image_path model_type w = (Ok r, w') ->
  (0 <= processing_time r)%Q.
Proof.
  intros Hclock E.
  destruct (post_ok _ _ _ _ _ _ (predict_reports env self image_path model_type w) E)
    as [Htime _].
  rewrite Htime. specialize (Hclock (clock_reads w)).
  apply (Qplus_le_l _ _ (time_time env (clock_reads w))).
  rewrite Qplus_0_l.
  setoid_replace (time_time env (S (clock_reads w)) - time_time env (clock_reads w)
                  + time_time env (clock_reads w))%Q
    with (time_time env (S (clock_reads w))) by ring.
  exact Hclock.
Qed.

Lemma processing_time_nonnegative_witness :
  exists r w',
    predict Sample.env Sample.healthy_predictor "leaf.jpg" "random_forest" fresh
    = (Ok r, w')
    /\ (0 <= processing_time r)%Q.
Proof.
  destruct (predict Sample.env Sample.healthy_predictor "leaf.jpg" "random_forest" fresh)
    as [[r | e] w'] eqn:E.
  - exists r, w'. split; [reflexivity |].
    apply (processing_time_nonnegative Sample.env Sample.healthy_predictor "leaf.jpg"
             "random_forest" fresh r w'); [| exact E].
    intro n. unfold Sample.env, Sample.clock, time_time.
    rewrite <- Zle_Qle. lia.
  - vm_compute in E. discriminate E.
Defined.

(** ** The service of main.py *)

(** *** Strings *)

Lemma prefix_app p s : String.prefix p (p ++ s) = true.
Proof.
  induction p as [| c p IH]; cbn.
  - destruct s; reflexivity.
  - destruct (Ascii.ascii_dec c c); [exact IH | contradiction].
Qed.

Lemma prefix_split p : forall s, String.prefix p s = true -> exists rest, s = p ++ rest.
Proof.
  induction p as [| c p IH]; intros s H.
  - exists s. reflexivity.
  - destruct s as [| c' s]; cbn in H; [discriminate |].
    destruct (Ascii.ascii_dec c c') as [<- |]; [| discriminate].
    destruct (IH s H) as (rest & ->). exists rest. reflexivity.
Qed.

Lemma append_assoc' (a b c : string) : (a ++ b) ++ c = a ++ b ++ c.
Proof. induction a as [| x a IH]; cbn; [reflexivity | rewrite IH; reflexivity]. Qed.

Lemma replace_from_skip old new o :
  forall rest,
    replace_from old new (String.length o) (o ++ rest) = replace_from old new 0 rest.
Proof.
  induction o as [| c o IH]; intro rest; [reflexivity |].
  cbn. apply IH.
Qed.

(** [(old + rest).replace(old, new) == new + rest.replace(old, new)] *)
Lemma str_replace_prefix c o new rest :
  str_replace (String c o) new (String c o ++ rest)
  = new ++ str_replace (String c o) new rest.
Proof.
  unfold str_replace.
  change (String c o ++ rest) with (String c (o ++ rest)).
  cbn [replace_from].
  change (String c (o ++ rest)) with (String c o ++ rest).
  rewrite prefix_app.
  cbn [String.length]. rewrite Nat.sub_1_r. cbn [Nat.pred].
  rewrite replace_from_skip. reflexivity.
Qed.

(** A text without the first character of [old] is left as it is. *)
Lemma str_replace_lacks c o new s :
  lacks c s = true -> str_replace (String c o) new s = s.
Proof.
  unfold str_replace. induction s as [| c' s IH]; intro H; [reflexivity |].
  cbn [lacks] in H. apply andb_true_iff in H. destruct H as [Hc Hs].
  cbn [replace_from String.prefix].
  destruct (Ascii.ascii_dec c c') as [<- | _].
  - rewrite Ascii.eqb_refl in Hc. discriminate.
  - rewrite (IH Hs). reflexivity.
Qed.

Lemma lacks_app c s t : lacks c (s ++ t) = lacks c s && lacks c t.
Proof.
  induction s as [| c' s IH]; cbn; [reflexivity |].
  rewrite IH, andb_assoc. reflexivity.
Qed.

Lemma lacks_prefix c s : lacks c s = true -> String.prefix (String c "") s = false.
Proof.
  destruct s as [| c' s]; cbn; [reflexivity |].
  intro H. apply andb_true_iff in H. destruct H as [Hc _].
  destruct (Ascii.ascii_dec c c') as [<- |]; [| reflexivity].
  rewrite Ascii.eqb_refl in Hc. discriminate.
Qed.

Lemma after_last_lacks sep s : lacks sep s = true -> after_last sep s = None.
Proof.
  induction s as [| c s IH]; cbn; [reflexivity |].
  intro H. apply andb_true_iff in H. destruct H as [Hc Hs].
  rewrite (IH Hs). destruct (Ascii.eqb c sep); [discriminate | reflexivity].
Qed.

Lemma last_segment_app sep stem ext :
  lacks sep ext = true -> last_segment sep (stem ++ String sep ext) = ext.
Proof.
  intro H. unfold last_segment.
  assert (E : after_last sep (stem ++ String sep ext) = Some ext).
  { induction stem as [| c stem IH]; cbn.
    - rewrite (after_last_lacks _ _ H), Ascii.eqb_refl. reflexivity.
    - rewrite IH. reflexivity. }
  rewrite E. reflexivity.
Qed.

Lemma last_segment_lacks sep s : lacks sep s = true -> last_segment sep s = s.
Proof. intro H. unfold last_segment. rewrite (after_last_lacks _ _ H). reflexivity. Qed.

Lemma str_in_In x l : str_in x l = true <-> In x l.
Proof.
  unfold str_in. rewrite existsb_exists. split.
  - intros (y & Hy & E). apply String.eqb_eq in E. subst. exact Hy.
  - intro H. exists x. split; [exact H | apply String.eqb_refl].
Qed.

Lemma bind_ret {A} (m : M A) w : (x <- m ;; ret x) w = m w.
Proof. unfold bind, ret. destruct (m w) as [[a | e] w']; reflexivity. Qed.

(** *** GET /models *)

(** X24. The model list names a backend exactly when its health
    classifier is registered: the disease classifier and the encoder of a
    listed backend may be missing. *)
Theorem listed_models_have_health_classifier predictor model_type :
  In model_type (map main.name (main.get_available_models predictor))
  <-> str_in model_type ["random_forest"; "svm"; "knn"] = true
      /\ PyDict.mem (model_type ++ "_health") (models predictor) = true.
Proof.
  unfold main.get_available_models. cbv zeta.
  destruct (PyDict.mem "random_forest_health" (models predictor)) eqn:Hrf,
           (PyDict.mem "svm_health" (models predictor)) eqn:Hsvm,
           (PyDict.mem "knn_health" (models predictor)) eqn:Hknn;
    cbn [app map main.name In]; split.
  all: try (intros [Hin Hmem]; apply str_in_In in Hin; cbn [In] in Hin;
            repeat (destruct Hin as [<- | Hin];
                    [cbn [String.append] in Hmem; try congruence; tauto |]);
            contradiction).
  all: intro Hin;
       repeat (destruct Hin as [<- | Hin]; [split; [reflexivity | assumption] |]);
       contradiction.
Qed.

(** *** POST /upload *)

(** The file a successful upload writes, and the path it answers with. *)
Lemma upload_file_saves_what_it_checked_helper cfg file_id file r path bytes :
  main.upload_file cfg file_id file = main.Respond (r, (path, bytes)) ->
  exists ext,
    In ext (main.ALLOWED_EXTENSIONS cfg)
    /\ path = os_path_join (main.UPLOAD_PATH cfg) (file_id ++ "." ++ ext)
    /\ message r = Some ("/uploads/" ++ file_id ++ "." ++ ext).
Proof.
  unfold main.upload_file. cbv zeta.
  destruct (String.eqb (main.filename file) ""); [discriminate |].
  destruct (str_in _ (main.ALLOWED_EXTENSIONS cfg)) eqn:Hext; cbn [negb];
    [| discriminate].
  destruct (main.MAX_FILE_SIZE cfg <? _); [discriminate |].
  intro H. inversion H. subst.
  eexists. split; [apply str_in_In; exact Hext |]. split; reflexivity.
Qed.

(** X25. What [upload_file] writes is what it checked: the bytes of the
    upload, no more than [MAX_FILE_SIZE] of them, under the drawn
    identifier and an extension of [ALLOWED_EXTENSIONS], which is the
    lower-cased text after the last dot of the client's file name; the
    message of the response is the served path of that file. *)
Theorem upload_file_saves_what_it_checked cfg file_id file r path bytes :
  main.upload_file cfg file_id file = main.Respond (r, (path, bytes)) ->
  main.filename file <> ""
  /\ bytes = main.contents file
  /\ Z.of_nat (length bytes) <= main.MAX_FILE_SIZE cfg
  /\ exists ext,
       ext = lower (last_segment "." (main.filename file))
       /\ In ext (main.ALLOWED_EXTENSIONS cfg)
       /\ path = os_path_join (main.UPLOAD_PATH cfg) (file_id ++ "." ++ ext)
       /\ success r = true
       /\ message r = Some ("/uploads/" ++ file_id ++ "." ++ ext).
Proof.
  unfold main.upload_file. cbv zeta.
  destruct (String.eqb (main.filename file) "") eqn:Hname; [discriminate |].
  destruct (str_in _ (main.ALLOWED_EXTENSIONS cfg)) eqn:Hext; cbn [negb];
    [| discriminate].
  destruct (main.MAX_FILE_SIZE cfg <? _) eqn:Hsize; [discriminate |].
  intro H. inversion H. subst.
  split; [apply String.eqb_neq; exact Hname |].
  split; [reflexivity |].
  split; [apply Z.ltb_ge; exact Hsize |].
  eexists. split; [reflexivity |].
  split; [apply str_in_In; exact Hext |].
  repeat split.
Qed.

Lemma upload_file_saves_what_it_checked_witness :
  exists r,
    main.upload_file main.default_config Sample3.upload_id Sample3.upload
    = main.Respond (r, (Sample3.saved_path, main.contents Sample3.upload))
    /\ message r = Some "/uploads/7f3c2a9e.png".
Proof.
  eexists. split; [reflexivity |].
  destruct (upload_file_saves_what_it_checked main.default_config Sample3.upload_id
              Sample3.upload _ _ _ eq_refl)
    as (_ & _ & _ & ext & -> & _ & _ & _ & Hmsg).
  exact Hmsg.
Defined.

(** X26. Only the text after the last dot of the file name decides: a
    name [stem.ext], whatever the stem, and a name that is nothing but
    [ext], is accepted when the lower-cased [ext] is allowed and the
    upload is within the size limit, and saved under the lower-cased
    extension. *)
Theorem upload_accepted_by_last_extension cfg file_id stem ext bytes name :
  lacks "." ext = true ->
  name = stem ++ "." ++ ext \/ (name = ext /\ ext <> "") ->
  str_in (lower ext) (main.ALLOWED_EXTENSIONS cfg) = true ->
  Z.of_nat (length bytes) <= main.MAX_FILE_SIZE cfg ->
  exists r,
    main.upload_file cfg file_id (main.mkUploadFile name bytes)
    = main.Respond
        (r, (os_path_join (main.UPLOAD_PATH cfg) (file_id ++ "." ++ lower ext), bytes))
    /\ message r = Some ("/uploads/" ++ file_id ++ "." ++ lower ext).
Proof.
  intros Hdot Hname Hext Hsize.
  assert (Hseg : last_segment "." name = ext).
  { destruct Hname as [-> | [-> _]].
    - apply last_segment_app. exact Hdot.
    - apply last_segment_lacks. exact Hdot. }
  assert (Hne : String.eqb name "" = false).
  { apply String.eqb_neq. destruct Hname as [-> | [-> Hne]]; [| exact Hne].
    destruct stem; discriminate. }
  unfold main.upload_file. cbv zeta. cbn [main.filename main.contents].
  rewrite Hne, Hseg, Hext. cbn [negb].
  apply Z.ltb_ge in Hsize. rewrite Hsize.
  eexists. split; reflexivity.
Qed.

Lemma upload_accepted_by_last_extension_witness :
  exists r,
    main.upload_file main.default_config Sample3.upload_id
      (main.mkUploadFile "notes.txt.JPG" [])
    = main.Respond (r, ("./uploads/7f3c2a9e.jpg", []))
    /\ message r = Some "/uploads/7f3c2a9e.jpg".
Proof.
  apply (upload_accepted_by_last_extension main.default_config Sample3.upload_id
           "notes.txt" "JPG" [] "notes.txt.JPG").
  - reflexivity.
  - left. reflexivity.
  - reflexivity.
  - vm_compute. discriminate.
Defined.

(** *** POST /predict *)

Lemma reads_grow (l : list string) p : l <> (l ++ [p])%list.
Proof.
  intro H. apply (f_equal (@length string)) in H.
  rewrite length_app in H. cbn in H. lia.
Qed.

(** X27. [predict_disease] answers every request with a response and
    raises nothing; a failure has the prediction ["Error"] and a message;
    and a request that reads no image was turned down by the route itself:
    it left no trace, read no clock, and reports the processing time 0. *)
Theorem predict_disease_never_raises cfg path_exists env predictor model_type image_path w :
  exists r w',
    main.predict_disease cfg path_exists env predictor model_type image_path w
    = (Ok r, w')
    /\ (success r = false ->
        prediction r = Some "Error" /\ exists msg, message r = Some msg)
    /\ (image_reads (calls w') = image_reads (calls w) ->
        w' = w /\ success r = false /\ processing_time r = 0%Q).
Proof.
  assert (Hrej : forall msg,
            exists r w',
              ret (main.rejected msg) w = (Ok r, w')
              /\ (success r = false ->
                  prediction r = Some "Error" /\ exists m, message r = Some m)
              /\ (image_reads (calls w') = image_reads (calls w) ->
                  w' = w /\ success r = false /\ processing_time r = 0%Q)).
  { intro msg. do 2 eexists. split; [reflexivity |].
    split; [intros _; split; [reflexivity | eexists; reflexivity] |].
    intros _. repeat split. }
  assert (Hrun : forall full_path,
            exists r w',
              (x <- predict env predictor full_path model_type ;; ret x) w = (Ok r, w')
              /\ (success r = false ->
                  prediction r = Some "Error" /\ exists m, message r = Some m)
              /\ (image_reads (calls w') = image_reads (calls w) ->
                  w' = w /\ success r = false /\ processing_time r = 0%Q)).
  { intro full_path. rewrite bind_ret.
    destruct (post_elim _ _ _ (predict_reports env predictor full_path model_type w))
      as (r & w' & E & _ & Hfail).
    pose proof (post_ok _ _ _ _ _ _
                  (predict_reads_one_file env predictor full_path model_type w) E)
      as Hreads.
    exists r, w'. split; [exact E |]. split; [exact Hfail |].
    cbv beta in Hreads. intro Hsame. rewrite Hsame in Hreads. destruct (reads_grow _ _ Hreads). }
  unfold main.predict_disease. cbv zeta.
  destruct (str_in model_type _); cbn [negb]; [| apply Hrej].
  destruct (String.prefix "/samples/" image_path).
  - destruct (path_exists _); cbn [negb]; [apply Hrun | apply Hrej].
  - destruct (String.prefix "/uploads/" image_path); [| apply Hrej].
    destruct (path_exists _); cbn [negb]; [apply Hrun | apply Hrej].
Qed.

(** X28. The only image file a request makes the predictor read is one
    that exists under [SAMPLE_IMAGES_PATH] or [UPLOAD_PATH], and only for
    one of the three backend names. *)
Theorem predict_disease_reads_only_served_files
    cfg path_exists env predictor model_type image_path w p :
  In p (image_reads
          (calls (snd (main.predict_disease cfg path_exists env predictor
                         model_type image_path w)))) ->
  In p (image_reads (calls w))
  \/ (str_in model_type ["random_forest"; "svm"; "knn"] = true
      /\ path_exists p = true
      /\ (String.prefix (main.SAMPLE_IMAGES_PATH cfg ++ "/") p = true
          \/ String.prefix (main.UPLOAD_PATH cfg ++ "/") p = true)).
Proof.
  assert (Hrun : forall full_path,
            In p (image_reads
                    (calls (snd ((x <- predict env predictor full_path model_type ;;
                                  ret x) w)))) ->
            In p (image_reads (calls w)) \/ p = full_path).
  { intros full_path. rewrite bind_ret.
    pose proof (predict_reads_one_file env predictor full_path model_type w) as H.
    unfold post in H.
    destruct (predict env predictor full_path model_type w) as [[r | e] w'];
      [| contradiction].
    cbn [snd]. rewrite H. intro Hin. apply in_app_or in Hin.
    destruct Hin as [Hin | [<- | []]]; [left; exact Hin | right; reflexivity]. }
  unfold main.predict_disease. cbv zeta.
  destruct (str_in model_type _) eqn:Hmodel; cbn [negb]; [| left; assumption].
  destruct (String.prefix "/samples/" image_path) eqn:Hsamples.
  - destruct (path_exists _) eqn:Hexists; cbn [negb]; [| left; assumption].
    intro Hin. destruct (Hrun _ Hin) as [Hold | ->]; [left; exact Hold |].
    right. split; [reflexivity |]. split; [exact Hexists |]. left.
    destruct (prefix_split _ _ Hsamples) as (rest & ->).
    rewrite str_replace_prefix. apply prefix_app.
  - destruct (String.prefix "/uploads/" image_path) eqn:Huploads;
      [| left; assumption].
    destruct (path_exists _) eqn:Hexists; cbn [negb]; [| left; assumption].
    intro Hin. destruct (Hrun _ Hin) as [Hold | ->]; [left; exact Hold |].
    right. split; [reflexivity |]. split; [exact Hexists |]. right.
    destruct (prefix_split _ _ Huploads) as (rest & ->).
    rewrite str_replace_prefix. apply prefix_app.
Qed.

Lemma predict_disease_reads_only_served_files_witness :
  Sample3.disk Sample3.saved_path = true
  /\ String.prefix "./uploads/" Sample3.saved_path = true.
Proof.
  destruct (predict_disease_reads_only_served_files main.default_config Sample3.disk
              Sample3.served_env Sample.healthy_predictor "random_forest"
              "/uploads/7f3c2a9e.png" fresh Sample3.saved_path)
    as [[] | (_ & Hexists & [Hsamples | Huploads])].
  - vm_compute. left. reflexivity.
  - discriminate Hsamples.
  - split; [exact Hexists | exact Huploads].
Defined.

(** X29. The path a successful upload answers with leads [predict_disease]
    to the very file the upload wrote: when the identifier and the allowed
    extensions hold no slash and [UPLOAD_PATH] is a non-empty path without
    a trailing slash, a request for that path and a known backend is the
    run of [predict] on the saved file. *)
Theorem uploaded_file_is_the_one_predicted
    cfg path_exists env predictor file_id file r path bytes model_type :
  main.upload_file cfg file_id file = main.Respond (r, (path, bytes)) ->
  lacks "/" file_id = true ->
  forallb (lacks "/") (main.ALLOWED_EXTENSIONS cfg) = true ->
  main.UPLOAD_PATH cfg <> "" ->
  ends_with_slash (main.UPLOAD_PATH cfg) = false ->
  str_in model_type ["random_forest"; "svm"; "knn"] = true ->
  path_exists path = true ->
  exists url,
    message r = Some url
    /\ forall w,
         main.predict_disease cfg path_exists env predictor model_type url w
         = predict env predictor path model_type w.
Proof.
  intros Hup Hid Hexts Hpath Hslash Hmodel Hexists.
  destruct (upload_file_saves_what_it_checked_helper _ _ _ _ _ _ Hup)
    as (ext & Hin & -> & Hmsg).
  rewrite forallb_forall in Hexts. specialize (Hexts ext Hin).
  assert (Hname : lacks "/" (file_id ++ "." ++ ext) = true).
  { rewrite !lacks_app, Hid, Hexts. reflexivity. }
  assert (Hjoin : os_path_join (main.UPLOAD_PATH cfg) (file_id ++ "." ++ ext)
                  = (main.UPLOAD_PATH cfg ++ "/") ++ file_id ++ "." ++ ext).
  { unfold os_path_join. rewrite (lacks_prefix _ _ Hname).
    apply String.eqb_neq in Hpath. rewrite Hpath, Hslash. cbn [orb].
    rewrite append_assoc'. reflexivity. }
  eexists. split; [exact Hmsg |]. intro w.
  unfold main.predict_disease. cbv zeta. rewrite Hmodel. cbn [negb].
  change (String.prefix "/samples/" ("/uploads/" ++ file_id ++ "." ++ ext)) with false.
  cbv iota. rewrite prefix_app.
  rewrite str_replace_prefix, (str_replace_lacks _ _ _ _ Hname), <- Hjoin.
  rewrite Hexists. cbn [negb]. apply bind_ret.
Qed.

Lemma uploaded_file_is_the_one_predicted_witness :
  exists url,
    url = "/uploads/7f3c2a9e.png"
    /\ fst (main.predict_disease main.default_config Sample3.disk Sample3.served_env
              Sample.healthy_predictor "random_forest" url fresh)
       = fst (predict Sample3.served_env Sample.healthy_predictor Sample3.saved_path
                "random_forest" fresh).
Proof.
  destruct (uploaded_file_is_the_one_predicted main.default_config Sample3.disk
              Sample3.served_env Sample.healthy_predictor Sample3.upload_id
              Sample3.upload _ _ _ "random_forest"
              eq_refl eq_refl eq_refl ltac:(discriminate) eq_refl eq_refl eq_refl)
    as (url & Hmsg & Hrun).
  exists url. split; [vm_compute in Hmsg; injection Hmsg as <-; reflexivity |].
  rewrite Hrun. reflexivity.
Defined.

(** ** predict: the diseased branch of every backend *)

Section DiseasedRun.

Variable env : Env.
Variable self : BasilDiseasePredictor.

Lemma disease_infer_run
    start_time model_type key disease_model disease_features label c w :
  disease_classified self model_type disease_model disease_features label c ->
  post (disease_infer env self start_time model_type key (Some disease_model)
          disease_features) w
    (fun pc _ => pc = inr (label, c))
    (fun _ _ => False).
Proof.
  unfold disease_infer, disease_classified.
  destruct (String.eqb model_type "knn" && PyDict.mem "knn_disease" (models self)).
  - intros [Hpred ->]. unfold knn_input, confidence_or in *.
    destruct (sklearn.feature_names_in_ disease_model) as [names |] eqn:Hnames;
      [ rewrite <- features_dict_of_values in *
      | change (select_features disease_features canonical_order)
          with (features_list_of disease_features) in * ];
      wp.
    all: try congruence.
    all: repeat match goal with
                | H : ?x = _ |- context [match ?x with _ => _ end] => rewrite H
                end; reflexivity.
  - intros (names & Hnames & Hpred & Hconf).
    unfold frame_input, standard_confidence in *.
    rewrite <- (features_dict_of_values disease_features) in Hpred, Hconf.
    rewrite <- (features_dict_of_keys disease_features) in Hpred, Hconf.
    destruct (sklearn.predict_proba disease_model) as [proba |] eqn:Hproba;
      [destruct Hconf as (probs & Hprobs & Hc) | subst c];
      wp.
    all: congruence.
Qed.

Lemma label_resolve_run start_time model_type label c encoder disease_name w :
  PyDict.get (label_encoders self) (encoder_key_of self model_type)
  = Some (Some encoder) ->
  sklearn.inverse_transform encoder label = Ok disease_name ->
  post (label_resolve env self start_time model_type label c) w
    (fun r _ =>
       exists info,
         get_disease_info disease_name = Some info /\ diseased_result r info c)
    (fun _ _ => False).
Proof.
  intros Henc Hname.
  destruct (get_disease_info_never_None_helper disease_name) as [info Hinfo].
  unfold label_resolve. unfold encoder_key_of in Henc.
  destruct (PyDict.mem model_type (label_encoders self)) eqn:Hown; wp.
  all: try congruence.
  all: eexists; split; [first [reflexivity | eassumption] |]; repeat split.
Qed.

(** A request of any backend whose stages all answer. *)
Lemma diseased_run
    image_path model_type disease_features key disease_model label c encoder
    disease_name w :
  reaches_disease_stage env self image_path model_type disease_features ->
  disease_key_resolves self model_type key ->
  PyDict.get (models self) key = Some (Some disease_model) ->
  disease_classified self model_type disease_model disease_features label c ->
  PyDict.get (label_encoders self) (encoder_key_of self model_type)
  = Some (Some encoder) ->
  sklearn.inverse_transform encoder label = Ok disease_name ->
  exists info r,
    get_disease_info disease_name = Some info
    /\ fst (predict env self image_path model_type w) = Ok r
    /\ diseased_result r info c.
Proof.
  intros (image & hf & hm & hlabel & Himg & Hhf & Hhm & Hlabel & Hnz & Hdf)
    (Hmem & Hkey) Hdm Hclassified Henc Hname.
  assert (Hlabel0 : (hlabel =? 0) = false) by (apply Z.eqb_neq; exact Hnz).
  unfold PyDict.mem in Hmem, Hkey.
  destruct Hkey as [Hkey | [Hnone Hkey]]; subst key;
    [| destruct (PyDict.get (models self) (model_type ++ "_disease")) eqn:Hown in Hnone;
       [discriminate |]].
  all: apply (post_run _ _
                (fun o _ => exists info r, get_disease_info disease_name = Some info
                                           /\ o = Ok r /\ diseased_result r info c)).
  all: unfold predict, predict_body, diseased_branch.
  all: repeat (cbv beta zeta; first
    [ lazymatch goal with
      | |- post (health_confidence_of _ _ _ _) _ _ _ =>
          eapply post_weaken;
          [ apply (health_confidence_quiet "")
          | intros ? ? _
          | intros ? ? [] ]
      | |- post (disease_infer _ _ _ _ _ (Some _) _) _ _ _ =>
          let Hpc := fresh "Hpc" in
          eapply post_weaken;
          [ apply (disease_infer_run _ _ _ _ _ _ _ _ Hclassified)
          | intros ? ? Hpc; rewrite Hpc; cbv beta iota
          | intros ? ? [] ]
      | |- post (label_resolve _ _ _ _ _ _) _ _ _ =>
          let Hr := fresh "Hresolved" in
          eapply post_weaken;
          [ apply (label_resolve_run _ _ _ _ _ _ _ Henc Hname)
          | intros ? ? Hr
          | intros ? ? [] ]
      end
    | wp_step ]).
  all: try congruence.
  all: destruct Hresolved as (info & Hinfo & Hr); exists info; eexists;
    split; [exact Hinfo |]; split; [reflexivity | exact Hr].
Qed.

End DiseasedRun.

(** X10. A decoded identifier that the table of diseases lacks is not
    reported as an error, whatever the backend: a request that reaches
    the disease stage, whose disease classifier answers a label and whose
    encoder decodes it to such an identifier, succeeds with the prediction
    ["Diseased Plant - Healthy Basil"] and the record of the healthy
    plant, severity [none]. *)
Theorem unknown_label_reported_with_healthy_record
    env self image_path model_type disease_features key disease_model label c encoder
    disease_name w :
  reaches_disease_stage env self image_path model_type disease_features ->
  disease_key_resolves self model_type key ->
  PyDict.get (models self) key = Some (Some disease_model) ->
  disease_classified self model_type disease_model disease_features label c ->
  PyDict.get (label_encoders self) (encoder_key_of self model_type)
  = Some (Some encoder) ->
  sklearn.inverse_transform encoder label = Ok disease_name ->
  PyDict.get DISEASE_INFO (lower disease_name) = None ->
  exists r,
    fst (predict env self image_path model_type w) = Ok r
    /\ success r = true
    /\ prediction r = Some "Diseased Plant - Healthy Basil"
    /\ confidence r = Some c
    /\ disease_info r = healthy_record
    /\ option_map severity (disease_info r) = Some severity_none.
Proof.
  intros Hreach Hkey Hdm Hclassified Henc Hname Hunknown.
  destruct (diseased_run env self _ _ _ _ _ _ _ _ _ w
              Hreach Hkey Hdm Hclassified Henc Hname)
    as (info & r & Hinfo & Hr & Hs & Hp & Hc & Hd & _).
  unfold get_disease_info in Hinfo. rewrite Hunknown in Hinfo.
  exists r. split; [exact Hr |]. split; [exact Hs |].
  inversion Hinfo. subst info.
  split; [exact Hp |]. split; [exact Hc |]. rewrite Hd. split; reflexivity.
Qed.

Lemma unknown_label_reported_with_healthy_record_witness :
  exists r,
    fst (predict Sample.env (new_predictor Sample3.svm_stray_dir) "leaf.jpg" "svm" fresh)
      = Ok r
    /\ success r = true
    /\ prediction r = Some "Diseased Plant - Healthy Basil"
    /\ confidence r = Some 0.8%Q.
Proof.
  destruct (unknown_label_reported_with_healthy_record Sample.env
              (new_predictor Sample3.svm_stray_dir) "leaf.jpg" "svm"
              Sample.patch_features "svm_disease" Sample.named_disease_model 2 0.8%Q
              Sample2.stray_encoder "powdery_mildew" fresh
              (sample_reaches_disease_stage (new_predictor Sample3.svm_stray_dir)
                 "svm" eq_refl)
              (conj eq_refl (or_introl eq_refl))
              eq_refl
              (ex_intro _ ["symmetry_score"; "mean_r"; "leaf_age"]
                 (conj eq_refl
                    (conj eq_refl
                       (ex_intro _ [0.1; 0.1; 0.8]%Q (conj eq_refl eq_refl)))))
              eq_refl eq_refl eq_refl)
    as (r & Hr & Hs & Hp & Hc & _).
  exists r. auto.
Defined.
